(** * DreamCapture: ephemeral-content lifecycle and resonance matching

    A shallow embedding of the backend's core (resonance scorer, fallback
    tag extractor, visibility sweep, creation endpoints with their quotas,
    read endpoints and the WebSocket fan-out) together with the properties
    the specification states about them.

    Conventions of the embedding:
    - a [datetime] is the number of microseconds since the epoch ([Z]),
      always in UTC; a [timedelta] is a number of microseconds;
    - a Python [str] is a [string] whose characters stand for the code
      points 0..255;
    - a table is a finite map from primary key to row;
    - calls to the chat endpoint are recorded in a trace, and exceptions
      are explicit outcomes;
    - what the services outside the program answer (the AI and moderation
      endpoints, Redis, the WebSockets, the file system, bcrypt and the
      JWT codec) is a parameter: each call returns or raises as the
      service decides, a WebSocket possibly differently from one call to
      the next. *)

From Stdlib Require Import ZArith Ascii String.
From stdpp Require Import base option list strings gmap sets sorting pretty.

(** ** Python strings *)

Module Py.

Definition isspace (c : ascii) : bool :=
  let n := N_of_ascii c in
  (((9 <=? n) && (n <=? 13)) || ((28 <=? n) && (n <=? 32))
   || (n =? 133) || (n =? 160))%N.

Definition lower_char (c : ascii) : ascii :=
  let n := N_of_ascii c in
  if (((65 <=? n) && (n <=? 90))
      || ((192 <=? n) && (n <=? 222) && negb (n =? 215)))%N
  then ascii_of_N (n + 32) else c.

(** [s.lower()] *)
Fixpoint lower (s : string) : string :=
  match s with
  | EmptyString => EmptyString
  | String c s' => String (lower_char c) (lower s')
  end.

Definition flush (w : string) : list string :=
  match w with
  | EmptyString => []
  | _ => [w]
  end.

Fixpoint split_from (w : string) (s : string) : list string :=
  match s with
  | EmptyString => flush w
  | String c s' =>
      if isspace c then flush w ++ split_from EmptyString s'
      else split_from (w +:+ String c EmptyString) s'
  end.

(** [s.split()]: the maximal runs of non-whitespace characters. *)
Definition split (s : string) : list string := split_from EmptyString s.

(** [sep.join(l)] *)
Definition join (sep : string) (l : list string) : string :=
  String.concat sep l.

(** [len(s)] *)
Definition len (s : string) : nat := String.length s.

(** [s[:n]] *)
Definition prefix (n : nat) (s : string) : string := substring 0 n s.

(** Truth value of an [Optional[str]]: [None] and the empty string are
    false. *)
Definition truthy (o : option string) : bool :=
  match o with
  | None => false
  | Some s => negb (String.eqb s EmptyString)
  end.

(** The double-quote character, as a one-character string. *)
Definition dquote : string := String (ascii_of_nat 34) EmptyString.

(** The line feed, as a one-character string. *)
Definition newline : string := String (ascii_of_nat 10) EmptyString.

(** [s.lstrip()], [s.rstrip()] and [s.strip()] *)
Fixpoint lstrip (s : string) : string :=
  match s with
  | EmptyString => EmptyString
  | String c s' => if isspace c then lstrip s' else s
  end.

Fixpoint rstrip (s : string) : string :=
  match s with
  | EmptyString => EmptyString
  | String c s' =>
      match rstrip s' with
      | EmptyString => if isspace c then EmptyString else String c EmptyString
      | r => String c r
      end
  end.

Definition strip (s : string) : string := lstrip (rstrip s).

(** [s.encode('utf-8')] on the code points 0..255: one byte below 128, two
    bytes from 128 on. *)
Definition encode_char (c : ascii) : list N :=
  let n := N_of_ascii c in
  if (n <? 128)%N then [n] else [(192 + n / 64)%N; (128 + n `mod` 64)%N].

Fixpoint encode_utf8 (s : string) : list N :=
  match s with
  | EmptyString => []
  | String c s' => encode_char c ++ encode_utf8 s'
  end.

(** [b.decode('utf-8', errors='ignore')] on bytes that encode code points
    0..255: a byte below 128 is a character, a lead byte 194 or 195 followed
    by a continuation byte is a character, and a byte that starts no such
    sequence is dropped. *)
Fixpoint decode_utf8_ignore (b : list N) : string :=
  match b with
  | [] => EmptyString
  | x :: b' =>
      if (x <? 128)%N then String (ascii_of_N x) (decode_utf8_ignore b')
      else
        match b' with
        | y :: b'' =>
            if (((x =? 194) || (x =? 195)) && (128 <=? y) && (y <? 192))%N
            then String (ascii_of_N ((x - 192) * 64 + (y - 128))) (decode_utf8_ignore b'')
            else decode_utf8_ignore b'
        | [] => EmptyString
        end
  end.

End Py.

(** ** JSON values, as [json.loads] produces them *)

#[local] Set Warnings "-register-all".
Inductive json : Type :=
| JNull
| JBool (b : bool)
| JInt (n : Z)
| JStr (s : string)
| JList (l : list json)
| JDict (d : list (string * json)).
#[local] Set Warnings "register-all".

(** [d[k]] on a decoded object. *)
Fixpoint assoc (k : string) (d : list (string * json)) : option json :=
  match d with
  | [] => None
  | (k', v) :: d' => if String.eqb k k' then Some v else assoc k d'
  end.

Definition dict_get (k : string) (j : json) : option json :=
  match j with
  | JDict d => assoc k d
  | _ => None
  end.

(** ** Exceptions and the trace of upstream calls *)

Module Eff.

Inductive Exception : Type :=
| UpstreamError (msg : string)
| IndexError
| TypeError
| JSONDecodeError.

Inductive outcome (A : Type) : Type :=
| Returned (a : A)
| Raised (e : Exception).
Arguments Returned {A} a.
Arguments Raised {A} e.

Definition is_returned {A : Type} (o : outcome A) : bool :=
  match o with
  | Returned _ => true
  | Raised _ => false
  end.

(** A request to [chat.completions.create]. *)
Record chat_request : Type := ChatRequest {
  model : string;
  prompt : string;
  max_completion_tokens : Z
}.

(** A computation: the requests it sent, in order, and how it ended. *)
Record M (A : Type) : Type := Run {
  trace : list chat_request;
  result : outcome A
}.
Arguments Run {A} trace result.
Arguments trace {A} m.
Arguments result {A} m.

#[export] Instance M_ret : MRet M := λ A a, Run [] (Returned a).

#[export] Instance M_bind : MBind M := λ A B f m,
  match result m with
  | Returned a => let r := f a in Run (trace m ++ trace r) (result r)
  | Raised e => Run (trace m) (Raised e)
  end.

Definition raise {A : Type} (e : Exception) : M A := Run [] (Raised e).

Definition lift {A : Type} (o : outcome A) : M A := Run [] o.

(** [try: body  except Exception as e: handler e] *)
Definition try_except {A : Type} (body : M A) (handler : Exception → M A) : M A :=
  match result body with
  | Returned a => body
  | Raised e => let r := handler e in Run (trace body ++ trace r) (result r)
  end.

End Eff.
Export Eff.

(** ** Settings (app/config.py) *)

Module Settings.

Record t : Type := Make {
  OPENAI_API_KEY : string;
  MOMENT_TTL_SECONDS : Z;
  MAX_DREAMS_PER_DAY : Z;
  MAX_MOMENTS_PER_HOUR : Z;
  ENABLE_AI_FEATURES : bool
}.

Definition set_MOMENT_TTL_SECONDS (n : Z) (s : t) : t :=
  Make (OPENAI_API_KEY s) n (MAX_DREAMS_PER_DAY s) (MAX_MOMENTS_PER_HOUR s)
    (ENABLE_AI_FEATURES s).

Definition default : t := {|
  OPENAI_API_KEY := EmptyString;
  MOMENT_TTL_SECONDS := 60;
  MAX_DREAMS_PER_DAY := 10;
  MAX_MOMENTS_PER_HOUR := 20;
  ENABLE_AI_FEATURES := true
|}.

End Settings.

(** ** The AI service (app/ai_service.py) *)

Module AIService.

(** One entry of [response.choices]: its [message.content]. *)
Record choice : Type := Choice { message_content : option string }.

(** The chat client: what [chat.completions.create] answers to a request,
    the list [response.choices] or an exception. *)
Record AsyncOpenAI : Type := Client {
  chat_completions_create : chat_request → outcome (list choice)
}.

Record t : Type := Make {
  anthropic_client : option unit;
  openai_client : option AsyncOpenAI
}.

(** [AIService.__init__]; [backend] is the client the key gives access to. *)
Definition init (settings : Settings.t) (backend : AsyncOpenAI) : t :=
  if Settings.ENABLE_AI_FEATURES settings then
    {| anthropic_client := None;
       openai_client :=
         if Py.truthy (Some (Settings.OPENAI_API_KEY settings))
         then Some backend else None |}
  else {| anthropic_client := None; openai_client := None |}.

(** The analysis dictionary of a dream, in the shape [analyze_dream]
    documents; [None] is a missing key. *)
Record analysis : Type := Analysis {
  themes : option (list string);
  emotions : option (list string);
  symbols : option (list string);
  narrative : option string;
  tags : option (list string);
  visual_prompt : option string
}.

(** [[w for w in words if len(w) > n][:5]] *)
Definition keywords (n : nat) (words : list string) : list string :=
  take 5 (filter (λ w, n < Py.len w) words).

Definition analyze_moment (self : t) (caption : option string)
    (media_type : string) : list string :=
  if negb (Py.truthy caption) then [media_type; "moment"; "now"]
  else
    let words := Py.split (Py.lower (default EmptyString caption)) in
    let tags := keywords 3 words in
    let tags := tags ++ [media_type] in
    let tags := tags ++ ["moment"] in
    tags.

Definition _mock_dream_analysis (description : string) : analysis :=
  let words := Py.split (Py.lower description) in
  let tags := keywords 4 words in
  {| themes := Some ["journey"; "transformation"];
     emotions := Some ["curiosity"; "wonder"];
     symbols := Some (match tags with
                      | [] => ["dream"; "night"; "mystery"]
                      | _ => take 3 tags
                      end);
     narrative := Some (if bool_decide (100 < Py.len description)
                        then Py.prefix 100 description +:+ "..."
                        else description);
     tags := Some (match tags with
                   | [] => ["dream"; "sleep"; "night"]
                   | _ => tags
                   end);
     visual_prompt := Some (Py.prefix 200 description) |}.

(** [dream_analysis.get(key, [])] *)
Definition get_list (field : option (list string)) : list string :=
  default [] field.

Definition resonance (score : Z) (explanation : string) : json :=
  JDict [("score", JInt score); ("explanation", JStr explanation)].

Definition _mock_resonance (dream_analysis : analysis)
    (moment_tags : list string) : json :=
  let dream_tags : gset string := list_to_set (get_list (tags dream_analysis)) in
  let common := dream_tags ∩ list_to_set moment_tags in
  resonance (Z.of_nat (size common) * 25) "Subtle resonance detected".

Definition resonance_prompt (dream_themes dream_emotions dream_tags : list string)
    (moment_caption : string) (moment_tags : list string) : string :=
  "Analyze resonance between a dream and a moment:" +:+ Py.newline +:+ Py.newline
  +:+ "Dream themes: " +:+ Py.join ", " dream_themes +:+ Py.newline
  +:+ "Dream emotions: " +:+ Py.join ", " dream_emotions +:+ Py.newline
  +:+ "Dream tags: " +:+ Py.join ", " dream_tags +:+ Py.newline +:+ Py.newline
  +:+ "Moment caption: " +:+ moment_caption +:+ Py.newline
  +:+ "Moment tags: " +:+ Py.join ", " moment_tags +:+ Py.newline +:+ Py.newline
  +:+ "Provide JSON:" +:+ Py.newline
  +:+ "{" +:+ Py.newline
  +:+ "  " +:+ Py.dquote +:+ "score" +:+ Py.dquote +:+ ": 0-100," +:+ Py.newline
  +:+ "  " +:+ Py.dquote +:+ "explanation" +:+ Py.dquote +:+ ": "
  +:+ Py.dquote +:+ "poetic one-sentence explanation of connection" +:+ Py.dquote
  +:+ Py.newline
  +:+ "}".

Section with_json.

(** [json.loads], [None] standing for [JSONDecodeError]. *)
Variable json_loads : string → option json.

Definition loads (content : option string) : M json :=
  match content with
  | None => raise TypeError
  | Some s =>
      match json_loads s with
      | Some v => mret v
      | None => raise JSONDecodeError
      end
  end.

(** [await client.chat.completions.create(...)] *)
Definition create (client : AsyncOpenAI) (req : chat_request) : M (list choice) :=
  Run [req] (chat_completions_create client req).

(** [response.choices[0]] *)
Definition first_choice (choices : list choice) : M choice :=
  match choices with
  | c :: _ => mret c
  | [] => raise IndexError
  end.

(** The body of the [try] block: it returns the decoded answer. *)
Definition refine (client : AsyncOpenAI) (prompt : string) : M json :=
  choices ← create client (ChatRequest "gpt-4o-mini" prompt 256);
  c ← first_choice choices;
  loads (message_content c).

(** [calculate_resonance]. The last [return] of the source is reached on two
    paths, after the handler and when the refinement is not tried; it is
    [fall_through] here. The order in which Python iterates over a set is
    unspecified; [elements] stands for it. *)
Definition calculate_resonance (self : t) (dream_analysis : analysis)
    (moment_tags : list string) (moment_caption : option string) : M json :=
  match openai_client self with
  | None => mret (_mock_resonance dream_analysis moment_tags)
  | Some client =>
      let dream_tags := get_list (tags dream_analysis) in
      let dream_themes := get_list (themes dream_analysis) in
      let dream_emotions := get_list (emotions dream_analysis) in
      let common_tags : gset string := list_to_set dream_tags ∩ list_to_set moment_tags in
      let score := (Z.of_nat (size common_tags) * 20)%Z in
      let fall_through : M json :=
        mret (resonance (Z.min score 100)
                (if bool_decide (common_tags ≠ ∅)
                 then "Shared elements: " +:+ Py.join ", " (elements common_tags)
                 else "Subtle connection")) in
      if bool_decide (20 < score)%Z && Py.truthy moment_caption then
        let prompt :=
          resonance_prompt dream_themes dream_emotions dream_tags
            (default EmptyString moment_caption) moment_tags in
        try_except (refine client prompt) (λ e, fall_through)
      else fall_through
  end.

End with_json.

(** *** Dream analysis and image generation *)

Section with_analysis.

(** [json.loads] on an answer constrained by the response schema of the
    request: the analysis it encodes, [None] standing for
    [JSONDecodeError]. *)
Variable analysis_loads : string → option analysis.

(** The prompt of the source, a fixed Russian text around the description. *)
Variable dream_prompt : string → string.

(** [settings.DREAM_ANALYSIS_MODEL] *)
Variable DREAM_ANALYSIS_MODEL : string.

Definition analyze_dream (self : t) (dream_description : string) : M analysis :=
  match openai_client self with
  | None => mret (_mock_dream_analysis dream_description)
  | Some client =>
      try_except
        (choices ← create client
                     (ChatRequest DREAM_ANALYSIS_MODEL (dream_prompt dream_description) 1024);
         c ← first_choice choices;
         let content := message_content c in
         if negb (Py.truthy content) then mret (_mock_dream_analysis dream_description)
         else
           match analysis_loads (default EmptyString content) with
           | Some analysis => mret analysis
           | None => raise JSONDecodeError
           end)
        (λ e, mret (_mock_dream_analysis dream_description))
  end.

End with_analysis.

(** The image endpoint and the local store, as the service sees them:
    [images.generate] answers a prompt with the urls of [response.data] or
    raises; fetching a url and writing it to a path succeeds or raises;
    [timestamp] and [unique_id] are the readings of the clock and of
    [uuid4] that name the file. *)
Record image_backend : Type := ImageBackend {
  images_generate : string → outcome (list (option string));
  fetch_and_write : string → string → outcome unit;
  timestamp : string;
  unique_id : string
}.

Definition _download_and_save_image (backend : image_backend)
    (image_url : option string) : option string :=
  let filename := "dream_" +:+ timestamp backend +:+ "_" +:+ unique_id backend +:+ ".png" in
  let file_path := "/var/www/dreamcapture/backend/static/uploads/dreams/" +:+ filename in
  match image_url with
  | None => None
  | Some url =>
      match fetch_and_write backend url file_path with
      | Returned _ => Some ("/uploads/dreams/" +:+ filename)
      | Raised _ => None
      end
  end.

(** [enhanced_prompt[:4000]] *)
Definition image_prompt (visual_prompt : string) (dream_title : option string) : string :=
  let enhanced_prompt :=
    "Dreamlike surreal artwork: " +:+ visual_prompt
    +:+ ". Ethereal, soft focus, mystical atmosphere, artistic interpretation." in
  let enhanced_prompt :=
    if Py.truthy dream_title
    then default EmptyString dream_title +:+ " - " +:+ enhanced_prompt
    else enhanced_prompt in
  Py.prefix 4000 enhanced_prompt.

Definition generate_dream_image (self : t) (backend : image_backend)
    (visual_prompt : string) (dream_title : option string) : option string :=
  match openai_client self with
  | None => None
  | Some _ =>
      match images_generate backend (image_prompt visual_prompt dream_title) with
      | Raised _ => None
      | Returned [] => None
      | Returned (temp_url :: _) =>
          let local_url := _download_and_save_image backend temp_url in
          if Py.truthy local_url then local_url else temp_url
      end
  end.

End AIService.

(** ** Time *)

Module Time.

Definition microsecond : Z := 1.
Definition second : Z := 1000000.
Definition hour : Z := 3600 * second.
Definition day : Z := 86400 * second.

(** [timedelta(days=n)], [timedelta(seconds=n)], [timedelta(hours=n)] *)
Definition days (n : Z) : Z := (n * day)%Z.
Definition seconds (n : Z) : Z := (n * second)%Z.
Definition hours (n : Z) : Z := (n * hour)%Z.

(** [t.replace(hour=0, minute=0, second=0, microsecond=0)] on a UTC instant *)
Definition midnight (t : Z) : Z := (t - t `mod` day)%Z.

End Time.

(** ** Rows and tables (app/models.py) *)

Module Dream.

Record t : Type := Make {
  id : N;
  user_id : N;
  title : option string;
  description : string;
  audio_url : option string;
  ai_analysis : option AIService.analysis;
  ai_tags : option (list string);
  generated_image_url : option string;
  created_at : Z;
  expires_at : Z;
  ttl_days : Z;
  is_public : bool;
  is_visible : bool;
  view_count : Z
}.

Definition set_is_visible (b : bool) (d : t) : t :=
  Make (id d) (user_id d) (title d) (description d) (audio_url d)
    (ai_analysis d) (ai_tags d) (generated_image_url d) (created_at d)
    (expires_at d) (ttl_days d) (is_public d) b (view_count d).

Definition set_view_count (n : Z) (d : t) : t :=
  Make (id d) (user_id d) (title d) (description d) (audio_url d)
    (ai_analysis d) (ai_tags d) (generated_image_url d) (created_at d)
    (expires_at d) (ttl_days d) (is_public d) (is_visible d) n.

(** The three fields the enrichment task assigns. *)
Definition set_enrichment (analysis : AIService.analysis) (tags : list string)
    (image_url : option string) (d : t) : t :=
  Make (id d) (user_id d) (title d) (description d) (audio_url d)
    (Some analysis) (Some tags) image_url (created_at d)
    (expires_at d) (ttl_days d) (is_public d) (is_visible d) (view_count d).

End Dream.

Module Moment.

Record t : Type := Make {
  id : N;
  user_id : N;
  caption : option string;
  media_type : string;
  media_url : string;
  location : option json;
  ai_tags : option (list string);
  created_at : Z;
  expires_at : Z;
  is_visible : bool;
  view_count : Z
}.

Definition set_is_visible (b : bool) (m : t) : t :=
  Make (id m) (user_id m) (caption m) (media_type m) (media_url m)
    (location m) (ai_tags m) (created_at m) (expires_at m) b (view_count m).

Definition set_view_count (n : Z) (m : t) : t :=
  Make (id m) (user_id m) (caption m) (media_type m) (media_url m)
    (location m) (ai_tags m) (created_at m) (expires_at m) (is_visible m) n.

Definition set_ai_tags (tags : list string) (m : t) : t :=
  Make (id m) (user_id m) (caption m) (media_type m) (media_url m)
    (location m) (Some tags) (created_at m) (expires_at m) (is_visible m) (view_count m).

End Moment.

Module DB.

Record t : Type := Make {
  dreams : gmap N Dream.t;
  moments : gmap N Moment.t
}.

(** [session.execute(select(T).where(p)).scalars().all()]: the selected
    rows with their primary keys. *)
Definition select {A : Type} (p : A → bool) (tbl : gmap N A) : list (N * A) :=
  map_to_list (filter (λ kv : N * A, p kv.2 = true) tbl).

(** Assigning attributes of the selected objects and committing updates
    the rows with their keys. *)
Definition update_all {A B : Type} (f : A → A) (rows : list (N * B))
    (tbl : gmap N A) : gmap N A :=
  foldl (λ acc kv, alter f kv.1 acc) tbl rows.

(** [uuid.uuid4()]: a key that no row of the table has. *)
Definition new_id {A : Type} (tbl : gmap N A) : N := fresh (dom tbl).

End DB.

(** ** The visibility sweep (cleanup_expired.py) *)

Module Cleanup.

Record report : Type := Report {
  hidden_moments : nat;
  hidden_dreams : nat;
  timestamp : Z
}.

Definition moment_due (now : Z) (m : Moment.t) : bool :=
  bool_decide (Moment.expires_at m ≤ now)%Z && Moment.is_visible m.

Definition dream_due (now : Z) (d : Dream.t) : bool :=
  bool_decide (Dream.expires_at d ≤ now)%Z && Dream.is_visible d.

Definition cleanup_expired_content (now : Z) (db : DB.t) : DB.t * report :=
  let expired_moments := DB.select (moment_due now) (DB.moments db) in
  let moments := DB.update_all (Moment.set_is_visible false) expired_moments (DB.moments db) in
  let hidden_moments := length expired_moments in
  let expired_dreams := DB.select (dream_due now) (DB.dreams db) in
  let dreams := DB.update_all (Dream.set_is_visible false) expired_dreams (DB.dreams db) in
  let hidden_dreams := length expired_dreams in
  (DB.Make dreams moments, Report hidden_moments hidden_dreams now).

(** The database after one sweep. *)
Definition sweep (now : Z) (db : DB.t) : DB.t := (cleanup_expired_content now db).1.

(** The database after a sequence of sweeps at the given instants. *)
Definition sweeps (times : list Z) (db : DB.t) : DB.t :=
  foldl (λ acc now, sweep now acc) db times.

End Cleanup.

(** ** Request schemas (app/schemas.py) *)

Module DreamCreate.

Record t : Type := Make {
  description : string;
  title : option string;
  audio_url : option string;
  is_public : bool;
  ttl_days : Z
}.

(** The [Field] constraints. *)
Definition validate (d : t) : bool :=
  bool_decide (10 ≤ Py.len (description d) ≤ 5000)
  && match title d with
     | Some s => bool_decide (Py.len s ≤ 200)
     | None => true
     end
  && bool_decide (1 ≤ ttl_days d ≤ 30)%Z.

Definition set_ttl_days (n : Z) (d : t) : t :=
  Make (description d) (title d) (audio_url d) (is_public d) n.

End DreamCreate.

Module MomentCreate.

Record t : Type := Make {
  caption : option string;
  media_type : string;
  media_url : string;
  location : option json
}.

Definition validate (m : t) : bool :=
  match caption m with
  | Some s => bool_decide (Py.len s ≤ 500)
  | None => true
  end
  && (String.eqb (media_type m) "photo" || String.eqb (media_type m) "video").

End MomentCreate.

(** ** Moderation (app/moderation.py), an external capability *)

Module ContentModerator.

Record moderation_result : Type := Result {
  flagged : bool;
  categories : list (string * bool)
}.

Record t : Type := Make {
  check_text : string → moderation_result;
  get_violation_message : moderation_result → string
}.

End ContentModerator.

(** ** HTTP outcomes of a route *)

Inductive response (A : Type) : Type :=
| Success (status_code : Z) (body : A)
| HTTPException (status_code : Z) (detail : string)
| RequestValidationError.
Arguments Success {A} status_code body.
Arguments HTTPException {A} status_code detail.
Arguments RequestValidationError {A}.

(** Work handed over by a route: background tasks, and messages that were
    published. *)
Inductive task : Type :=
| process_dream_ai (dream_id : N) (description : string)
| process_moment_ai (moment_id : N) (caption : string) (media_type : string)
| publish (channel : string) (moment_id : N).

Record handled (A : Type) : Type := Handled {
  db_after : DB.t;
  scheduled : list task;
  reply : response A
}.
Arguments Handled {A} db_after scheduled reply.
Arguments db_after {A} h.
Arguments scheduled {A} h.
Arguments reply {A} h.

(** A request that is refused leaves the database as it was. *)
Definition refuse {A : Type} (db : DB.t) (status_code : Z) (detail : string) : handled A :=
  Handled db [] (HTTPException status_code detail).

(** ** Dream routes (app/routers/dreams.py) *)

Module Dreams.

Definition created_today (user : N) (today_start : Z) (d : Dream.t) : bool :=
  bool_decide (Dream.user_id d = user)
  && bool_decide (today_start ≤ Dream.created_at d)%Z.

(** The retention tier: the request always has the attribute [ttl_days], and
    a value other than 1, 7 and 30 is replaced by 1. *)
Definition choose_ttl (ttl_days : Z) : Z :=
  if bool_decide (ttl_days ∈ [1; 7; 30]%Z) then ttl_days else 1%Z.

(** The title, or the empty string for a missing or empty title, a space
    and the description. *)
Definition text_to_check (dream_data : DreamCreate.t) : string :=
  (if Py.truthy (DreamCreate.title dream_data)
   then default EmptyString (DreamCreate.title dream_data) else EmptyString)
  +:+ " " +:+ DreamCreate.description dream_data.

(** [create_dream]; [clock0] and [clock1] are the two readings of the
    clock, the first for the quota and the second for the row. *)
Definition create_dream (settings : Settings.t) (content_moderator : ContentModerator.t)
    (dream_data : DreamCreate.t) (current_user : N) (clock0 clock1 : Z)
    (db : DB.t) : handled Dream.t :=
  let moderation_result :=
    ContentModerator.check_text content_moderator (text_to_check dream_data) in
  if ContentModerator.flagged moderation_result then
    refuse db 400 (ContentModerator.get_violation_message content_moderator moderation_result)
  else
    let today_start := Time.midnight clock0 in
    let today_dreams := DB.select (created_today current_user today_start) (DB.dreams db) in
    if bool_decide (Settings.MAX_DREAMS_PER_DAY settings ≤ Z.of_nat (length today_dreams))%Z then
      refuse db 429
        ("Maximum " +:+ pretty (Settings.MAX_DREAMS_PER_DAY settings) +:+ " dreams per day")
    else
      let now := clock1 in
      let ttl_days := choose_ttl (DreamCreate.ttl_days dream_data) in
      let expires_at := (now + Time.days ttl_days)%Z in
      let new_dream :=
        {| Dream.id := DB.new_id (DB.dreams db);
           Dream.user_id := current_user;
           Dream.title := DreamCreate.title dream_data;
           Dream.description := DreamCreate.description dream_data;
           Dream.audio_url := DreamCreate.audio_url dream_data;
           Dream.ai_analysis := None;
           Dream.ai_tags := None;
           Dream.generated_image_url := None;
           Dream.created_at := now;
           Dream.expires_at := expires_at;
           Dream.ttl_days := ttl_days;
           Dream.is_public := DreamCreate.is_public dream_data;
           Dream.is_visible := true;
           Dream.view_count := 0 |} in
      Handled
        (DB.Make (<[Dream.id new_dream := new_dream]> (DB.dreams db)) (DB.moments db))
        (if Settings.ENABLE_AI_FEATURES settings
         then [process_dream_ai (Dream.id new_dream) (DreamCreate.description dream_data)]
         else [])
        (Success 201 new_dream).

(** [POST /dreams]: the body is validated against the schema before the
    handler runs. *)
Definition post (settings : Settings.t) (content_moderator : ContentModerator.t)
    (dream_data : DreamCreate.t) (current_user : N) (clock0 clock1 : Z)
    (db : DB.t) : handled Dream.t :=
  if DreamCreate.validate dream_data
  then create_dream settings content_moderator dream_data current_user clock0 clock1 db
  else Handled db [] RequestValidationError.

Definition listed (now : Z) (d : Dream.t) : bool :=
  Dream.is_public d && Dream.is_visible d && bool_decide (now < Dream.expires_at d)%Z.

(** [desc(Dream.created_at)] *)
Definition newer (a b : Dream.t) : Prop := (Dream.created_at b ≤ Dream.created_at a)%Z.

#[export] Instance newer_dec : RelDecision newer :=
  λ a b, decide (Dream.created_at b ≤ Dream.created_at a)%Z.

Definition get_dreams (skip limit : nat) (now : Z) (db : DB.t) : list Dream.t :=
  take limit (drop skip (merge_sort newer (DB.select (listed now) (DB.dreams db)).*2)).

Definition get_dream (dream_id : N) (now : Z) (db : DB.t) : handled Dream.t :=
  match DB.dreams db !! dream_id with
  | None => refuse db 404 "Dream not found"
  | Some dream =>
      if bool_decide (Dream.expires_at dream ≤ now)%Z then refuse db 410 "Dream expired"
      else if negb (Dream.is_public dream) then refuse db 403 "This dream is private"
      else
        let dream := Dream.set_view_count (Dream.view_count dream + 1) dream in
        Handled (DB.Make (<[dream_id := dream]> (DB.dreams db)) (DB.moments db)) []
          (Success 200 dream)
  end.

Definition mine (user : N) (now : Z) (d : Dream.t) : bool :=
  bool_decide (Dream.user_id d = user) && bool_decide (now < Dream.expires_at d)%Z.

Definition get_my_dreams (skip limit : nat) (current_user : N) (now : Z) (db : DB.t)
    : list Dream.t :=
  take limit (drop skip (merge_sort newer (DB.select (mine current_user now) (DB.dreams db)).*2)).

(** [delete_dream]; the rows of other tables that refer to the dream are
    outside the tables kept here. *)
Definition delete_dream (dream_id : N) (current_user : N) (db : DB.t) : handled unit :=
  match DB.dreams db !! dream_id with
  | None => refuse db 404 "Dream not found"
  | Some dream =>
      if bool_decide (Dream.user_id dream ≠ current_user) then refuse db 403 "Access denied"
      else Handled (DB.Make (delete dream_id (DB.dreams db)) (DB.moments db)) [] (Success 204 ())
  end.

Section enrichment.

Variable analysis_loads : string → option AIService.analysis.
Variable dream_prompt : string → string.
Variable DREAM_ANALYSIS_MODEL : string.
Variable ai_service : AIService.t.
Variable backend : AIService.image_backend.

(** The background task; the database after it, the handler of the source
    rolling back to the database as it was. *)
Definition process_dream_ai (dream_id : N) (description : string) (db : DB.t) : M DB.t :=
  try_except
    (analysis ← AIService.analyze_dream analysis_loads dream_prompt DREAM_ANALYSIS_MODEL
                  ai_service description;
     let visual_prompt :=
       default (Py.prefix 200 description) (AIService.visual_prompt analysis) in
     let image_url := AIService.generate_dream_image ai_service backend visual_prompt None in
     match DB.dreams db !! dream_id with
     | Some dream =>
         let dream :=
           Dream.set_enrichment analysis (AIService.get_list (AIService.tags analysis))
             image_url dream in
         mret (DB.Make (<[dream_id := dream]> (DB.dreams db)) (DB.moments db))
     | None => mret db
     end)
    (λ e, mret db).

End enrichment.

End Dreams.

(** ** The Redis client (redis.asyncio)

    [publish] of the message [new_moment:<id>] on a channel returns or
    raises. *)

Module Redis.

Record t : Type := Make { publish : string → N → outcome unit }.

End Redis.

(** ** Moment routes (app/routers/moments.py) *)

Module Moments.

Definition created_since (user : N) (hour_ago : Z) (m : Moment.t) : bool :=
  bool_decide (Moment.user_id m = user)
  && bool_decide (hour_ago ≤ Moment.created_at m)%Z.

(** [create_moment]. The row is committed before the message is published,
    and the call to [publish] is outside any [try]: when it raises, the
    exception leaves the handler with the row stored and no task added, and
    the global exception handler of the application answers 500. *)
Definition create_moment (settings : Settings.t) (content_moderator : ContentModerator.t)
    (redis_client : Redis.t) (moment_data : MomentCreate.t) (current_user : N)
    (clock0 clock1 : Z) (db : DB.t) : handled Moment.t :=
  let rejected :=
    if Py.truthy (MomentCreate.caption moment_data) then
      let moderation_result :=
        ContentModerator.check_text content_moderator
          (default EmptyString (MomentCreate.caption moment_data)) in
      if ContentModerator.flagged moderation_result
      then Some (ContentModerator.get_violation_message content_moderator moderation_result)
      else None
    else None in
  match rejected with
  | Some error_msg => refuse db 400 error_msg
  | None =>
    let hour_ago := (clock0 - Time.hours 1)%Z in
    let recent_moments := DB.select (created_since current_user hour_ago) (DB.moments db) in
    if bool_decide (Settings.MAX_MOMENTS_PER_HOUR settings ≤ Z.of_nat (length recent_moments))%Z then
      refuse db 429
        ("Maximum " +:+ pretty (Settings.MAX_MOMENTS_PER_HOUR settings) +:+ " moments per hour")
    else
      let now := clock1 in
      let expires_at := (now + Time.seconds (Settings.MOMENT_TTL_SECONDS settings))%Z in
      let new_moment :=
        {| Moment.id := DB.new_id (DB.moments db);
           Moment.user_id := current_user;
           Moment.caption := MomentCreate.caption moment_data;
           Moment.media_type := MomentCreate.media_type moment_data;
           Moment.media_url := MomentCreate.media_url moment_data;
           Moment.location := MomentCreate.location moment_data;
           Moment.ai_tags := None;
           Moment.created_at := now;
           Moment.expires_at := expires_at;
           Moment.is_visible := true;
           Moment.view_count := 0 |} in
      let db :=
        DB.Make (DB.dreams db) (<[Moment.id new_moment := new_moment]> (DB.moments db)) in
      match Redis.publish redis_client "moments_stream" (Moment.id new_moment) with
      | Raised _ => Handled db [] (HTTPException 500 "Internal server error")
      | Returned _ =>
          Handled db
            (publish "moments_stream" (Moment.id new_moment)
             :: if Settings.ENABLE_AI_FEATURES settings
                   && Py.truthy (MomentCreate.caption moment_data)
                then [process_moment_ai (Moment.id new_moment)
                        (default EmptyString (MomentCreate.caption moment_data))
                        (MomentCreate.media_type moment_data)]
                else [])
            (Success 201 new_moment)
      end
  end.

Definition listed (now : Z) (m : Moment.t) : bool :=
  Moment.is_visible m && bool_decide (now < Moment.expires_at m)%Z.

Definition newer (a b : Moment.t) : Prop := (Moment.created_at b ≤ Moment.created_at a)%Z.

#[export] Instance newer_dec : RelDecision newer :=
  λ a b, decide (Moment.created_at b ≤ Moment.created_at a)%Z.

Definition get_moments (skip limit : nat) (now : Z) (db : DB.t) : list Moment.t :=
  take limit (drop skip (merge_sort newer (DB.select (listed now) (DB.moments db)).*2)).

Definition get_moment (moment_id : N) (now : Z) (db : DB.t) : handled Moment.t :=
  match DB.moments db !! moment_id with
  | None => refuse db 404 "Moment not found"
  | Some moment =>
      if bool_decide (Moment.expires_at moment ≤ now)%Z then refuse db 410 "Moment expired"
      else
        let moment := Moment.set_view_count (Moment.view_count moment + 1) moment in
        Handled (DB.Make (DB.dreams db) (<[moment_id := moment]> (DB.moments db))) []
          (Success 200 moment)
  end.

(** The background task that tags a moment. *)
Definition process_moment_ai (ai_service : AIService.t) (moment_id : N) (caption : string)
    (media_type : string) (db : DB.t) : DB.t :=
  let tags := AIService.analyze_moment ai_service (Some caption) media_type in
  match DB.moments db !! moment_id with
  | Some moment =>
      DB.Make (DB.dreams db) (<[moment_id := Moment.set_ai_tags tags moment]> (DB.moments db))
  | None => db
  end.

End Moments.

(** ** The WebSocket fan-out (app/main.py) *)

Module ConnectionManager.

(** A WebSocket is identified by a number. *)
Record t : Type := Make { active_connections : gset N }.

(** The manager and the calls to [send_json] made so far, in order, each
    with its outcome. *)
Record world : Type := World {
  manager : t;
  calls : list (N * outcome unit)
}.

(** What [send_json] does on a socket: it returns or raises. The outcome
    depends on the state of the connection at the time of the call, which
    the program does not control: it is given for each call, after the
    calls made so far. *)
Definition transport : Type := list (N * outcome unit) → N → json → outcome unit.

(** A stateful computation that may raise. *)
Definition SE (A : Type) : Type := world → world * outcome A.

Definition catch {A : Type} (body : SE A) (handler : Exception → SE A) : SE A :=
  λ w, match body w with
       | (w', Returned a) => (w', Returned a)
       | (w', Raised e) => handler e w'
       end.

(** [for x in l: body x] *)
Fixpoint for_each {B : Type} (l : list B) (body : B → SE unit) : SE unit :=
  λ w, match l with
       | [] => (w, Returned ())
       | x :: l' =>
           match body x w with
           | (w', Returned _) => for_each l' body w'
           | (w', Raised e) => (w', Raised e)
           end
       end.

Definition connect (websocket : N) (self : t) : t :=
  Make ({[websocket]} ∪ active_connections self).

Definition disconnect (websocket : N) (self : t) : t :=
  Make (active_connections self ∖ {[websocket]}).

Definition send_json (net : transport) (connection : N) (message : json) : SE unit :=
  λ w, let r := net (calls w) connection message in
       (World (manager w) (calls w ++ [(connection, r)]), r).

(** [self.active_connections.discard(connection)] *)
Definition discard (connection : N) : SE unit :=
  λ w, (World (disconnect connection (manager w)) (calls w), Returned ()).

(** [broadcast]; the loop runs over a copy of the set taken on entry. *)
Definition broadcast (net : transport) (message : json) : SE unit :=
  λ w, for_each (elements (active_connections (manager w)))
         (λ connection,
            catch (send_json net connection message) (λ _, discard connection)) w.

(** The event the Redis listener broadcasts for a published moment. *)
Definition new_moment_event (data : string) : json :=
  JDict [("type", JStr "new_moment"); ("data", JStr data)].

(** The sockets a call to [send_json] reached. *)
Definition delivered (w : world) : list N :=
  (filter (λ c : N * outcome unit, is_returned c.2 = true) (calls w)).*1.

(** The sockets [send_json] was called on. *)
Definition attempted (w : world) : list N := (calls w).*1.

(** A message of the Redis subscription: [message["type"]] and
    [message["data"]]. *)
Record pubsub_message : Type := Message { type : string; data : string }.

Definition skip : SE unit := λ w, (w, Returned ()).

(** [redis_listener] over the messages the subscription yields; an
    exception of the loop is logged and ends it. *)
Definition redis_listener (net : transport) (messages : list pubsub_message) : SE unit :=
  catch
    (for_each messages
       (λ message,
          if String.eqb (type message) "message"
          then broadcast net (new_moment_event (data message))
          else skip))
    (λ _, skip).

(** The number of calls to [send_json] on a socket. *)
Definition sends_to (c : N) (w : world) : nat :=
  length (filter (λ call : N * outcome unit, call.1 = c) (calls w)).

End ConnectionManager.

(** ** The moderator (app/moderation.py)

    The Russian texts of the messages are written in UTF-8; the function
    only concatenates them. *)

Module Moderation.

(** The moderation endpoint: [moderations.create(input=text)] answers with
    the list [response.results] or raises. *)
Record client : Type := Client {
  moderations_create : string → outcome (list ContentModerator.moderation_result)
}.

Record t : Type := Make { openai_client : option client }.

Definition init (settings : Settings.t) (backend : client) : t :=
  Make (if Py.truthy (Some (Settings.OPENAI_API_KEY settings)) then Some backend else None).

Definition not_flagged : ContentModerator.moderation_result :=
  ContentModerator.Result false [].

Definition check_text (self : t) (text : string) : ContentModerator.moderation_result :=
  match openai_client self with
  | None => not_flagged
  | Some c =>
      if negb (Py.truthy (Some text)) then not_flagged
      else
        match moderations_create c text with
        | Returned (result :: _) =>
            ContentModerator.Result (ContentModerator.flagged result)
              (ContentModerator.categories result)
        | Returned [] => not_flagged
        | Raised _ => not_flagged
        end
  end.

Definition is_safe (self : t) (text : string) : bool :=
  negb (ContentModerator.flagged (check_text self text)).

Definition category_messages : list (string * string) :=
  [("sexual", "сексуального содержания");
   ("sexual/minors", "материалов с участием несовершеннолетних");
   ("hate", "языка ненависти");
   ("hate/threatening", "угроз и насилия");
   ("harassment", "домогательств или издевательств");
   ("harassment/threatening", "угроз и запугивания");
   ("self-harm", "контента, пропагандирующего членовредительство");
   ("self-harm/intent", "намерений причинить себе вред");
   ("self-harm/instructions", "инструкций по самоповреждению");
   ("violence", "насилия");
   ("violence/graphic", "графического насилия");
   ("illicit", "незаконной деятельности");
   ("illicit/violent", "насильственных преступлений")].

(** [category_messages.get(cat, cat)] *)
Fixpoint message_of (table : list (string * string)) (cat : string) : string :=
  match table with
  | [] => cat
  | (k, v) :: table' => if String.eqb cat k then v else message_of table' cat
  end.

Definition violation_prefix : string := "Контент содержит запрещённые материалы: ".

Definition get_violation_message (moderation_result : ContentModerator.moderation_result)
    : string :=
  if negb (ContentModerator.flagged moderation_result) then EmptyString
  else
    let categories := ContentModerator.categories moderation_result in
    let flagged_categories := (filter (λ kv : string * bool, kv.2 = true) categories).*1 in
    let violations := message_of category_messages <$> flagged_categories in
    match violations with
    | [v] => violation_prefix +:+ v
    | _ => violation_prefix +:+ Py.join ", " violations
    end.

(** The moderator the routes use. *)
Definition content_moderator (self : t) : ContentModerator.t :=
  ContentModerator.Make (check_text self) get_violation_message.

End Moderation.

(** ** Media upload (app/routers/upload.py) *)

Module Upload.

Definition ALLOWED_PHOTO_TYPES : list string :=
  ["image/jpeg"; "image/png"; "image/gif"; "image/webp"].

Definition ALLOWED_VIDEO_TYPES : list string :=
  ["video/mp4"; "video/webm"; "video/quicktime"].

Definition MAX_PHOTO_SIZE : Z := 10 * 1024 * 1024.
Definition MAX_VIDEO_SIZE : Z := 50 * 1024 * 1024.

Definition ext_map : list (string * string) :=
  [("image/jpeg", "jpg"); ("image/png", "png"); ("image/gif", "gif");
   ("image/webp", "webp"); ("video/mp4", "mp4"); ("video/webm", "webm");
   ("video/quicktime", "mov")].

(** [ext_map.get(content_type, default)] *)
Fixpoint get (table : list (string * string)) (key : option string) (default : string) : string :=
  match table with
  | [] => default
  | (k, v) :: table' =>
      if bool_decide (key = Some k) then v else get table' key default
  end.

(** The uploaded file: its declared MIME type, if any, and its bytes. *)
Record UploadFile : Type := File {
  content_type : option string;
  contents : list N
}.

(** The file system and the readings that name the file: creating the
    directory and writing the file succeed or raise. *)
Record storage : Type := Storage {
  mkdir : outcome unit;
  write : string → list N → outcome unit;
  timestamp : string;
  unique_id : string
}.

(** [in] on a list of strings, for a value that may be [None]. *)
Definition among (key : option string) (l : list string) : bool :=
  match key with
  | Some k => bool_decide (k ∈ l)
  | None => false
  end.

(** [max_size / (1024 * 1024)] printed by an f-string; both limits are whole
    numbers of megabytes, which a float prints with one zero decimal. *)
Definition megabytes (max_size : Z) : string :=
  pretty (max_size `div` (1024 * 1024))%Z +:+ ".0".

(** [upload_moment_media]; an exception of [mkdir], which the handler does
    not catch, ends in the 500 of the global handler. *)
Definition upload_moment_media (fs : storage) (file : UploadFile) (type : string)
    : response string :=
  if negb (bool_decide (type ∈ ["photo"; "video"])) then
    HTTPException 400 "Type must be 'photo' or 'video'"
  else
    let allowed_types :=
      if String.eqb type "photo" then ALLOWED_PHOTO_TYPES else ALLOWED_VIDEO_TYPES in
    if negb (among (content_type file) allowed_types) then
      HTTPException 400 ("Invalid file type. Allowed: " +:+ Py.join ", " allowed_types)
    else
      let file_size := Z.of_nat (length (contents file)) in
      let max_size := if String.eqb type "photo" then MAX_PHOTO_SIZE else MAX_VIDEO_SIZE in
      if bool_decide (max_size < file_size)%Z then
        HTTPException 400 ("File too large. Maximum: " +:+ megabytes max_size +:+ "MB")
      else
        match mkdir fs with
        | Raised _ => HTTPException 500 "Internal server error"
        | Returned _ =>
            let ext := get ext_map (content_type file) "bin" in
            let filename :=
              "moment_" +:+ timestamp fs +:+ "_" +:+ unique_id fs +:+ "." +:+ ext in
            let file_path :=
              "/var/www/dreamcapture/backend/static/uploads/moments/" +:+ filename in
            match write fs file_path (contents file) with
            | Returned _ => Success 200 ("/uploads/moments/" +:+ filename)
            | Raised _ => HTTPException 500 "Failed to save file"
            end
        end.

End Upload.

(** ** Accounts (app/models.py, app/auth.py, app/routers/auth.py) *)

Module User.

Record t : Type := Make {
  id : N;
  username : string;
  email : string;
  hashed_password : string;
  is_active : bool;
  is_premium : bool;
  created_at : Z;
  failed_login_attempts : Z;
  locked_until : option Z
}.

Definition set_failed_login_attempts (n : Z) (u : t) : t :=
  Make (id u) (username u) (email u) (hashed_password u) (is_active u) (is_premium u)
    (created_at u) n (locked_until u).

Definition set_locked_until (l : option Z) (u : t) : t :=
  Make (id u) (username u) (email u) (hashed_password u) (is_active u) (is_premium u)
    (created_at u) (failed_login_attempts u) l.

End User.

Module Auth.

(** The libraries the module calls: bcrypt on bytes ([hashpw] with its
    result, which is ASCII text, decoded), the JWT codec, and the e-mail
    validator, which answers with the normalised address or raises
    [EmailNotValidError] ([None]). A decoded token carries its [sub], if it
    has one. *)
Record libs : Type := Libs {
  checkpw : list N → list N → outcome bool;
  gensalt : list N;
  hashpw : list N → list N → outcome string;
  jwt_encode : N → Z → string;
  jwt_decode : string → option (option N);
  validate_email : string → option string
}.

(** [settings.ACCESS_TOKEN_EXPIRE_MINUTES] *)
Definition ACCESS_TOKEN_EXPIRE_MINUTES : Z := 43200.

Definition minutes (n : Z) : Z := (n * 60 * Time.second)%Z.

(** The password bcrypt receives: a text of more than 72 bytes is cut to
    its first 72 bytes, decoded leniently and encoded again. *)
Definition bcrypt_input (password : string) : list N :=
  let password :=
    if bool_decide (72 < length (Py.encode_utf8 password))
    then Py.decode_utf8_ignore (take 72 (Py.encode_utf8 password))
    else password in
  Py.encode_utf8 password.

Definition verify_password (l : libs) (plain_password hashed_password : string) : bool :=
  match checkpw l (bcrypt_input plain_password) (Py.encode_utf8 hashed_password) with
  | Returned b => b
  | Raised _ => false
  end.

(** [get_password_hash]; the exception is logged and raised again. *)
Definition get_password_hash (l : libs) (password : string) : outcome string :=
  hashpw l (bcrypt_input password) (gensalt l).

(** [create_access_token] for the data [{"sub": sub}]; a zero
    [expires_delta] counts as none. *)
Definition create_access_token (l : libs) (sub : N) (expires_delta : option Z) (now : Z)
    : string :=
  let expire :=
    match expires_delta with
    | Some d => if bool_decide (d ≠ 0%Z) then (now + d)%Z
                else (now + minutes ACCESS_TOKEN_EXPIRE_MINUTES)%Z
    | None => (now + minutes ACCESS_TOKEN_EXPIRE_MINUTES)%Z
    end in
  jwt_encode l sub expire.

(** [result.scalar_one_or_none()]: the row with its primary key, [None]
    without a row, and an exception with more than one row. *)
Definition scalar_one_or_none {A : Type} (rows : list (N * A)) : outcome (option (N * A)) :=
  match rows with
  | [] => Returned None
  | [row] => Returned (Some row)
  | _ => Raised (UpstreamError "Multiple rows were found when one or none was required")
  end.

(** [str(e)] *)
Definition str (e : Exception) : string :=
  match e with
  | UpstreamError msg => msg
  | _ => EmptyString
  end.

Inductive authentication : Type :=
| Authenticated (user : User.t)
| Denied (status_code : Z) (detail : string).

Definition get_current_user (l : libs) (credentials : option string) (users : gmap N User.t)
    : authentication :=
  match credentials with
  | None => Denied 401 "Could not validate credentials"
  | Some token =>
      match jwt_decode l token with
      | None => Denied 401 "Could not validate credentials"
      | Some None => Denied 401 "Could not validate credentials"
      | Some (Some user_id) =>
          match users !! user_id with
          | None => Denied 401 "Could not validate credentials"
          | Some user =>
              if negb (User.is_active user) then Denied 400 "Inactive user"
              else Authenticated user
          end
      end
  end.

Definition get_current_user_optional (l : libs) (credentials : option string)
    (users : gmap N User.t) : option User.t :=
  match credentials with
  | None => None
  | Some _ =>
      match get_current_user l credentials users with
      | Authenticated user => Some user
      | Denied _ _ => None
      end
  end.

Record handled (A : Type) : Type := Handled {
  users_after : gmap N User.t;
  reply : response A
}.
Arguments Handled {A} users_after reply.
Arguments users_after {A} h.
Arguments reply {A} h.

Record UserCreate : Type := Registration {
  new_username : string;
  new_email : string;
  new_password : string
}.

Record UserLogin : Type := Credentials {
  login_email : string;
  login_password : string
}.

Record Token : Type := Bearer { access_token : string; token_type : string }.

Definition two (n : Z) : string :=
  if bool_decide (n < 10)%Z then "0" +:+ pretty n else pretty n.

(** [t.strftime('%H:%M:%S')] on a UTC instant *)
Definition strftime_HMS (t : Z) : string :=
  let s := ((t `mod` Time.day) `div` Time.second)%Z in
  two (s `div` 3600) +:+ ":" +:+ two ((s `mod` 3600) `div` 60) +:+ ":" +:+ two (s `mod` 60).

Definition has_username (name : string) (u : User.t) : bool := String.eqb (User.username u) name.
Definition has_email (address : string) (u : User.t) : bool := String.eqb (User.email u) address.

(** [register]; [clock] is the reading of the clock that dates the row. *)
Definition register (l : libs) (user_data : UserCreate) (clock : Z) (users : gmap N User.t)
    : handled User.t :=
  let failed (e : Exception) : handled User.t :=
    Handled users (HTTPException 500 ("Error creating user: " +:+ str e)) in
  let email := Py.lower (Py.strip (new_email user_data)) in
  match validate_email l email with
  | None => Handled users (HTTPException 400 "Invalid email format")
  | Some email =>
      match scalar_one_or_none (DB.select (has_username (new_username user_data)) users) with
      | Raised e => failed e
      | Returned (Some _) => Handled users (HTTPException 400 "Username already taken")
      | Returned None =>
          match scalar_one_or_none (DB.select (has_email email) users) with
          | Raised e => failed e
          | Returned (Some _) => Handled users (HTTPException 400 "Email already registered")
          | Returned None =>
              match get_password_hash l (new_password user_data) with
              | Raised e => failed e
              | Returned hashed_password =>
                  let new_user :=
                    {| User.id := DB.new_id users;
                       User.username := new_username user_data;
                       User.email := email;
                       User.hashed_password := hashed_password;
                       User.is_active := true;
                       User.is_premium := false;
                       User.created_at := clock;
                       User.failed_login_attempts := 0;
                       User.locked_until := None |} in
                  Handled (<[User.id new_user := new_user]> users) (Success 201 new_user)
              end
          end
      end
  end.

(** [login]; [clock0] is read for the lock test, [clock1] when the lock is
    set and [clock2] for the token. *)
Definition login (l : libs) (credentials : UserLogin) (clock0 clock1 clock2 : Z)
    (users : gmap N User.t) : handled Token :=
  let email := Py.lower (Py.strip (login_email credentials)) in
  match validate_email l email with
  | None => Handled users (HTTPException 400 "Invalid email format")
  | Some email =>
      match scalar_one_or_none (DB.select (has_email email) users) with
      | Raised _ => Handled users (HTTPException 500 "Login error")
      | Returned None => Handled users (HTTPException 401 "Incorrect email or password")
      | Returned (Some (key, user)) =>
          let unlocked : handled Token :=
            if negb (verify_password l (login_password credentials)
                       (User.hashed_password user))
            then
              let user :=
                User.set_failed_login_attempts (User.failed_login_attempts user + 1) user in
              let user :=
                if bool_decide (5 ≤ User.failed_login_attempts user)%Z
                then User.set_locked_until (Some (clock1 + minutes 15)%Z) user
                else user in
              Handled (<[key := user]> users)
                (HTTPException 401 "Incorrect email or password")
            else if negb (User.is_active user) then
              Handled users (HTTPException 400 "Inactive user")
            else
              let users :=
                if bool_decide (0 < User.failed_login_attempts user)%Z
                then <[key := User.set_locked_until None
                                 (User.set_failed_login_attempts 0 user)]> users
                else users in
              let access_token :=
                create_access_token l key (Some (minutes ACCESS_TOKEN_EXPIRE_MINUTES)) clock2 in
              Handled users (Success 200 (Bearer access_token "bearer")) in
          match User.locked_until user with
          | Some until =>
              if bool_decide (clock0 < until)%Z
              then Handled users
                     (HTTPException 403
                        ("Account locked. Try again after " +:+ strftime_HMS until))
              else unlocked
          | None => unlocked
          end
      end
  end.

End Auth.

(** ** Specification-level definitions

    These follow the words of the specification; the theorems below
    compare them with the code. *)

(** The code points below 256 that Unicode classes as white space. *)
Definition spec_whitespace : list N := [9; 10; 11; 12; 13; 28; 29; 30; 31; 32; 133; 160]%N.

Definition spec_is_whitespace (c : ascii) : bool :=
  bool_decide (N_of_ascii c ∈ spec_whitespace).

(** The capital letters below 256 with their small letters: the alphabet,
    and the accented letters from [À] to [Þ] without the sign [×], whose
    small letters come 32 code points later. *)
Definition spec_letters : list (ascii * ascii) :=
  zip (list_ascii_of_string "ABCDEFGHIJKLMNOPQRSTUVWXYZ")
      (list_ascii_of_string "abcdefghijklmnopqrstuvwxyz")
  ++ ((λ n, (ascii_of_nat n, ascii_of_nat (n + 32))) <$> (seq 192 23 ++ seq 216 7)).

Definition spec_is_capital (c : ascii) : bool := bool_decide (c ∈ spec_letters.*1).

Definition spec_small_letter (c : ascii) : ascii :=
  default c ((λ found, found.2.2) <$> list_find (λ p, p.1 = c) spec_letters).

Definition spec_lowercase (s : string) : string :=
  string_of_list_ascii (spec_small_letter <$> list_ascii_of_string s).

(** The words of a text, read from its end: the word the text starts with
    (empty when it starts with white space) and the words after it. *)
Fixpoint spec_words_from_end (s : string) : string * list string :=
  match s with
  | EmptyString => (EmptyString, [])
  | String c s' =>
      let (w, ws) := spec_words_from_end s' in
      if spec_is_whitespace c
      then (EmptyString, match w with EmptyString => ws | _ => w :: ws end)
      else (String c w, ws)
  end.

(** The words of a text: its maximal runs of characters that are not white
    space. *)
Definition spec_words (s : string) : list string :=
  let (w, ws) := spec_words_from_end s in
  match w with EmptyString => ws | _ => w :: ws end.

(** The fallback tags as the specification words them: the words of the
    caption, lowercased, those longer than 3 characters, at most 5 of them,
    then the media type and the tag [moment]; an absent caption ([None] or
    the empty string) gives the three fixed tags. *)
Definition spec_fallback_tags (caption : option string) (media_type : string) : list string :=
  match caption with
  | None | Some EmptyString => [media_type; "moment"; "now"]
  | Some c =>
      take 5 (filter (λ w, 3 < String.length w) (spec_lowercase <$> spec_words c))
      ++ [media_type; "moment"]
  end.

(** The number of distinct tags two lists have in common. *)
Definition shared_tags (l1 l2 : list string) : nat :=
  length (remove_dups (filter (λ t, t ∈ l2) l1)).

(** [min(100, 20 * |dreamTags ∩ momentTags|)] over sets of strings. *)
Definition spec_base_score (dream_tags moment_tags : list string) : Z :=
  let shared : gset string := list_to_set dream_tags ∩ list_to_set moment_tags in
  Z.min 100 (20 * Z.of_nat (size shared)).

(** The deterministic base tuple: the capped score and the explanation
    synthesised from the shared tags, a neutral text when there is none. *)
Definition base_resonance (dream_tags moment_tags : list string) : json :=
  let shared : gset string := list_to_set dream_tags ∩ list_to_set moment_tags in
  AIService.resonance (spec_base_score dream_tags moment_tags)
    (if bool_decide (shared = ∅) then "Subtle connection"
     else "Shared elements: " +:+ Py.join ", " (elements shared)).

(** The integer under the key [score] of a resonance result. *)
Definition score_of (v : json) : option Z :=
  match dict_get "score" v with
  | Some (JInt n) => Some n
  | _ => None
  end.

(** The request the refinement sends. *)
Definition refinement_request (a : AIService.analysis) (moment_tags : list string)
    (moment_caption : option string) : chat_request :=
  ChatRequest "gpt-4o-mini"
    (AIService.resonance_prompt (AIService.get_list (AIService.themes a))
       (AIService.get_list (AIService.emotions a))
       (AIService.get_list (AIService.tags a))
       (default EmptyString moment_caption) moment_tags) 256.

(** A row after a sweep at [now], as the specification has it: it is
    visible iff it was visible and its expiry is after [now]; nothing else
    changes. *)
Definition spec_swept_moment (now : Z) (m : Moment.t) : Moment.t :=
  Moment.set_is_visible
    (Moment.is_visible m && negb (bool_decide (Moment.expires_at m ≤ now)%Z)) m.

Definition spec_swept_dream (now : Z) (d : Dream.t) : Dream.t :=
  Dream.set_is_visible
    (Dream.is_visible d && negb (bool_decide (Dream.expires_at d ≤ now)%Z)) d.

(** The status code a response is sent with. *)
Definition status_of {A : Type} (r : response A) : Z :=
  match r with
  | Success status_code _ => status_code
  | HTTPException status_code _ => status_code
  | RequestValidationError => 422
  end.

(** The start of the UTC calendar day an instant falls in. *)
Definition utc_day_start (t : Z) : Z := (t `div` Time.day * Time.day)%Z.

(** The number of dreams an owner has created since the start of the UTC
    day of [clock]. *)
Definition dreams_today (user : N) (clock : Z) (db : DB.t) : nat :=
  size (filter (λ kv : N * Dream.t,
                  Dream.user_id kv.2 = user
                  ∧ (utc_day_start clock ≤ Dream.created_at kv.2)%Z)
          (DB.dreams db)).

(** The quota property as the specification states it, for every request,
    whatever the moderator says of its text: at or above the limit the
    answer is 429 and nothing is stored; below the limit the dream is
    created. *)
Definition quota_claim_as_stated : Prop :=
  ∀ (settings : Settings.t) (content_moderator : ContentModerator.t)
    (dream_data : DreamCreate.t) (user : N) (clock0 clock1 : Z) (db : DB.t),
    let h := Dreams.create_dream settings content_moderator dream_data user clock0 clock1 db in
    ((Settings.MAX_DREAMS_PER_DAY settings ≤ Z.of_nat (dreams_today user clock0 db))%Z →
     status_of (reply h) = 429%Z ∧ db_after h = db)
    ∧ ((Z.of_nat (dreams_today user clock0 db) < Settings.MAX_DREAMS_PER_DAY settings)%Z →
       ∃ s d, reply h = Success s d).

(** The number of moments an owner has created in the hour before
    [clock]. *)
Definition moments_last_hour (user : N) (clock : Z) (db : DB.t) : nat :=
  size (filter (λ kv : N * Moment.t,
                  Moment.user_id kv.2 = user
                  ∧ (clock - 3600000000 ≤ Moment.created_at kv.2)%Z)
          (DB.moments db)).

(** The columns of a row that are fixed when it is created; the others are
    [is_visible], [view_count] and what the enrichment writes. *)
Definition moment_content (m : Moment.t) :=
  (Moment.id m, Moment.user_id m, Moment.caption m, Moment.media_type m,
   Moment.media_url m, Moment.location m, Moment.created_at m, Moment.expires_at m).

Definition dream_content (d : Dream.t) :=
  (Dream.id d, Dream.user_id d, Dream.title d, Dream.description d, Dream.audio_url d,
   Dream.created_at d, Dream.expires_at d, Dream.ttl_days d, Dream.is_public d).

(** What the enrichment writes into the row of a dream. *)
Definition dream_enrichment (d : Dream.t) :=
  (Dream.ai_analysis d, Dream.ai_tags d, Dream.generated_image_url d).

(** The calls to [send_json] that one pass over the sockets [l] adds to the
    log [log], each with the outcome it had when it was made. *)
Fixpoint calls_of_pass (net : ConnectionManager.transport) (message : json)
    (log : list (N * outcome unit)) (l : list N) : list (N * outcome unit) :=
  match l with
  | [] => []
  | c :: l' =>
      let r := net log c message in
      (c, r) :: calls_of_pass net message (log ++ [(c, r)]) l'
  end.

(** An upload that passes the checks: a photo of an allowed image type and
    of at most 10 MB, or a video of an allowed video type and of at most
    50 MB. *)
Definition upload_valid (file : Upload.UploadFile) (type : string) : Prop :=
  let size := Z.of_nat (length (Upload.contents file)) in
  (type = "photo"
   ∧ (∃ mime, Upload.content_type file = Some mime
              ∧ mime ∈ ["image/jpeg"; "image/png"; "image/gif"; "image/webp"])
   ∧ (size ≤ 10485760)%Z)
  ∨ (type = "video"
     ∧ (∃ mime, Upload.content_type file = Some mime
                ∧ mime ∈ ["video/mp4"; "video/webm"; "video/quicktime"])
     ∧ (size ≤ 52428800)%Z).

(** The extensions a stored file of each kind can have. *)
Definition upload_extension (type ext : string) : Prop :=
  (type = "photo" ∧ ext ∈ ["jpg"; "png"; "gif"; "webp"])
  ∨ (type = "video" ∧ ext ∈ ["mp4"; "webm"; "mov"]).

(** What storing a valid upload under the extension [ext] answers. *)
Definition upload_stored (fs : Upload.storage) (file : Upload.UploadFile) (ext : string)
    : response string :=
  let filename :=
    "moment_" +:+ Upload.timestamp fs +:+ "_" +:+ Upload.unique_id fs +:+ "." +:+ ext in
  match Upload.mkdir fs with
  | Raised _ => HTTPException 500 "Internal server error"
  | Returned _ =>
      match Upload.write fs ("/var/www/dreamcapture/backend/static/uploads/moments/" +:+ filename)
              (Upload.contents file) with
      | Returned _ => Success 200 ("/uploads/moments/" +:+ filename)
      | Raised _ => HTTPException 500 "Failed to save file"
      end
  end.

(** The account registered under an address: the row, its key, and no
    other row with that address. *)
Definition account (users : gmap N User.t) (address : string) (key : N) (user : User.t)
    : Prop :=
  users !! key = Some user
  ∧ User.email user = address
  ∧ ∀ k u, users !! k = Some u → User.email u = address → k = key.

(** No two rows agree on [f]. *)
Definition unique_by {B : Type} (f : User.t → B) (users : gmap N User.t) : Prop :=
  ∀ k1 k2 u1 u2, users !! k1 = Some u1 → users !! k2 = Some u2 → f u1 = f u2 → k1 = k2.

(** The address a request is looked up under. *)
Definition normalised (l : Auth.libs) (address : string) : option string :=
  Auth.validate_email l (Py.lower (Py.strip address)).

(** * Properties *)

(** ** The fallback tag extractor *)

Section tag_extractor.

Lemma isspace_lower_char c : Py.isspace (Py.lower_char c) = Py.isspace c.
Proof. by destruct c as [[] [] [] [] [] [] [] []]. Qed.

Lemma lower_app s1 s2 : Py.lower (s1 +:+ s2) = Py.lower s1 +:+ Py.lower s2.
Proof. induction s1 as [|c s1 IH]; simpl; [done|]. by rewrite IH. Qed.

Lemma flush_lower w : Py.flush (Py.lower w) = Py.lower <$> Py.flush w.
Proof. by destruct w. Qed.

Lemma split_from_lower s : ∀ w,
  Py.split_from (Py.lower w) (Py.lower s) = Py.lower <$> Py.split_from w s.
Proof.
  induction s as [|c s IH]; intros w; simpl.
  - apply flush_lower.
  - rewrite isspace_lower_char. destruct (Py.isspace c).
    + rewrite fmap_app, flush_lower. f_equal. apply (IH EmptyString).
    + rewrite <- IH, lower_app. done.
Qed.

(** Lowercasing commutes with splitting into words. *)
Lemma split_lower s : Py.split (Py.lower s) = Py.lower <$> Py.split s.
Proof. apply (split_from_lower s EmptyString). Qed.

(** The white space and the letters of [str.split] and [str.lower] are
    those of the specification. *)
Lemma isspace_spec c : Py.isspace c = spec_is_whitespace c.
Proof. destruct c as [[] [] [] [] [] [] [] []]; vm_compute; reflexivity. Qed.

Lemma lower_char_spec c : Py.lower_char c = spec_small_letter c.
Proof. destruct c as [[] [] [] [] [] [] [] []]; vm_compute; reflexivity. Qed.

Lemma small_letter_not_capital c : spec_is_capital (spec_small_letter c) = false.
Proof. destruct c as [[] [] [] [] [] [] [] []]; vm_compute; reflexivity. Qed.

Lemma lower_spec s : Py.lower s = spec_lowercase s.
Proof.
  unfold spec_lowercase. induction s as [|c s IH]; [done|].
  cbn [Py.lower list_ascii_of_string]. rewrite fmap_cons. cbn [string_of_list_ascii].
  by rewrite lower_char_spec, IH.
Qed.

Lemma string_app_empty_r s : s +:+ EmptyString = s.
Proof.
  induction s as [|c s IH]; [done|].
  change (String c (s +:+ EmptyString) = String c s). by f_equal.
Qed.

Lemma string_app_assoc s1 s2 s3 : (s1 +:+ s2) +:+ s3 = s1 +:+ (s2 +:+ s3).
Proof.
  induction s1 as [|c s1 IH]; [done|].
  change (String c ((s1 +:+ s2) +:+ s3) = String c (s1 +:+ (s2 +:+ s3))). by f_equal.
Qed.

Lemma split_from_spec s : ∀ w,
  Py.split_from w s
  = Py.flush (w +:+ (spec_words_from_end s).1) ++ (spec_words_from_end s).2.
Proof.
  induction s as [|c s IH]; intros w.
  - cbn. by rewrite string_app_empty_r, app_nil_r.
  - cbn [Py.split_from spec_words_from_end]. rewrite isspace_spec, !IH.
    destruct (spec_words_from_end s) as [w' ws]. cbn [fst snd].
    destruct (spec_is_whitespace c); cbn [fst snd].
    + rewrite string_app_empty_r. f_equal. by destruct w'.
    + by rewrite string_app_assoc.
Qed.

Lemma split_spec s : Py.split s = spec_words s.
Proof.
  unfold Py.split, spec_words. rewrite split_from_spec.
  destruct (spec_words_from_end s) as [w ws]. by destruct w.
Qed.

Lemma analyze_moment_spec self caption media_type :
  AIService.analyze_moment self caption media_type
  = spec_fallback_tags caption media_type.
Proof.
  unfold AIService.analyze_moment, spec_fallback_tags, AIService.keywords, Py.len.
  destruct caption as [[|c s]|]; simpl; try done.
  change (Py.split (String (Py.lower_char c) (Py.lower s)))
    with (Py.split (Py.lower (String c s))).
  rewrite split_lower, split_spec, <- app_assoc.
  do 3 f_equal. apply list_fmap_ext. intros i w _. apply lower_spec.
Qed.

(** The characters of a word are characters of the text, and none of them
    is white space. *)
Lemma words_from_end_chars s :
  let r := spec_words_from_end s in
  ∀ w, w = r.1 ∨ w ∈ r.2 →
    ∀ c, c ∈ list_ascii_of_string w →
      c ∈ list_ascii_of_string s ∧ spec_is_whitespace c = false.
Proof.
  induction s as [|a s IH]; cbn [spec_words_from_end].
  - intros w [->|Hw] c Hc; [|by apply elem_of_nil in Hw]. by apply elem_of_nil in Hc.
  - cbv zeta in IH. destruct (spec_words_from_end s) as [w' ws]. cbn [fst snd] in IH.
    assert (∀ w, w = w' ∨ w ∈ ws → ∀ c, c ∈ list_ascii_of_string w →
              c ∈ list_ascii_of_string (String a s) ∧ spec_is_whitespace c = false) as IH'.
    { intros w Hw c Hc. destruct (IH w Hw c Hc). split; [|done].
      cbn [list_ascii_of_string]. by right. }
    destruct (spec_is_whitespace a) eqn:Ha; cbn [fst snd].
    + intros w [->|Hw] c Hc; [by apply elem_of_nil in Hc|].
      apply (IH' w); [|done]. destruct w'; [by right|].
      apply elem_of_cons in Hw as [->|Hw]; [by left|by right].
    + intros w [->|Hw] c Hc; [|by apply (IH' w); [right|]].
      cbn [list_ascii_of_string] in Hc. apply elem_of_cons in Hc as [->|Hc].
      * split; [by left|done].
      * apply (IH' w'); [by left|done].
Qed.

Lemma words_chars s w c :
  w ∈ spec_words s → c ∈ list_ascii_of_string w →
  c ∈ list_ascii_of_string s ∧ spec_is_whitespace c = false.
Proof.
  unfold spec_words. intros Hw Hc.
  pose proof (words_from_end_chars s) as H. cbv zeta in H.
  destruct (spec_words_from_end s) as [w' ws]. cbn [fst snd] in H.
  apply (H w); [|done]. destruct w'; [by right|].
  apply elem_of_cons in Hw as [->|Hw]; [by left|by right].
Qed.

Lemma lowercase_chars s c :
  c ∈ list_ascii_of_string (spec_lowercase s) → spec_is_capital c = false.
Proof.
  unfold spec_lowercase. rewrite list_ascii_of_string_of_list_ascii.
  intros (c' & -> & _)%list_elem_of_fmap. apply small_letter_not_capital.
Qed.

(** The words [analyze_moment] keeps. *)
Lemma analyze_moment_words self caption media_type :
  Py.truthy caption = true →
  ∃ words,
    AIService.analyze_moment self caption media_type = words ++ [media_type; "moment"]
    ∧ length words ≤ 5
    ∧ ∀ w, w ∈ words →
        3 < String.length w
        ∧ ∀ c, c ∈ list_ascii_of_string w →
            spec_is_whitespace c = false ∧ spec_is_capital c = false.
Proof.
  intros Ht. unfold AIService.analyze_moment. rewrite Ht. cbn [negb].
  exists (AIService.keywords 3 (Py.split (Py.lower (default EmptyString caption)))).
  split; [by rewrite <- app_assoc|]. split.
  - unfold AIService.keywords. rewrite length_take. lia.
  - intros w Hw. unfold AIService.keywords in Hw.
    apply subseteq_take, list_elem_of_filter in Hw as [Hlen Hw]. split; [done|].
    intros c Hc. rewrite split_spec, lower_spec in Hw.
    destruct (words_chars _ _ _ Hw Hc) as [Hin Hws]. split; [done|].
    by apply lowercase_chars in Hin.
Qed.

End tag_extractor.

(** C9. The fallback tag extractor is deterministic. It does not look at the
    state of the service (with or without the enrichment client, the same
    caption and media type give the same tags), and its tags are those the
    specification words, over its own reading of white space and of
    letters: the words of the caption in small letters, those longer than 3
    characters, at most 5 of them, then the media type and [moment]; and
    [media_type; moment; now] when the caption is absent ([None] or empty).
    Texts are over the code points 0 to 255. *)
Theorem analyze_moment_deterministic :
  ∀ (self self' : AIService.t) (caption : option string) (media_type : string),
    let tags := AIService.analyze_moment self caption media_type in
    AIService.analyze_moment self' caption media_type = tags
    ∧ tags = spec_fallback_tags caption media_type
    ∧ (caption = None ∨ caption = Some EmptyString → tags = [media_type; "moment"; "now"])
    ∧ (caption ≠ None → caption ≠ Some EmptyString →
       ∃ words,
         tags = words ++ [media_type; "moment"]
         ∧ length words ≤ 5
         ∧ ∀ w, w ∈ words →
             3 < String.length w
             ∧ ∀ c, c ∈ list_ascii_of_string w →
                 spec_is_whitespace c = false ∧ spec_is_capital c = false)
    ∧ AIService.analyze_moment self (Some "Sunrise OVER the Quiet lake") "photo"
      = ["sunrise"; "over"; "quiet"; "lake"; "photo"; "moment"]
    ∧ AIService.analyze_moment self (Some "One Two THREE four FIVES sixth SEVENTH eighth") "video"
      = ["three"; "four"; "fives"; "sixth"; "seventh"; "video"; "moment"].
Proof.
  intros self self' caption media_type tags. subst tags.
  split; [by rewrite !analyze_moment_spec|].
  split; [apply analyze_moment_spec|].
  split; [by intros [->| ->]|].
  split; [|split; by vm_compute].
  intros Hn He. apply analyze_moment_words.
  destruct caption as [[|c s]|]; done.
Qed.

Lemma analyze_moment_deterministic_witness :
  AIService.analyze_moment (AIService.Make None None) (Some "First SNOW on the Old bridge") "photo"
  = ["first"; "snow"; "bridge"; "photo"; "moment"].
Proof.
  destruct (analyze_moment_deterministic (AIService.Make None None) (AIService.Make None None)
              (Some "First SNOW on the Old bridge") "photo") as (_ & H & _).
  rewrite H. vm_compute. reflexivity.
Defined.

(** ** The resonance scorer *)

Section scorer.

Variable json_loads : string → option json.

#[local] Abbreviation calculate_resonance := (AIService.calculate_resonance json_loads).
#[local] Abbreviation refine := (AIService.refine json_loads).

Lemma score_of_resonance n e : score_of (AIService.resonance n e) = Some n.
Proof. done. Qed.

Lemma base_resonance_score dream_tags moment_tags :
  score_of (base_resonance dream_tags moment_tags)
  = Some (spec_base_score dream_tags moment_tags).
Proof. apply score_of_resonance. Qed.

Lemma spec_base_score_bounds dream_tags moment_tags :
  (0 ≤ spec_base_score dream_tags moment_tags ≤ 100)%Z.
Proof. unfold spec_base_score. lia. Qed.

(** The guard of the refinement, on the capped score. *)
Lemma guard_capped (n : nat) :
  (20 < Z.of_nat n * 20)%Z ↔ (20 < Z.min 100 (20 * Z.of_nat n))%Z.
Proof. lia. Qed.

Lemma refine_trace client prompt :
  trace (refine client prompt) = [ChatRequest "gpt-4o-mini" prompt 256].
Proof.
  unfold AIService.refine, AIService.create, mbind, M_bind; simpl.
  destruct (AIService.chat_completions_create client _) as [[|[[content|]] cs]|e];
    simpl; try done.
  unfold AIService.loads. by destruct (json_loads content).
Qed.

(** The ways the [try] block fails: the endpoint raises, the answer has no
    choice, its content is missing, or its content does not decode. *)
Lemma refine_raised client prompt e :
  result (refine client prompt) = Raised e ↔
  let answer := AIService.chat_completions_create client (ChatRequest "gpt-4o-mini" prompt 256) in
  answer = Raised e
  ∨ (answer = Returned [] ∧ e = IndexError)
  ∨ (∃ cs, answer = Returned (AIService.Choice None :: cs) ∧ e = TypeError)
  ∨ (∃ content cs, answer = Returned (AIService.Choice (Some content) :: cs)
                   ∧ json_loads content = None ∧ e = JSONDecodeError).
Proof.
  unfold AIService.refine, AIService.create, mbind, M_bind; simpl.
  destruct (AIService.chat_completions_create client _) as [[|[[content|]] cs]|e'];
    simpl.
  - split; [intros [= <-]; eauto|]. intros [?|[[_ ->]|[(?&?&_)|(?&?&?&_)]]]; done.
  - unfold AIService.loads. destruct (json_loads content) eqn:Hc; simpl.
    + split; [done|]. intros [?|[[? _]|[(?&?&_)|(?&?&[= <- _]&?&_)]]]; congruence.
    + split; [intros [= <-]; right; right; right; eauto|].
      intros [?|[[? _]|[(?&?&_)|(?&?&_&_&->)]]]; done.
  - split; [intros [= <-]; right; right; left; eauto|].
    intros [?|[[? _]|[(?&_&->)|(?&?&?&_)]]]; done.
  - split; [intros [= <-]; by left|]. intros [[= ->]|[[? _]|[(?&?&_)|(?&?&?&_)]]]; done.
Qed.

(** What [calculate_resonance] does when the client is there. *)
Lemma calculate_resonance_client ac client a moment_tags moment_caption :
  let dream_tags := AIService.get_list (AIService.tags a) in
  let req := refinement_request a moment_tags moment_caption in
  let base := base_resonance dream_tags moment_tags in
  calculate_resonance (AIService.Make ac (Some client)) a moment_tags moment_caption
  = if bool_decide (20 < spec_base_score dream_tags moment_tags)%Z && Py.truthy moment_caption
    then match result (refine client (prompt req)) with
         | Returned v => Run [req] (Returned v)
         | Raised _ => Run [req] (Returned base)
         end
    else Run [] (Returned base).
Proof.
  intros dream_tags req base.
  unfold AIService.calculate_resonance; simpl AIService.openai_client; cbv beta iota zeta.
  fold dream_tags.
  assert (AIService.resonance
            (Z.min (Z.of_nat (size (list_to_set dream_tags ∩ list_to_set moment_tags
                                    : gset string)) * 20) 100)
            (if bool_decide ((list_to_set dream_tags ∩ list_to_set moment_tags : gset string) ≠ ∅)
             then "Shared elements: "
                  +:+ Py.join ", " (elements (list_to_set dream_tags ∩ list_to_set moment_tags
                                              : gset string))
             else "Subtle connection")
          = base) as ->.
  { unfold base, base_resonance, spec_base_score. cbv zeta. f_equal; [lia|].
    do 2 case_bool_decide; done. }
  unfold spec_base_score. cbv zeta.
  rewrite (bool_decide_ext _ _ (guard_capped _)).
  destruct (bool_decide _ && _); [|done].
  unfold try_except.
  change (AIService.resonance_prompt _ _ _ _ _) with (prompt req).
  pose proof (refine_trace client (prompt req)) as Ht.
  destruct (refine client (prompt req)) as [tr [v|e]]; simpl in *; subst tr; done.
Qed.

Lemma calculate_resonance_fallback ac a moment_tags moment_caption :
  calculate_resonance (AIService.Make ac None) a moment_tags moment_caption
  = Run [] (Returned (AIService._mock_resonance a moment_tags)).
Proof. done. Qed.

End scorer.

(** C2. On the deterministic path of [calculate_resonance] (client present,
    and the refinement either not attempted or failed) the score is
    [min(100, 20 * |dreamTags ∩ momentTags|)], the tags being compared as
    sets of case-sensitive strings; the only other outcome is the answer of
    a refinement that succeeded. Five shared tags give 100, two give 40,
    and tags that differ in case share nothing. *)
Theorem base_score_capped_overlap :
  ∀ (json_loads : string → option json) (ac : option unit)
    (client : AIService.AsyncOpenAI) (a : AIService.analysis)
    (moment_tags : list string) (moment_caption : option string),
    let dream_tags := AIService.get_list (AIService.tags a) in
    let r := AIService.calculate_resonance json_loads
               (AIService.Make ac (Some client)) a moment_tags moment_caption in
    let req := refinement_request a moment_tags moment_caption in
    (∃ v, result r = Returned v
          ∧ (score_of v = Some (spec_base_score dream_tags moment_tags)
             ∨ (trace r = [req]
                ∧ result (AIService.refine json_loads client (prompt req)) = Returned v)))
    ∧ (trace r = [] →
       ∃ v, result r = Returned v
            ∧ score_of v = Some (Z.min 100 (20 * Z.of_nat (size
                (list_to_set dream_tags ∩ list_to_set moment_tags : gset string)))))
    ∧ (size (list_to_set dream_tags ∩ list_to_set moment_tags : gset string) = 5 →
       spec_base_score dream_tags moment_tags = 100%Z)
    ∧ spec_base_score ["wonder"; "journey"; "sky"] ["wonder"; "journey"] = 40%Z
    ∧ spec_base_score ["Sky"] ["sky"] = 0%Z.
Proof.
  intros json_loads ac client a moment_tags moment_caption dream_tags r req.
  subst r. rewrite calculate_resonance_client. fold dream_tags req.
  split; [|split; [|split; [|split]]].
  - destruct (bool_decide _ && _).
    + destruct (result (AIService.refine _ _ _)) as [v|e] eqn:Hr; simpl.
      * exists v. split; [done|]. by right.
      * eexists. split; [done|]. left. apply base_resonance_score.
    + eexists. split; [done|]. left. apply base_resonance_score.
  - destruct (bool_decide _ && _).
    + by destruct (result (AIService.refine _ _ _)).
    + intros _. eexists. split; [done|]. apply base_resonance_score.
  - unfold spec_base_score. intros ->. done.
  - by vm_compute.
  - by vm_compute.
Qed.

Lemma base_score_capped_overlap_witness :
  ∃ v, result (AIService.calculate_resonance (λ _, None)
                 (AIService.Make None (Some (AIService.Client (λ _, Raised (UpstreamError "timeout")))))
                 (AIService._mock_dream_analysis "flying above silver mountains under purple skies")
                 ["flying"; "above"; "silver"; "mountains"; "under"] None) = Returned v
       ∧ score_of v = Some 100%Z.
Proof.
  destruct (base_score_capped_overlap (λ _, None) None
              (AIService.Client (λ _, Raised (UpstreamError "timeout")))
              (AIService._mock_dream_analysis "flying above silver mountains under purple skies")
              ["flying"; "above"; "silver"; "mountains"; "under"] None)
    as (_ & H & _).
  apply H. vm_compute. reflexivity.
Defined.

(** C1 (the code departs from it). Without the client the scorer answers
    with [_mock_resonance], whose score is 25 per shared tag and is not
    capped: the tags the fallback analysers extract from a dream and a
    caption with five common long words give the score 125. *)
Theorem fallback_score_exceeds_100 :
  let self := AIService.Make None None in
  let dream := AIService._mock_dream_analysis "flying above silver mountains under purple skies" in
  let moment := AIService.analyze_moment self (Some "Flying above silver mountains under clouds") "photo" in
  AIService.tags dream = Some ["flying"; "above"; "silver"; "mountains"; "under"]
  ∧ moment = ["flying"; "above"; "silver"; "mountains"; "under"; "photo"; "moment"]
  ∧ AIService.calculate_resonance (λ _, None) self dream moment
      (Some "Flying above silver mountains under clouds")
    = Run [] (Returned (AIService.resonance 125 "Subtle resonance detected")).
Proof. by vm_compute. Qed.

(** The score on the fallback path, in general, and the answer of a
    successful refinement, which is passed on as it is. *)
Lemma fallback_score json_loads ac a moment_tags moment_caption :
  ∃ v, result (AIService.calculate_resonance json_loads (AIService.Make ac None)
                 a moment_tags moment_caption) = Returned v
       ∧ score_of v = Some (25 * Z.of_nat (size
           (list_to_set (AIService.get_list (AIService.tags a)) ∩ list_to_set moment_tags
            : gset string)))%Z.
Proof.
  rewrite calculate_resonance_fallback. eexists. split; [done|].
  unfold AIService._mock_resonance. rewrite score_of_resonance. f_equal. lia.
Qed.

Example refined_score_unchecked :
  let client := AIService.Client (λ _, Returned [AIService.Choice (Some "answer")]) in
  let self := AIService.Make None (Some client) in
  let a := AIService.Analysis None None None None (Some ["wonder"; "journey"; "sky"]) None in
  result (AIService.calculate_resonance (λ _, Some (AIService.resonance 250 "bright"))
            self a ["wonder"; "journey"] (Some "a walk"))
  = Returned (AIService.resonance 250 "bright").
Proof. by vm_compute. Qed.

(** C3. The refinement request is sent exactly when the client is there,
    the base score exceeds 20 and the caption is present, and at most once;
    when the [try] block fails, for whatever reason, the result is the
    deterministic base tuple; and [calculate_resonance] never raises. *)
Theorem refinement_gated_and_fail_safe :
  ∀ (json_loads : string → option json) (self : AIService.t) (a : AIService.analysis)
    (moment_tags : list string) (moment_caption : option string),
    let dream_tags := AIService.get_list (AIService.tags a) in
    let r := AIService.calculate_resonance json_loads self a moment_tags moment_caption in
    let req := refinement_request a moment_tags moment_caption in
    (trace r ≠ [] ↔
       is_Some (AIService.openai_client self)
       ∧ (20 < spec_base_score dream_tags moment_tags)%Z
       ∧ Py.truthy moment_caption = true)
    ∧ (trace r = [] ∨ trace r = [req])
    ∧ (∀ client e,
         AIService.openai_client self = Some client →
         result (AIService.refine json_loads client (prompt req)) = Raised e →
         result r = Returned (base_resonance dream_tags moment_tags))
    ∧ (∃ v, result r = Returned v).
Proof.
  intros json_loads [ac [client|]] a moment_tags moment_caption dream_tags r req; subst r.
  - rewrite calculate_resonance_client. fold dream_tags req. simpl.
    destruct (bool_decide (20 < _)%Z) eqn:Hs; simpl;
      [apply bool_decide_eq_true in Hs|apply bool_decide_eq_false in Hs].
    + destruct (Py.truthy moment_caption) eqn:Hc.
      * repeat split; eauto.
        -- by destruct (result (AIService.refine _ _ _)).
        -- right. by destruct (result (AIService.refine _ _ _)).
        -- intros client' e [= <-] ->. done.
        -- destruct (result (AIService.refine _ _ _)); eauto.
      * repeat split; eauto; try done. by intros (_ & _ & ?).
    + repeat split; eauto; try done. intros (_ & ? & _). done.
  - rewrite calculate_resonance_fallback. simpl.
    repeat split; eauto; try done. intros ([? ?] & _). done.
Qed.

Lemma refinement_gated_and_fail_safe_witness :
  let client := AIService.Client (λ _, Raised (UpstreamError "timeout")) in
  let a := AIService.Analysis None None None None (Some ["wonder"; "journey"; "sky"]) None in
  result (AIService.calculate_resonance (λ _, None) (AIService.Make None (Some client))
            a ["wonder"; "journey"] (Some "a walk"))
  = Returned (base_resonance ["wonder"; "journey"; "sky"] ["wonder"; "journey"]).
Proof.
  intros client a.
  destruct (refinement_gated_and_fail_safe (λ _, None) (AIService.Make None (Some client))
              a ["wonder"; "journey"] (Some "a walk")) as (_ & _ & H & _).
  apply (H client (UpstreamError "timeout")); [reflexivity|].
  vm_compute. reflexivity.
Defined.

(** ** Tables *)

Section tables.

Context {A : Type}.
Implicit Types (tbl : gmap N A) (p : A → bool) (f : A → A) (k : N).

Lemma elem_of_select p tbl k a :
  (k, a) ∈ DB.select p tbl ↔ tbl !! k = Some a ∧ p a = true.
Proof. unfold DB.select. by rewrite elem_of_map_to_list, map_lookup_filter_Some. Qed.

Lemma elem_of_select_keys p tbl k :
  k ∈ (DB.select p tbl).*1 ↔ ∃ a, tbl !! k = Some a ∧ p a = true.
Proof.
  rewrite list_elem_of_fmap. split.
  - intros ([k' a] & -> & Hin). exists a. by apply elem_of_select.
  - intros (a & Hin). exists (k, a). split; [done|]. by apply elem_of_select.
Qed.

Lemma elem_of_select_rows p tbl a :
  a ∈ (DB.select p tbl).*2 ↔ ∃ k, tbl !! k = Some a ∧ p a = true.
Proof.
  rewrite list_elem_of_fmap. split.
  - intros ([k a'] & -> & Hin). exists k. by apply elem_of_select.
  - intros (k & Hin). exists (k, a). split; [done|]. by apply elem_of_select.
Qed.

Lemma NoDup_select_keys p tbl : NoDup (DB.select p tbl).*1.
Proof. apply NoDup_fst_map_to_list. Qed.

Lemma length_select p tbl :
  length (DB.select p tbl) = size (filter (λ kv : N * A, p kv.2 = true) tbl).
Proof. apply length_map_to_list. Qed.

Lemma lookup_update_all {B : Type} f (rows : list (N * B)) : ∀ tbl k,
  NoDup rows.*1 →
  DB.update_all f rows tbl !! k
  = if decide (k ∈ rows.*1) then f <$> tbl !! k else tbl !! k.
Proof.
  unfold DB.update_all.
  induction rows as [|[k' b] rows IH]; intros tbl k Hnd.
  - done.
  - rewrite fmap_cons in Hnd |- *. cbn [foldl fst].
    apply NoDup_cons in Hnd as [Hk' Hnd]. rewrite IH by done.
    destruct (decide (k = k')) as [->|Hne].
    + rewrite decide_False by done. rewrite decide_True by left.
      apply lookup_alter_eq.
    + rewrite lookup_alter_ne by done.
      destruct (decide (k ∈ rows.*1)) as [Hin|Hin].
      * by rewrite decide_True by (by right).
      * rewrite decide_False; [done|]. by intros [?|?]%elem_of_cons.
Qed.

(** Updating the selected rows changes the rows that satisfy the
    condition and no other. *)
Lemma lookup_update_selected p f tbl k :
  DB.update_all f (DB.select p tbl) tbl !! k
  = (λ a, if p a then f a else a) <$> tbl !! k.
Proof.
  rewrite lookup_update_all by apply NoDup_select_keys.
  destruct (tbl !! k) as [a|] eqn:Hk; simpl.
  - destruct (p a) eqn:Hp.
    + rewrite decide_True; [done|]. apply elem_of_select_keys. eauto.
    + rewrite decide_False; [done|]. intros (a' & ? & ?)%elem_of_select_keys.
      congruence.
  - by destruct (decide _).
Qed.

Lemma new_id_fresh tbl : tbl !! DB.new_id tbl = None.
Proof. apply not_elem_of_dom, is_fresh. Qed.

End tables.

(** ** The visibility sweep *)

Section sweep.

Implicit Types (db : DB.t) (now : Z) (k : N).

Lemma moment_hidden_if_due now (m : Moment.t) :
  (if Cleanup.moment_due now m then Moment.set_is_visible false m else m)
  = spec_swept_moment now m.
Proof.
  unfold Cleanup.moment_due, spec_swept_moment.
  destruct m as [? ? ? ? ? ? ? ? e v ?]; simpl.
  destruct (bool_decide (e ≤ now)%Z), v; done.
Qed.

Lemma dream_hidden_if_due now (d : Dream.t) :
  (if Cleanup.dream_due now d then Dream.set_is_visible false d else d)
  = spec_swept_dream now d.
Proof.
  unfold Cleanup.dream_due, spec_swept_dream.
  destruct d as [? ? ? ? ? ? ? ? ? e ? ? v ?]; simpl.
  destruct (bool_decide (e ≤ now)%Z), v; done.
Qed.

Lemma sweep_moments now db k :
  DB.moments (Cleanup.sweep now db) !! k = spec_swept_moment now <$> DB.moments db !! k.
Proof.
  unfold Cleanup.sweep, Cleanup.cleanup_expired_content; simpl.
  rewrite lookup_update_selected.
  destruct (DB.moments db !! k); simpl; [|done]. by rewrite moment_hidden_if_due.
Qed.

Lemma sweep_dreams now db k :
  DB.dreams (Cleanup.sweep now db) !! k = spec_swept_dream now <$> DB.dreams db !! k.
Proof.
  unfold Cleanup.sweep, Cleanup.cleanup_expired_content; simpl.
  rewrite lookup_update_selected.
  destruct (DB.dreams db !! k); simpl; [|done]. by rewrite dream_hidden_if_due.
Qed.

Lemma swept_moment_hidden now (m : Moment.t) :
  Moment.is_visible m = false → spec_swept_moment now m = m.
Proof. destruct m; simpl. by intros ->. Qed.

Lemma swept_dream_hidden now (d : Dream.t) :
  Dream.is_visible d = false → spec_swept_dream now d = d.
Proof. destruct d; simpl. by intros ->. Qed.

Lemma swept_moment_twice now (m : Moment.t) :
  spec_swept_moment now (spec_swept_moment now m) = spec_swept_moment now m.
Proof.
  destruct m as [? ? ? ? ? ? ? ? e v ?]; unfold spec_swept_moment; simpl.
  by destruct v, (bool_decide (e ≤ now)%Z).
Qed.

Lemma swept_dream_twice now (d : Dream.t) :
  spec_swept_dream now (spec_swept_dream now d) = spec_swept_dream now d.
Proof.
  destruct d as [? ? ? ? ? ? ? ? ? e ? ? v ?]; unfold spec_swept_dream; simpl.
  by destruct v, (bool_decide (e ≤ now)%Z).
Qed.

Lemma db_eq db1 db2 :
  (∀ k, DB.dreams db1 !! k = DB.dreams db2 !! k) →
  (∀ k, DB.moments db1 !! k = DB.moments db2 !! k) →
  db1 = db2.
Proof.
  destruct db1, db2; simpl. intros Hd Hm.
  f_equal; by apply map_eq.
Qed.

Lemma sweep_idempotent now db :
  Cleanup.sweep now (Cleanup.sweep now db) = Cleanup.sweep now db.
Proof.
  apply db_eq; intros k.
  - rewrite !sweep_dreams. destruct (DB.dreams db !! k); simpl; [|done].
    by rewrite swept_dream_twice.
  - rewrite !sweep_moments. destruct (DB.moments db !! k); simpl; [|done].
    by rewrite swept_moment_twice.
Qed.

Lemma sweeps_hidden_moment times : ∀ db k (m : Moment.t),
  DB.moments db !! k = Some m → Moment.is_visible m = false →
  DB.moments (Cleanup.sweeps times db) !! k = Some m.
Proof.
  unfold Cleanup.sweeps.
  induction times as [|now times IH]; intros db k m Hk Hv; simpl; [done|].
  apply IH; [|done]. rewrite sweep_moments, Hk; simpl.
  by rewrite swept_moment_hidden.
Qed.

Lemma sweeps_hidden_dream times : ∀ db k (d : Dream.t),
  DB.dreams db !! k = Some d → Dream.is_visible d = false →
  DB.dreams (Cleanup.sweeps times db) !! k = Some d.
Proof.
  unfold Cleanup.sweeps.
  induction times as [|now times IH]; intros db k d Hk Hv; simpl; [done|].
  apply IH; [|done]. rewrite sweep_dreams, Hk; simpl.
  by rewrite swept_dream_hidden.
Qed.

Lemma sweep_dom now db :
  dom (DB.moments (Cleanup.sweep now db)) = dom (DB.moments db)
  ∧ dom (DB.dreams (Cleanup.sweep now db)) = dom (DB.dreams db).
Proof.
  split; apply set_eq; intros k; rewrite !elem_of_dom.
  - rewrite sweep_moments. apply fmap_is_Some.
  - rewrite sweep_dreams. apply fmap_is_Some.
Qed.

End sweep.

(** What a sweep does to one row, column by column. *)
Lemma swept_moment_columns (now : Z) (m : Moment.t) :
  let m' := spec_swept_moment now m in
  moment_content m' = moment_content m
  ∧ Moment.ai_tags m' = Moment.ai_tags m
  ∧ Moment.view_count m' = Moment.view_count m
  ∧ (Moment.is_visible m' = true
     ↔ Moment.is_visible m = true ∧ (now < Moment.expires_at m)%Z)
  ∧ (Moment.is_visible m = true → (Moment.expires_at m ≤ now)%Z →
     Moment.is_visible m' = false)
  ∧ (Moment.is_visible m = false ∨ (now < Moment.expires_at m)%Z → m' = m).
Proof.
  destruct m as [? ? ? ? ? ? ? ? e v ?]. unfold spec_swept_moment. cbn.
  split; [done|]. split; [done|]. split; [done|]. split; [|split].
  - case_bool_decide; destruct v; cbn; intuition (try done; lia).
  - intros -> He. by rewrite bool_decide_eq_true_2.
  - intros [->|He]; [done|]. rewrite bool_decide_eq_false_2 by lia.
    cbn. by rewrite andb_true_r.
Qed.

Lemma swept_dream_columns (now : Z) (d : Dream.t) :
  let d' := spec_swept_dream now d in
  dream_content d' = dream_content d
  ∧ dream_enrichment d' = dream_enrichment d
  ∧ Dream.view_count d' = Dream.view_count d
  ∧ (Dream.is_visible d' = true
     ↔ Dream.is_visible d = true ∧ (now < Dream.expires_at d)%Z)
  ∧ (Dream.is_visible d = true → (Dream.expires_at d ≤ now)%Z →
     Dream.is_visible d' = false)
  ∧ (Dream.is_visible d = false ∨ (now < Dream.expires_at d)%Z → d' = d).
Proof.
  destruct d as [? ? ? ? ? ? ? ? ? e ? ? v ?]. unfold spec_swept_dream. cbn.
  split; [done|]. split; [done|]. split; [done|]. split; [|split].
  - case_bool_decide; destruct v; cbn; intuition (try done; lia).
  - intros -> He. by rewrite bool_decide_eq_true_2.
  - intros [->|He]; [done|]. rewrite bool_decide_eq_false_2 by lia.
    cbn. by rewrite andb_true_r.
Qed.

(** C4. A sweep hides exactly the rows that are visible and whose expiry is
    at or before [now]: after it such a row has [is_visible = false], a row
    is visible only if it was visible and expires after [now], and every
    other column of every row is as it was; a row that is hidden or not yet
    due is left as it is. A hidden row stays as it is through any sequence
    of sweeps, so that no row goes back to visible; no row is deleted; and
    a second sweep at the same instant changes nothing. *)
Theorem sweep_one_way :
  ∀ (now : Z) (db : DB.t),
    let db' := Cleanup.sweep now db in
    (∀ k m, DB.moments db !! k = Some m →
       ∃ m', DB.moments db' !! k = Some m'
             ∧ moment_content m' = moment_content m
             ∧ Moment.ai_tags m' = Moment.ai_tags m
             ∧ Moment.view_count m' = Moment.view_count m
             ∧ (Moment.is_visible m' = true
                ↔ Moment.is_visible m = true ∧ (now < Moment.expires_at m)%Z)
             ∧ (Moment.is_visible m = true → (Moment.expires_at m ≤ now)%Z →
                Moment.is_visible m' = false)
             ∧ (Moment.is_visible m = false ∨ (now < Moment.expires_at m)%Z → m' = m))
    ∧ (∀ k d, DB.dreams db !! k = Some d →
         ∃ d', DB.dreams db' !! k = Some d'
               ∧ dream_content d' = dream_content d
               ∧ dream_enrichment d' = dream_enrichment d
               ∧ Dream.view_count d' = Dream.view_count d
               ∧ (Dream.is_visible d' = true
                  ↔ Dream.is_visible d = true ∧ (now < Dream.expires_at d)%Z)
               ∧ (Dream.is_visible d = true → (Dream.expires_at d ≤ now)%Z →
                  Dream.is_visible d' = false)
               ∧ (Dream.is_visible d = false ∨ (now < Dream.expires_at d)%Z → d' = d))
    ∧ (∀ times k m, DB.moments db !! k = Some m → Moment.is_visible m = false →
         DB.moments (Cleanup.sweeps times db) !! k = Some m)
    ∧ (∀ times k d, DB.dreams db !! k = Some d → Dream.is_visible d = false →
         DB.dreams (Cleanup.sweeps times db) !! k = Some d)
    ∧ dom (DB.moments db') = dom (DB.moments db)
    ∧ dom (DB.dreams db') = dom (DB.dreams db)
    ∧ Cleanup.sweep now db' = db'.
Proof.
  intros now db db'. subst db'.
  split; [|split].
  - intros k m Hk. exists (spec_swept_moment now m).
    split; [by rewrite sweep_moments, Hk|]. apply swept_moment_columns.
  - intros k d Hk. exists (spec_swept_dream now d).
    split; [by rewrite sweep_dreams, Hk|]. apply swept_dream_columns.
  - split; [intros; by apply sweeps_hidden_moment|].
    split; [intros; by apply sweeps_hidden_dream|].
    split; [apply sweep_dom|]. split; [apply sweep_dom|].
    apply sweep_idempotent.
Qed.

Lemma sweep_one_way_witness :
  let m := Moment.Make 1 7 (Some "sunrise") "photo" "/uploads/a.jpg" None None 0 60000000 true 3 in
  let db := DB.Make ∅ {[ 1%N := m ]} in
  ∃ m', DB.moments (Cleanup.sweep 60000000 db) !! 1%N = Some m'
        ∧ Moment.is_visible m' = false
        ∧ Moment.expires_at m' = 60000000%Z
        ∧ Moment.view_count m' = 3%Z.
Proof.
  intros m db.
  destruct (sweep_one_way 60000000 db) as (H & _).
  destruct (H 1%N m) as (m' & Hm' & Hc & _ & Hv & _ & Hdue & _); [vm_compute; reflexivity|].
  exists m'. split; [exact Hm'|]. split; [|split].
  - apply Hdue; [reflexivity|]. vm_compute. discriminate.
  - injection Hc as _ _ _ _ _ _ _ He. exact He.
  - exact Hv.
Defined.

(** The counts a sweep reports are the numbers of rows it hides. *)
Lemma sweep_report now db :
  let r := (Cleanup.cleanup_expired_content now db).2 in
  Cleanup.hidden_moments r
  = size (filter (λ kv : N * Moment.t, Cleanup.moment_due now kv.2 = true) (DB.moments db))
  ∧ Cleanup.hidden_dreams r
    = size (filter (λ kv : N * Dream.t, Cleanup.dream_due now kv.2 = true) (DB.dreams db)).
Proof. split; apply length_select. Qed.

(** ** Creation and its quota *)

Section creation.

Implicit Types (settings : Settings.t) (content_moderator : ContentModerator.t)
  (dream_data : DreamCreate.t) (user : N) (clock now : Z) (db : DB.t).

Lemma midnight_day_start t : Time.midnight t = utc_day_start t.
Proof.
  unfold Time.midnight, utc_day_start.
  pose proof (Z.div_mod t Time.day) as H.
  assert (Time.day ≠ 0%Z) as Hd by done.
  specialize (H Hd). lia.
Qed.

Lemma midnight_bounds t :
  (Time.midnight t ≤ t < Time.midnight t + Time.day)%Z
  ∧ (Time.midnight t `mod` Time.day = 0)%Z.
Proof.
  assert (0 < Time.day)%Z as Hd by done.
  pose proof (Z.mod_pos_bound t Time.day Hd).
  split; [unfold Time.midnight; lia|].
  rewrite midnight_day_start. unfold utc_day_start. apply Z.mod_mul. lia.
Qed.

Lemma quota_count user clock0 db :
  length (DB.select (Dreams.created_today user (Time.midnight clock0)) (DB.dreams db))
  = dreams_today user clock0 db.
Proof.
  rewrite length_select. unfold dreams_today. f_equal.
  apply map_filter_ext. intros k d _; simpl.
  unfold Dreams.created_today. rewrite midnight_day_start.
  rewrite andb_true_iff, !bool_decide_eq_true. done.
Qed.

Lemma choose_ttl_tier ttl : Dreams.choose_ttl ttl ∈ [1; 7; 30]%Z.
Proof.
  unfold Dreams.choose_ttl. case_bool_decide; [done|]. by left.
Qed.

Lemma choose_ttl_other ttl : ttl ∉ [1; 7; 30]%Z → Dreams.choose_ttl ttl = 1%Z.
Proof. unfold Dreams.choose_ttl. intros H. by rewrite bool_decide_eq_false_2. Qed.

(** A request the moderator flags is refused first. *)
Lemma create_dream_flagged settings content_moderator dream_data user clock0 clock1 db :
  let verdict := ContentModerator.check_text content_moderator (Dreams.text_to_check dream_data) in
  ContentModerator.flagged verdict = true →
  Dreams.create_dream settings content_moderator dream_data user clock0 clock1 db
  = refuse db 400 (ContentModerator.get_violation_message content_moderator verdict).
Proof. intros verdict H. unfold Dreams.create_dream. fold verdict. by rewrite H. Qed.

Lemma create_dream_over_quota settings content_moderator dream_data user clock0 clock1 db :
  ContentModerator.flagged
    (ContentModerator.check_text content_moderator (Dreams.text_to_check dream_data)) = false →
  (Settings.MAX_DREAMS_PER_DAY settings ≤ Z.of_nat (dreams_today user clock0 db))%Z →
  Dreams.create_dream settings content_moderator dream_data user clock0 clock1 db
  = refuse db 429
      ("Maximum " +:+ pretty (Settings.MAX_DREAMS_PER_DAY settings) +:+ " dreams per day").
Proof.
  intros Hf Hq. unfold Dreams.create_dream. rewrite Hf. cbv zeta.
  rewrite quota_count. by rewrite bool_decide_eq_true_2.
Qed.

(** What a successful [create_dream] stores and returns. *)
Lemma create_dream_success settings content_moderator dream_data user clock0 clock1 db s d :
  let h := Dreams.create_dream settings content_moderator dream_data user clock0 clock1 db in
  reply h = Success s d →
  s = 201%Z
  ∧ ContentModerator.flagged
      (ContentModerator.check_text content_moderator (Dreams.text_to_check dream_data)) = false
  ∧ (Z.of_nat (dreams_today user clock0 db) < Settings.MAX_DREAMS_PER_DAY settings)%Z
  ∧ Dream.user_id d = user
  ∧ Dream.created_at d = clock1
  ∧ Dream.ttl_days d = Dreams.choose_ttl (DreamCreate.ttl_days dream_data)
  ∧ Dream.expires_at d = (clock1 + Time.days (Dream.ttl_days d))%Z
  ∧ Dream.is_visible d = true
  ∧ DB.dreams db !! Dream.id d = None
  ∧ db_after h = DB.Make (<[Dream.id d := d]> (DB.dreams db)) (DB.moments db).
Proof.
  intros h. subst h. unfold Dreams.create_dream.
  destruct (ContentModerator.flagged _) eqn:Hf; [done|]. cbv zeta.
  rewrite quota_count. case_bool_decide as Hq; [done|].
  cbn [reply db_after]. intros [= <- <-]. cbn.
  repeat split; try done; [lia|apply new_id_fresh].
Qed.

Lemma create_dream_admitted settings content_moderator dream_data user clock0 clock1 db :
  let h := Dreams.create_dream settings content_moderator dream_data user clock0 clock1 db in
  ContentModerator.flagged
    (ContentModerator.check_text content_moderator (Dreams.text_to_check dream_data)) = false →
  (Z.of_nat (dreams_today user clock0 db) < Settings.MAX_DREAMS_PER_DAY settings)%Z →
  ∃ d, reply h = Success 201 d.
Proof.
  intros h Hf Hq. subst h. unfold Dreams.create_dream. rewrite Hf. cbv zeta.
  rewrite quota_count. rewrite bool_decide_eq_false_2 by lia. eauto.
Qed.

End creation.

(** C5 as stated fails: the moderation check comes first, so an owner who
    already has 10 dreams today and sends a text the moderator flags gets
    400, not 429. *)
Lemma quota_preempted_by_moderation : ¬ quota_claim_as_stated.
Proof.
  intros H.
  pose (content_moderator :=
          ContentModerator.Make (λ _, ContentModerator.Result true [("violence", true)])
            (λ _, "flagged")).
  pose (dream_data := DreamCreate.Make "a long walk through the old town" None None true 1).
  pose (row := λ i : N, (i, Dream.Make i 1 None "a walk through the town" None None None None
                              0 86400000000 1 true true 0)).
  pose (db := DB.Make (list_to_map (row <$> [0; 1; 2; 3; 4; 5; 6; 7; 8; 9]%N)) ∅).
  destruct (H Settings.default content_moderator dream_data 1%N 1000%Z 1000%Z db) as [H429 _].
  destruct H429 as [Hs _]; [by vm_compute|].
  vm_compute in Hs. discriminate Hs.
Qed.

(** An owner below the limit whose text is flagged is not admitted
    either. *)
Example below_quota_flagged :
  let content_moderator :=
    ContentModerator.Make (λ _, ContentModerator.Result true [("violence", true)])
      (λ _, "flagged") in
  let dream_data := DreamCreate.Make "a long walk through the old town" None None true 1 in
  dreams_today 1 1000 (DB.Make ∅ ∅) = 0
  ∧ Dreams.create_dream Settings.default content_moderator dream_data 1 1000 1000 (DB.Make ∅ ∅)
    = refuse (DB.Make ∅ ∅) 400 "flagged".
Proof. by vm_compute. Qed.

(** C5, amended. For a request that passes moderation: an owner with
    [MAX_DREAMS_PER_DAY] or more dreams created since the start of the
    current UTC day is refused with 429 and a detail that carries the
    limit, the database being left as it was and nothing scheduled; an
    owner below the limit is admitted and the new row is stored under a
    fresh key. *)
Theorem dream_quota_after_moderation :
  ∀ (settings : Settings.t) (content_moderator : ContentModerator.t)
    (dream_data : DreamCreate.t) (user : N) (clock0 clock1 : Z) (db : DB.t),
    let h := Dreams.create_dream settings content_moderator dream_data user clock0 clock1 db in
    let limit := Settings.MAX_DREAMS_PER_DAY settings in
    ContentModerator.flagged
      (ContentModerator.check_text content_moderator (Dreams.text_to_check dream_data)) = false →
    ((limit ≤ Z.of_nat (dreams_today user clock0 db))%Z →
       reply h = HTTPException 429 ("Maximum " +:+ pretty limit +:+ " dreams per day")
       ∧ db_after h = db ∧ scheduled h = [])
    ∧ ((Z.of_nat (dreams_today user clock0 db) < limit)%Z →
       ∃ d, reply h = Success 201 d
            ∧ Dream.user_id d = user
            ∧ DB.dreams db !! Dream.id d = None
            ∧ db_after h = DB.Make (<[Dream.id d := d]> (DB.dreams db)) (DB.moments db)).
Proof.
  intros settings content_moderator dream_data user clock0 clock1 db h limit Hf.
  split; intros Hq.
  - subst h. by rewrite create_dream_over_quota.
  - destruct (create_dream_admitted settings content_moderator dream_data user
                clock0 clock1 db Hf Hq) as [d Hd].
    exists d. split; [done|].
    by apply create_dream_success in Hd as (_ & _ & _ & ? & _ & _ & _ & _ & ? & ?).
Qed.

Lemma dream_quota_after_moderation_witness :
  let content_moderator :=
    ContentModerator.Make (λ _, ContentModerator.Result false []) (λ _, EmptyString) in
  let dream_data := DreamCreate.Make "a long walk through the old town" None None true 1 in
  let row := λ i : N, (i, Dream.Make i 1 None "a walk through the town" None None None None
                            0 86400000000 1 true true 0) in
  let db := DB.Make (list_to_map (row <$> [0; 1; 2; 3; 4; 5; 6; 7; 8; 9]%N)) ∅ in
  let h := Dreams.create_dream Settings.default content_moderator dream_data 1 1000 1000 db in
  reply h = HTTPException 429 "Maximum 10 dreams per day" ∧ db_after h = db ∧ scheduled h = [].
Proof.
  intros content_moderator dream_data row db h.
  apply (dream_quota_after_moderation Settings.default content_moderator dream_data
           1%N 1000%Z 1000%Z db).
  - reflexivity.
  - vm_compute. discriminate.
Defined.

Section moments.

Implicit Types (settings : Settings.t) (content_moderator : ContentModerator.t)
  (redis_client : Redis.t) (moment_data : MomentCreate.t) (user : N) (clock now : Z)
  (db : DB.t).

(** What a successful [create_moment] stores and returns. *)
Lemma create_moment_success settings content_moderator redis_client moment_data user
    clock0 clock1 db s m :
  let h := Moments.create_moment settings content_moderator redis_client moment_data user
             clock0 clock1 db in
  reply h = Success s m →
  s = 201%Z
  ∧ Moment.user_id m = user
  ∧ Moment.created_at m = clock1
  ∧ Moment.expires_at m = (clock1 + Time.seconds (Settings.MOMENT_TTL_SECONDS settings))%Z
  ∧ Moment.is_visible m = true
  ∧ DB.moments db !! Moment.id m = None
  ∧ db_after h = DB.Make (DB.dreams db) (<[Moment.id m := m]> (DB.moments db)).
Proof.
  intros h. subst h. unfold Moments.create_moment. cbv zeta.
  destruct (if Py.truthy _ then _ else _); [done|].
  case_bool_decide; [done|].
  destruct (Redis.publish redis_client _ _); [|done].
  cbn [reply db_after]. intros [= <- <-]. cbn.
  repeat split; try done. apply new_id_fresh.
Qed.

(** The row [create_moment] adds, whatever it answers. *)
Lemma create_moment_stored settings content_moderator redis_client moment_data user
    clock0 clock1 db k m :
  let h := Moments.create_moment settings content_moderator redis_client moment_data user
             clock0 clock1 db in
  DB.moments db !! k = None → DB.moments (db_after h) !! k = Some m →
  k = Moment.id m
  ∧ Moment.user_id m = user
  ∧ Moment.created_at m = clock1
  ∧ Moment.expires_at m = (clock1 + Settings.MOMENT_TTL_SECONDS settings * 1000000)%Z
  ∧ Moment.is_visible m = true
  ∧ db_after h = DB.Make (DB.dreams db) (<[k := m]> (DB.moments db))
  ∧ (reply h = Success 201 m
     ∨ reply h = HTTPException 500 "Internal server error" ∧ scheduled h = []).
Proof.
  intros h Hnone. subst h. unfold Moments.create_moment. cbv zeta.
  destruct (if Py.truthy _ then _ else _); [cbn; congruence|].
  case_bool_decide; [cbn; congruence|].
  assert (∀ (sched : list task) (r : response Moment.t) m0,
            DB.moments (db_after (Handled
              (DB.Make (DB.dreams db) (<[Moment.id m0 := m0]> (DB.moments db))) sched r)) !! k
            = Some m → k = Moment.id m0 ∧ m = m0) as Hrow.
  { intros sched r m0. cbn. destruct (decide (k = Moment.id m0)) as [->|Hne].
    - rewrite lookup_insert_eq. by intros [= ->].
    - rewrite lookup_insert_ne by done. congruence. }
  destruct (Redis.publish redis_client _ _); intros [-> ->]%Hrow; cbn;
    repeat split; try done; eauto.
Qed.

(** Whether a moment is accepted does not depend on its time to live. *)
Lemma create_moment_status_ttl settings content_moderator redis_client moment_data user
    clock0 clock1 db ttl :
  status_of (reply (Moments.create_moment (Settings.set_MOMENT_TTL_SECONDS ttl settings)
                      content_moderator redis_client moment_data user clock0 clock1 db))
  = status_of (reply (Moments.create_moment settings content_moderator redis_client
                        moment_data user clock0 clock1 db)).
Proof.
  unfold Moments.create_moment. cbv zeta.
  destruct (if Py.truthy _ then _ else _); [done|].
  cbn [Settings.set_MOMENT_TTL_SECONDS Settings.MAX_MOMENTS_PER_HOUR].
  case_bool_decide; [done|].
  by destruct (Redis.publish redis_client _ _).
Qed.

Lemma swept_due_moment now (m : Moment.t) :
  Moment.is_visible m = true → (Moment.expires_at m ≤ now)%Z →
  spec_swept_moment now m = Moment.set_is_visible false m.
Proof.
  intros Hv He. unfold spec_swept_moment. by rewrite Hv, bool_decide_eq_true_2.
Qed.

Lemma swept_due_dream now (d : Dream.t) :
  Dream.is_visible d = true → (Dream.expires_at d ≤ now)%Z →
  spec_swept_dream now d = Dream.set_is_visible false d.
Proof.
  intros Hv He. unfold spec_swept_dream. by rewrite Hv, bool_decide_eq_true_2.
Qed.

(** The row [create_dream] adds. *)
Lemma create_dream_stored settings content_moderator (dream_data : DreamCreate.t) user
    clock0 clock1 db k (d : Dream.t) :
  let h := Dreams.create_dream settings content_moderator dream_data user clock0 clock1 db in
  DB.dreams db !! k = None → DB.dreams (db_after h) !! k = Some d →
  k = Dream.id d ∧ reply h = Success 201 d.
Proof.
  intros h Hnone. subst h. unfold Dreams.create_dream.
  destruct (ContentModerator.flagged _); [cbn; congruence|]. cbv zeta.
  case_bool_decide; [cbn; congruence|]. cbn.
  destruct (decide (k = DB.new_id (DB.dreams db))) as [->|Hne].
  - rewrite lookup_insert_eq. by intros [= <-].
  - rewrite lookup_insert_ne by done. congruence.
Qed.

(** A retention tier in days, as a number of microseconds. *)
Lemma days_microseconds (n : Z) : Time.days n = (n * 86400000000)%Z.
Proof. unfold Time.days, Time.day, Time.second. lia. Qed.

Lemma seconds_microseconds (n : Z) : Time.seconds n = (n * 1000000)%Z.
Proof. unfold Time.seconds, Time.second. lia. Qed.

End moments.

(** C6. The row a creation adds expires at its creation plus its tier: a
    dream [ttl_days] days (86 400 000 000 microseconds each) after its
    [created_at], with [ttl_days] one of 1, 7 and 30 and the requested one
    when that is a tier; a moment [MOMENT_TTL_SECONDS] seconds (1 000 000
    microseconds each) after its [created_at]. The row is stored visible,
    and after a sweep at any instant at or after its expiry it has
    [is_visible = false], its other creation columns being as they were.
    Whether a moment is accepted does not depend on that duration, so one
    whose expiry is not after its creation is created all the same. *)
Theorem expiry_is_creation_plus_tier :
  ∀ (settings : Settings.t) (content_moderator : ContentModerator.t)
    (redis_client : Redis.t) (user : N) (clock0 clock1 : Z) (db : DB.t),
    (∀ dream_data k d,
       let h := Dreams.create_dream settings content_moderator dream_data user clock0 clock1 db in
       DB.dreams db !! k = None → DB.dreams (db_after h) !! k = Some d →
       reply h = Success 201 d
       ∧ Dream.created_at d = clock1
       ∧ Dream.ttl_days d ∈ [1; 7; 30]%Z
       ∧ (DreamCreate.ttl_days dream_data ∈ [1; 7; 30]%Z →
          Dream.ttl_days d = DreamCreate.ttl_days dream_data)
       ∧ Dream.expires_at d = (Dream.created_at d + Dream.ttl_days d * 86400000000)%Z
       ∧ Dream.is_visible d = true
       ∧ ∀ now, (Dream.expires_at d ≤ now)%Z →
           ∃ d', DB.dreams (Cleanup.sweep now (db_after h)) !! k = Some d'
                 ∧ Dream.is_visible d' = false
                 ∧ dream_content d' = dream_content d)
    ∧ (∀ moment_data k m,
         let h := Moments.create_moment settings content_moderator redis_client moment_data
                    user clock0 clock1 db in
         DB.moments db !! k = None → DB.moments (db_after h) !! k = Some m →
         Moment.created_at m = clock1
         ∧ Moment.expires_at m
           = (Moment.created_at m + Settings.MOMENT_TTL_SECONDS settings * 1000000)%Z
         ∧ Moment.is_visible m = true
         ∧ ∀ now, (Moment.expires_at m ≤ now)%Z →
             ∃ m', DB.moments (Cleanup.sweep now (db_after h)) !! k = Some m'
                   ∧ Moment.is_visible m' = false
                   ∧ moment_content m' = moment_content m)
    ∧ (∀ dream_data s d,
         let h := Dreams.create_dream settings content_moderator dream_data user clock0 clock1 db in
         reply h = Success s d →
         DB.dreams db !! Dream.id d = None ∧ DB.dreams (db_after h) !! Dream.id d = Some d)
    ∧ (∀ moment_data s m,
         let h := Moments.create_moment settings content_moderator redis_client moment_data
                    user clock0 clock1 db in
         reply h = Success s m →
         DB.moments db !! Moment.id m = None ∧ DB.moments (db_after h) !! Moment.id m = Some m)
    ∧ (∀ moment_data ttl,
         status_of (reply (Moments.create_moment (Settings.set_MOMENT_TTL_SECONDS ttl settings)
                             content_moderator redis_client moment_data user clock0 clock1 db))
         = status_of (reply (Moments.create_moment settings content_moderator redis_client
                               moment_data user clock0 clock1 db))).
Proof.
  intros settings content_moderator redis_client user clock0 clock1 db.
  split; [|split; [|split; [|split]]].
  - intros dream_data k d h Hnone Hsome.
    destruct (create_dream_stored settings content_moderator dream_data user clock0 clock1
                db k d Hnone Hsome) as [-> Hr]. fold h in Hr.
    pose proof Hr as Hs.
    apply create_dream_success in Hs as (_ & _ & _ & _ & Hc & Ht & He & Hv & _ & _).
    rewrite days_microseconds in He.
    split; [done|]. split; [done|]. split; [rewrite Ht; apply choose_ttl_tier|].
    split. { intros Hin. rewrite Ht. unfold Dreams.choose_ttl. by rewrite bool_decide_eq_true_2. }
    split; [by rewrite He, Hc|]. split; [done|].
    intros now Hn. exists (spec_swept_dream now d).
    split; [by rewrite sweep_dreams, Hsome|].
    destruct (swept_dream_columns now d) as (Hcont & _ & _ & _ & Hdue & _). split; [|done].
    by apply Hdue.
  - intros moment_data k m h Hnone Hsome.
    destruct (create_moment_stored settings content_moderator redis_client moment_data user
                clock0 clock1 db k m Hnone Hsome) as (_ & _ & Hc & He & Hv & _).
    split; [done|]. split; [by rewrite He, Hc|]. split; [done|].
    intros now Hn. exists (spec_swept_moment now m).
    split; [by rewrite sweep_moments, Hsome|].
    destruct (swept_moment_columns now m) as (Hcont & _ & _ & _ & Hdue & _). split; [|done].
    by apply Hdue.
  - intros dream_data s d h Hr.
    apply create_dream_success in Hr as (_ & _ & _ & _ & _ & _ & _ & _ & Hnone & Hdb).
    fold h in Hdb. rewrite Hdb. split; [done|]. apply lookup_insert_eq.
  - intros moment_data s m h Hr.
    apply create_moment_success in Hr as (_ & _ & _ & _ & _ & Hnone & Hdb).
    fold h in Hdb. rewrite Hdb. split; [done|]. apply lookup_insert_eq.
  - intros. apply create_moment_status_ttl.
Qed.

Lemma expiry_is_creation_plus_tier_witness :
  let content_moderator :=
    ContentModerator.Make (λ _, ContentModerator.Result false []) (λ _, EmptyString) in
  let redis_client := Redis.Make (λ _ _, Returned ()) in
  let moment_data := MomentCreate.Make (Some "first snow") "photo" "/uploads/snow.jpg" None in
  let h := Moments.create_moment Settings.default content_moderator redis_client moment_data
             1 1000 2000 (DB.Make ∅ ∅) in
  ∃ k m, DB.moments (db_after h) !! k = Some m
         ∧ Moment.expires_at m = 60002000%Z
         ∧ ∃ m', DB.moments (Cleanup.sweep 60002000 (db_after h)) !! k = Some m'
                 ∧ Moment.is_visible m' = false.
Proof.
  intros content_moderator redis_client moment_data h.
  destruct (expiry_is_creation_plus_tier Settings.default content_moderator redis_client
              1%N 1000%Z 2000%Z (DB.Make ∅ ∅)) as (_ & H & _).
  edestruct (H moment_data (DB.new_id (∅ : gmap N Moment.t))) as (Hc & He & _ & Hs);
    [vm_compute; reflexivity | vm_compute; reflexivity |].
  exists (DB.new_id (∅ : gmap N Moment.t)). eexists. split; [vm_compute; reflexivity|].
  split; [exact (eq_trans He eq_refl)|].
  destruct (Hs 60002000%Z) as (m' & Hm' & Hv' & _); [vm_compute; discriminate|].
  exists m'. split; [exact Hm' | exact Hv'].
Defined.

(** ** Reading *)

Section reading.

Implicit Types (now : Z) (db : DB.t) (k : N).

Lemma get_dreams_listed skip limit now db (d : Dream.t) :
  d ∈ Dreams.get_dreams skip limit now db →
  Dreams.listed now d = true ∧ ∃ k, DB.dreams db !! k = Some d.
Proof.
  unfold Dreams.get_dreams. intros Hin.
  apply subseteq_take, subseteq_drop in Hin.
  rewrite merge_sort_Permutation in Hin.
  apply elem_of_select_rows in Hin as (k & Hk & Hl). eauto.
Qed.

Lemma get_moments_listed skip limit now db (m : Moment.t) :
  m ∈ Moments.get_moments skip limit now db →
  Moments.listed now m = true ∧ ∃ k, DB.moments db !! k = Some m.
Proof.
  unfold Moments.get_moments. intros Hin.
  apply subseteq_take, subseteq_drop in Hin.
  rewrite merge_sort_Permutation in Hin.
  apply elem_of_select_rows in Hin as (k & Hk & Hl). eauto.
Qed.

Lemma get_dream_status k now db :
  status_of (reply (Dreams.get_dream k now db))
  = match DB.dreams db !! k with
    | None => 404%Z
    | Some d =>
        if bool_decide (Dream.expires_at d ≤ now)%Z then 410%Z
        else if Dream.is_public d then 200%Z else 403%Z
    end.
Proof.
  unfold Dreams.get_dream. destruct (DB.dreams db !! k) as [d|]; [|done].
  case_bool_decide; [done|]. by destruct (Dream.is_public d).
Qed.

Lemma get_moment_status k now db :
  status_of (reply (Moments.get_moment k now db))
  = match DB.moments db !! k with
    | None => 404%Z
    | Some m => if bool_decide (Moment.expires_at m ≤ now)%Z then 410%Z else 200%Z
    end.
Proof.
  unfold Moments.get_moment. destruct (DB.moments db !! k) as [m|]; [|done].
  by case_bool_decide.
Qed.

End reading.

(** C7. Reading by id a dream (or a moment) that exists and whose expiry is
    at or before [now] is refused with 410 and changes nothing; 404 is the
    answer exactly when no row has the id; and the public lists contain
    only rows that expire after [now]. *)
Theorem expired_is_not_missing :
  ∀ (now : Z) (db : DB.t),
    (∀ k d, DB.dreams db !! k = Some d → (Dream.expires_at d ≤ now)%Z →
       Dreams.get_dream k now db = refuse db 410 "Dream expired")
    ∧ (∀ k, status_of (reply (Dreams.get_dream k now db)) = 404%Z ↔ DB.dreams db !! k = None)
    ∧ (∀ skip limit d, d ∈ Dreams.get_dreams skip limit now db →
         (now < Dream.expires_at d)%Z ∧ ∃ k, DB.dreams db !! k = Some d)
    ∧ (∀ k m, DB.moments db !! k = Some m → (Moment.expires_at m ≤ now)%Z →
         Moments.get_moment k now db = refuse db 410 "Moment expired")
    ∧ (∀ k, status_of (reply (Moments.get_moment k now db)) = 404%Z ↔ DB.moments db !! k = None)
    ∧ (∀ skip limit m, m ∈ Moments.get_moments skip limit now db →
         (now < Moment.expires_at m)%Z ∧ ∃ k, DB.moments db !! k = Some m).
Proof.
  intros now db. repeat apply conj.
  - intros k d Hk He. unfold Dreams.get_dream. rewrite Hk.
    by rewrite bool_decide_eq_true_2.
  - intros k. rewrite get_dream_status.
    destruct (DB.dreams db !! k) as [d|]; [|done].
    split; [|done]. case_bool_decide; [done|]. by destruct (Dream.is_public d).
  - intros skip limit d [Hl Hk]%get_dreams_listed. split; [|done].
    unfold Dreams.listed in Hl.
    apply andb_true_iff in Hl as [_ Hl]. by apply bool_decide_eq_true in Hl.
  - intros k m Hk He. unfold Moments.get_moment. rewrite Hk.
    by rewrite bool_decide_eq_true_2.
  - intros k. rewrite get_moment_status.
    destruct (DB.moments db !! k) as [m|]; [|done].
    split; [|done]. by case_bool_decide.
  - intros skip limit m [Hl Hk]%get_moments_listed. split; [|done].
    unfold Moments.listed in Hl.
    apply andb_true_iff in Hl as [_ Hl]. by apply bool_decide_eq_true in Hl.
Qed.

Lemma expired_is_not_missing_witness :
  let d := Dream.Make 4 1 None "a walk through the town" None None None None
             0 604800000000 7 true false 0 in
  let db := DB.Make {[ 4%N := d ]} ∅ in
  Dreams.get_dream 4 604801000000 db = refuse db 410 "Dream expired"
  ∧ Dreams.get_dreams 0 20 604801000000 db = [].
Proof.
  intros d db. split; [|by vm_compute].
  destruct (expired_is_not_missing 604801000000 db) as (H & _).
  apply (H 4%N d); [vm_compute; reflexivity|]. vm_compute. discriminate.
Defined.

(** C10. A [ttl_days] between 1 and 30 that is not 1, 7 or 30 passes the
    schema as 1 does, and the request is handled exactly as if it asked
    for 1: no validation error, and when the dream is created it has
    [ttl_days = 1] and expires one day, that is 86 400 000 000
    microseconds, after its creation. *)
Theorem ttl_silently_coerced :
  ∀ (settings : Settings.t) (content_moderator : ContentModerator.t)
    (dream_data : DreamCreate.t) (user : N) (clock0 clock1 : Z) (db : DB.t) (ttl : Z),
    (1 ≤ ttl ≤ 30)%Z → ttl ∉ [1; 7; 30]%Z →
    let asked := DreamCreate.set_ttl_days ttl dream_data in
    let one := DreamCreate.set_ttl_days 1 dream_data in
    let h := Dreams.post settings content_moderator asked user clock0 clock1 db in
    DreamCreate.validate asked = DreamCreate.validate one
    ∧ h = Dreams.post settings content_moderator one user clock0 clock1 db
    ∧ (DreamCreate.validate one = true → reply h ≠ RequestValidationError)
    ∧ (∀ s d, reply h = Success s d →
         Dream.ttl_days d = 1%Z
         ∧ Dream.created_at d = clock1
         ∧ Dream.expires_at d = (Dream.created_at d + 86400000000)%Z)
    ∧ (DreamCreate.validate one = true →
       ContentModerator.flagged
         (ContentModerator.check_text content_moderator (Dreams.text_to_check asked)) = false →
       (Z.of_nat (dreams_today user clock0 db) < Settings.MAX_DREAMS_PER_DAY settings)%Z →
       ∃ d, reply h = Success 201 d ∧ Dream.ttl_days d = 1%Z
            ∧ Dream.created_at d = clock1
            ∧ Dream.expires_at d = (Dream.created_at d + 86400000000)%Z).
Proof.
  intros settings content_moderator dream_data user clock0 clock1 db ttl Hr Ht asked one h.
  assert (DreamCreate.validate asked = DreamCreate.validate one) as Hv.
  { unfold DreamCreate.validate; cbn. f_equal.
    by rewrite !bool_decide_eq_true_2 by lia. }
  assert (Dreams.create_dream settings content_moderator asked user clock0 clock1 db
          = Dreams.create_dream settings content_moderator one user clock0 clock1 db) as Hc.
  { unfold Dreams.create_dream; cbn [DreamCreate.ttl_days asked one DreamCreate.set_ttl_days].
    by rewrite (choose_ttl_other ttl Ht). }
  assert (∀ s d, reply h = Success s d →
            Dream.ttl_days d = 1%Z
            ∧ Dream.created_at d = clock1
            ∧ Dream.expires_at d = (Dream.created_at d + 86400000000)%Z) as Hs.
  { subst h. unfold Dreams.post. destruct (DreamCreate.validate asked); [|done].
    intros s d Hd. apply create_dream_success in Hd as (_ & _ & _ & _ & Hcr & Hd & He & _).
    cbn in Hd. rewrite (choose_ttl_other ttl Ht) in Hd.
    rewrite He, Hd, Hcr, days_microseconds. repeat split; lia. }
  repeat apply conj; try done.
  - subst h. unfold Dreams.post. by rewrite Hv, Hc.
  - intros Ho. subst h. unfold Dreams.post. rewrite Hv, Ho.
    unfold Dreams.create_dream. destruct (ContentModerator.flagged _); [done|].
    cbv zeta. by case_bool_decide.
  - intros Ho Hf Hq.
    destruct (create_dream_admitted settings content_moderator asked user clock0 clock1 db Hf Hq)
      as [d Hd].
    assert (reply h = Success 201 d) as Hh.
    { subst h. unfold Dreams.post. by rewrite Hv, Ho. }
    exists d. split; [done|]. by apply Hs in Hh.
Qed.

Lemma ttl_silently_coerced_witness :
  let content_moderator :=
    ContentModerator.Make (λ _, ContentModerator.Result false []) (λ _, EmptyString) in
  let dream_data := DreamCreate.Make "a long walk through the old town" None None true 5 in
  let h := Dreams.post Settings.default content_moderator dream_data 1 1000 2000 (DB.Make ∅ ∅) in
  DreamCreate.validate dream_data = true
  ∧ ∃ d, reply h = Success 201 d ∧ Dream.ttl_days d = 1%Z
         ∧ Dream.created_at d = 2000%Z
         ∧ Dream.expires_at d = 86400002000%Z.
Proof.
  intros content_moderator dream_data h. split; [reflexivity|].
  assert ((1 ≤ 5 ≤ 30)%Z) as Hr by (split; discriminate).
  assert (5%Z ∉ [1; 7; 30]%Z) as Ht
    by (apply (proj1 (bool_decide_eq_false _)); vm_compute; reflexivity).
  destruct (ttl_silently_coerced Settings.default content_moderator dream_data
              1%N 1000%Z 2000%Z (DB.Make ∅ ∅) 5%Z Hr Ht) as (_ & _ & _ & _ & H).
  destruct H as (d & Hd & Httl & Hc & He);
    [reflexivity | reflexivity | vm_compute; reflexivity |].
  exists d. repeat split; try done. by rewrite He, Hc.
Defined.

(** ** The fan-out *)

Section fan_out.

Import ConnectionManager.

Variable net : transport.
Variable message : json.

#[local] Abbreviation attempt :=
  (λ connection, catch (send_json net connection message) (λ _, discard connection)).

(** The sockets of the calls that raised. *)
#[local] Abbreviation failed :=
  (λ new : list (N * outcome unit),
     (filter (λ call : N * outcome unit, is_returned call.2 = false) new).*1).

Lemma attempt_step c w :
  attempt c w
  = (World (if is_returned (net (calls w) c message)
            then manager w else disconnect c (manager w))
       (calls w ++ [(c, net (calls w) c message)]),
     Returned ()).
Proof.
  unfold catch, send_json, discard. by destruct (net (calls w) c message) as [[]|e].
Qed.

(** The loop over the copy: one call per connection, in order; the
    connections whose call raised leave the set; the loop ends normally. *)
Lemma for_each_attempt l : ∀ w,
  for_each l attempt w
  = (World (Make (active_connections (manager w)
                  ∖ list_to_set (failed (calls_of_pass net message (calls w) l))))
       (calls w ++ calls_of_pass net message (calls w) l),
     Returned ()).
Proof.
  induction l as [|c l IH]; intros [[conns] log].
  - cbn. rewrite app_nil_r. do 3 f_equal. symmetry. apply difference_empty_L.
  - cbn [for_each]. rewrite attempt_step. rewrite IH. cbn [manager calls calls_of_pass].
    rewrite <- app_assoc. cbn [app]. f_equal. f_equal.
    rewrite filter_cons. cbn [snd].
    destruct (is_returned (net log c message)) eqn:Hc.
    + by rewrite decide_False by done.
    + rewrite decide_True by done. cbn. f_equal.
      apply set_eq. intros x. set_unfold. tauto.
Qed.

Lemma broadcast_run w :
  broadcast net message w
  = (World (Make (active_connections (manager w)
                  ∖ list_to_set (failed (calls_of_pass net message (calls w)
                                           (elements (active_connections (manager w)))))))
       (calls w ++ calls_of_pass net message (calls w)
                     (elements (active_connections (manager w)))),
     Returned ()).
Proof. unfold broadcast. by rewrite for_each_attempt. Qed.

(** One call per socket, in the order of the pass, each with the outcome
    the socket gave after the calls before it. *)
Lemma calls_of_pass_sockets l : ∀ log, (calls_of_pass net message log l).*1 = l.
Proof. induction l as [|c l IH]; intros log; cbn; [done|]. by rewrite IH. Qed.

Lemma calls_of_pass_outcome l : ∀ log i c o,
  calls_of_pass net message log l !! i = Some (c, o) →
  o = net (log ++ take i (calls_of_pass net message log l)) c message.
Proof.
  induction l as [|c' l IH]; intros log i c o; [done|].
  cbn [calls_of_pass]. destruct i as [|i]; cbn.
  - intros [= <- <-]. by rewrite app_nil_r.
  - intros Hi. apply IH in Hi. rewrite Hi. by rewrite <- app_assoc.
Qed.

Lemma calls_of_pass_pure (f : N → json → outcome unit) l :
  (∀ log c m, net log c m = f c m) →
  ∀ log, calls_of_pass net message log l = (λ c, (c, f c message)) <$> l.
Proof.
  intros Hf. induction l as [|c l IH]; intros log; cbn; [done|].
  by rewrite IH, Hf.
Qed.

Lemma elem_of_failed (new : list (N * outcome unit)) c :
  c ∈ failed new ↔ ∃ e, (c, Raised e) ∈ new.
Proof.
  rewrite list_elem_of_fmap. split.
  - intros ([c' o] & -> & [Ho Hin]%list_elem_of_filter). cbn in *.
    destruct o as [[]|e]; [done|]. by exists e.
  - intros (e & Hin). exists (c, Raised e). split; [done|].
    by apply list_elem_of_filter.
Qed.

End fan_out.

Lemma call_unique (new : list (N * outcome unit)) c o1 o2 :
  NoDup new.*1 → (c, o1) ∈ new → (c, o2) ∈ new → o1 = o2.
Proof.
  intros Hnd H1 H2.
  apply (elem_of_list_to_map_1 (M := gmap N)) in H1; [|done].
  apply (elem_of_list_to_map_1 (M := gmap N)) in H2; [|done].
  congruence.
Qed.

(** C8. [broadcast] never raises. On an empty set it calls no socket and
    changes nothing. Otherwise it calls each socket of the set once, in one
    pass, whatever the outcome of the other calls, each call having the
    outcome the connection gives at that time; the sockets whose call
    raised are removed from the set and the others stay. When the outcome
    of a call depends on the socket and the message only, the calls and the
    set that is left are given by that outcome. *)
Theorem broadcast_drops_failed_only :
  ∀ (net : ConnectionManager.transport) (message : json) (w : ConnectionManager.world),
    let live := ConnectionManager.active_connections (ConnectionManager.manager w) in
    let r := ConnectionManager.broadcast net message w in
    ∃ new : list (N * outcome unit),
      r.2 = Returned ()
      ∧ (live = ∅ → r.1 = w)
      ∧ ConnectionManager.calls r.1 = ConnectionManager.calls w ++ new
      ∧ new.*1 = elements live
      ∧ (∀ i c o, new !! i = Some (c, o) →
           o = net (ConnectionManager.calls w ++ take i new) c message)
      ∧ NoDup (elements live)
      ∧ (∀ c, c ∈ ConnectionManager.active_connections (ConnectionManager.manager r.1)
              ↔ c ∈ live ∧ ∀ e, (c, Raised e) ∉ new)
      ∧ (∀ c, c ∈ ConnectionManager.active_connections (ConnectionManager.manager r.1)
              ↔ c ∈ live ∧ (c, Returned ()) ∈ new)
      ∧ (∀ c, c ∈ live → (∀ log, net log c message = Returned ()) →
              (c, Returned ()) ∈ ConnectionManager.calls r.1)
      ∧ (∀ f : N → json → outcome unit, (∀ log c m, net log c m = f c m) →
           ConnectionManager.calls r.1
           = ConnectionManager.calls w ++ ((λ c, (c, f c message)) <$> elements live)
           ∧ ∀ c, c ∈ ConnectionManager.active_connections (ConnectionManager.manager r.1)
                  ↔ c ∈ live ∧ is_returned (f c message) = true).
Proof.
  intros net message w live r. subst r. rewrite broadcast_run. fold live. cbn [fst snd].
  set (new := calls_of_pass net message (ConnectionManager.calls w) (elements live)).
  assert (new.*1 = elements live) as Hkeys by apply calls_of_pass_sockets.
  assert (NoDup new.*1) as Hnd by (rewrite Hkeys; apply NoDup_elements).
  assert (∀ c, c ∈ live → ∃ o, (c, o) ∈ new) as Hcalled.
  { intros c Hc. apply elem_of_elements in Hc. rewrite <- Hkeys in Hc.
    apply list_elem_of_fmap in Hc as ([c' o] & -> & Hin). by exists o. }
  assert (∀ c, c ∈ live ∖ list_to_set
                   (filter (λ call : N * outcome unit, is_returned call.2 = false) new).*1
               ↔ c ∈ live ∧ ∀ e, (c, Raised e) ∉ new) as Hleft.
  { intros c. rewrite elem_of_difference, elem_of_list_to_set, elem_of_failed.
    split; intros [Hc Hn]; (split; [done|]).
    - intros e He. apply Hn. by exists e.
    - intros [e He]. by apply (Hn e). }
  assert (∀ c, (c ∈ live ∧ ∀ e, (c, Raised e) ∉ new) ↔ c ∈ live ∧ (c, Returned ()) ∈ new)
    as Hserved.
  { intros c. split; intros [Hc H]; (split; [done|]).
    - destruct (Hcalled c Hc) as [[[]|e] Ho]; [done|]. by destruct (H e).
    - intros e He. by pose proof (call_unique new c _ _ Hnd H He). }
  exists new. cbn [ConnectionManager.calls ConnectionManager.manager
                   ConnectionManager.active_connections].
  split; [done|]. split.
  { intros Hl. destruct w as [[conns] log]; cbn in *. subst live new. rewrite Hl.
    rewrite elements_empty. cbn. rewrite app_nil_r. by do 2 f_equal. }
  split; [done|]. split; [done|].
  split; [intros i c o; apply calls_of_pass_outcome|].
  split; [apply NoDup_elements|]. split; [exact Hleft|].
  split; [intros c; by rewrite Hleft|]. split.
  { intros c Hc Hn. apply elem_of_app. right.
    destruct (Hcalled c Hc) as [o Ho]. pose proof Ho as Hi.
    apply list_elem_of_lookup in Hi as [i Hi].
    apply calls_of_pass_outcome in Hi. rewrite Hn in Hi. by subst o. }
  intros f Hf. subst new. rewrite (calls_of_pass_pure net message f) in * by done.
  split; [done|]. intros c. rewrite Hleft. split; intros [Hc H]; (split; [done|]).
  - destruct (f c message) as [[]|e] eqn:Hfc; [done|]. destruct (H e).
    apply list_elem_of_fmap. exists c. rewrite Hfc. split; [done|]. by apply elem_of_elements.
  - intros e (c' & [= <- He] & _)%list_elem_of_fmap. by rewrite <- He in H.
Qed.

Lemma broadcast_drops_failed_only_witness :
  let net : ConnectionManager.transport :=
    λ _ c _, if (c =? 1)%N then Raised (UpstreamError "closed") else Returned () in
  let w := ConnectionManager.World (ConnectionManager.Make {[ 1%N; 2%N ]}) [] in
  let r := ConnectionManager.broadcast net (ConnectionManager.new_moment_event "new_moment:7") w in
  (2%N, Returned ()) ∈ ConnectionManager.calls r.1
  ∧ elements (ConnectionManager.active_connections (ConnectionManager.manager r.1)) = [2%N].
Proof.
  intros net w r. split; [|by vm_compute].
  destruct (broadcast_drops_failed_only net (ConnectionManager.new_moment_event "new_moment:7") w)
    as (new & _ & _ & _ & _ & _ & _ & _ & _ & H & _).
  apply H; [|reflexivity]. apply elem_of_union. right. by apply elem_of_singleton.
Defined.

(** * Further properties of the code *)

(** ** The fallback analysers *)

Section fallback_analysers.

Lemma length_prefix n : ∀ s, String.length (Py.prefix n s) ≤ n.
Proof.
  unfold Py.prefix.
  induction n as [|n IH]; intros [|c s]; simpl; try lia.
  specialize (IH s). lia.
Qed.

Lemma length_string_app s1 s2 :
  String.length (s1 +:+ s2) = String.length s1 + String.length s2.
Proof. induction s1 as [|c s1 IH]; simpl; [done|]. by rewrite IH. Qed.

Lemma length_keywords n words : length (AIService.keywords n words) ≤ 5.
Proof. unfold AIService.keywords. rewrite length_take. lia. Qed.

Lemma keywords_long n words w : w ∈ AIService.keywords n words → n < Py.len w ∧ w ∈ words.
Proof.
  unfold AIService.keywords. intros Hin%subseteq_take.
  by apply list_elem_of_filter in Hin.
Qed.

Lemma size_list_to_set_le (l : list string) : size (list_to_set l : gset string) ≤ length l.
Proof.
  induction l as [|x l IH].
  - done.
  - rewrite list_to_set_cons, size_union_alt, size_singleton. cbn [length].
    assert (size ((list_to_set l : gset string) ∖ {[x]}) ≤ size (list_to_set l : gset string)).
    { apply subseteq_size. intros y Hy. by apply elem_of_difference in Hy as [? _]. }
    lia.
Qed.

Lemma size_shared_le (l1 l2 : list string) :
  size (list_to_set l1 ∩ list_to_set l2 : gset string) ≤ length l1.
Proof.
  etrans; [|apply size_list_to_set_le].
  apply subseteq_size, intersection_subseteq_l.
Qed.

Lemma size_shared_tags (l1 l2 : list string) :
  size (list_to_set l1 ∩ list_to_set l2 : gset string) = shared_tags l1 l2.
Proof.
  unfold shared_tags.
  rewrite <- (size_list_to_set (C := gset string)) by apply NoDup_remove_dups.
  f_equal. apply set_eq. intros t.
  rewrite elem_of_intersection, !elem_of_list_to_set, elem_of_remove_dups,
    list_elem_of_filter. tauto.
Qed.

Lemma shared_tags_none (l1 l2 : list string) :
  shared_tags l1 l2 = 0 ↔ ∀ t, t ∈ l1 → t ∉ l2.
Proof.
  rewrite <- size_shared_tags, size_empty_iff. split.
  - intros He t H1 H2. apply (not_elem_of_empty (C := gset string) t). rewrite <- He.
    apply elem_of_intersection. by rewrite !elem_of_list_to_set.
  - intros Hn t. split; [|by intros ?%not_elem_of_empty].
    rewrite elem_of_intersection, !elem_of_list_to_set. intros [H1 H2]. by destruct (Hn t).
Qed.

Lemma mock_tags_length description :
  1 ≤ length (AIService.get_list (AIService.tags (AIService._mock_dream_analysis description)))
  ≤ 5.
Proof.
  unfold AIService._mock_dream_analysis. cbn.
  pose proof (length_keywords 4 (Py.split (Py.lower description))).
  destruct (AIService.keywords 4 _); simpl in *; lia.
Qed.

End fallback_analysers.

(** X1. The fallback dream analysis has every key, between 1 and 5 tags,
    between 1 and 3 symbols, a narrative of at most 103 characters and a
    visual prompt of at most 200; unless it falls back to its three fixed
    tags, each tag is a word of the lowercased description longer than 4
    characters. *)
Theorem mock_dream_analysis_bounds :
  ∀ description : string,
    let a := AIService._mock_dream_analysis description in
    ∃ tags symbols narrative visual_prompt,
      AIService.tags a = Some tags
      ∧ AIService.symbols a = Some symbols
      ∧ AIService.narrative a = Some narrative
      ∧ AIService.visual_prompt a = Some visual_prompt
      ∧ is_Some (AIService.themes a) ∧ is_Some (AIService.emotions a)
      ∧ 1 ≤ length tags ≤ 5
      ∧ 1 ≤ length symbols ≤ 3
      ∧ Py.len narrative ≤ 103
      ∧ Py.len visual_prompt ≤ 200
      ∧ (tags = ["dream"; "sleep"; "night"]
         ∨ ∀ w, w ∈ tags → 4 < Py.len w ∧ w ∈ Py.split (Py.lower description)).
Proof.
  intros description a. subst a. unfold AIService._mock_dream_analysis. cbv zeta.
  do 4 eexists. cbn [AIService.tags AIService.symbols AIService.narrative
                     AIService.visual_prompt AIService.themes AIService.emotions].
  repeat apply conj; try done; try (by eexists).
  - destruct (AIService.keywords 4 _); simpl; lia.
  - pose proof (length_keywords 4 (Py.split (Py.lower description))).
    destruct (AIService.keywords 4 _); simpl in *; lia.
  - destruct (AIService.keywords 4 _); simpl; lia.
  - destruct (AIService.keywords 4 _) as [|w ws] eqn:Hk; [simpl; lia|].
    rewrite length_take. lia.
  - case_bool_decide as Hl; unfold Py.len in *; [|lia].
    rewrite length_string_app. pose proof (length_prefix 100 description). simpl. lia.
  - apply length_prefix.
  - destruct (AIService.keywords 4 _) as [|w ws] eqn:Hk; [by left|].
    right. intros w' Hw'. rewrite <- Hk in Hw'. by apply keywords_long in Hw'.
Qed.

(** X2. With the enrichment disabled from end to end (no client for the
    analysis, the tagging or the scoring), the score of a dream described by
    [description] against a moment captioned [caption] is returned without
    any request and is 25 times the number of distinct tags the two
    fallback extractions share: at most 125, and 0 exactly when they share
    no tag. *)
Theorem fallback_pipeline_score_range :
  ∀ (json_loads : string → option json) (ac : option unit)
    (description : string) (caption : option string) (media_type : string),
    let self := AIService.Make ac None in
    let dream := AIService._mock_dream_analysis description in
    let moment_tags := AIService.analyze_moment self caption media_type in
    let n := shared_tags (AIService.get_list (AIService.tags dream)) moment_tags in
    ∃ v,
      AIService.calculate_resonance json_loads self dream moment_tags caption
      = Run [] (Returned v)
      ∧ score_of v = Some (25 * Z.of_nat n)%Z
      ∧ n ≤ 5
      ∧ (n = 0 ↔ ∀ t, t ∈ AIService.get_list (AIService.tags dream) → t ∉ moment_tags).
Proof.
  intros json_loads ac description caption media_type self dream moment_tags n.
  exists (AIService._mock_resonance dream moment_tags).
  split; [done|]. split; [|split].
  - unfold AIService._mock_resonance. rewrite score_of_resonance. subst n.
    rewrite <- size_shared_tags. f_equal. lia.
  - subst n. rewrite <- size_shared_tags. etrans; [apply size_shared_le|].
    apply mock_tags_length.
  - apply shared_tags_none.
Qed.

Lemma fallback_pipeline_score_range_witness :
  ∃ v, AIService.calculate_resonance (λ _, None) (AIService.Make None None)
         (AIService._mock_dream_analysis "flying above silver mountains")
         (AIService.analyze_moment (AIService.Make None None)
            (Some "Silver mountains at dawn") "photo")
         (Some "Silver mountains at dawn")
       = Run [] (Returned v)
       ∧ score_of v = Some 50%Z.
Proof.
  destruct (fallback_pipeline_score_range (λ _, None) None "flying above silver mountains"
              (Some "Silver mountains at dawn") "photo") as (v & Hv & Hs & _).
  exists v. split; [exact Hv|]. rewrite Hs. vm_compute. reflexivity.
Defined.

(** X3. The score depends on the tags only as sets: two analyses and two
    tag lists with the same elements, in whatever order and with whatever
    repetitions, get the same score whenever no refinement is involved (no
    caption, or no client). *)
Theorem score_depends_on_tag_sets :
  ∀ (json_loads : string → option json) (self : AIService.t)
    (a a' : AIService.analysis) (moment_tags moment_tags' : list string),
    (∀ t, t ∈ AIService.get_list (AIService.tags a)
          ↔ t ∈ AIService.get_list (AIService.tags a')) →
    (∀ t, t ∈ moment_tags ↔ t ∈ moment_tags') →
    ∃ v v',
      AIService.calculate_resonance json_loads self a moment_tags None = Run [] (Returned v)
      ∧ AIService.calculate_resonance json_loads self a' moment_tags' None = Run [] (Returned v')
      ∧ score_of v = score_of v'
      ∧ is_Some (score_of v).
Proof.
  intros json_loads [ac client] a a' moment_tags moment_tags' Ha Hm.
  assert ((list_to_set (AIService.get_list (AIService.tags a)) : gset string)
          = list_to_set (AIService.get_list (AIService.tags a'))) as Hda.
  { apply set_eq. intros t. by rewrite !elem_of_list_to_set. }
  assert ((list_to_set moment_tags : gset string) = list_to_set moment_tags') as Hdm.
  { apply set_eq. intros t. by rewrite !elem_of_list_to_set. }
  destruct client as [client|].
  - rewrite !calculate_resonance_client. rewrite !andb_false_r.
    do 2 eexists. split; [done|]. split; [done|].
    rewrite !base_resonance_score. unfold spec_base_score. cbv zeta.
    rewrite Hda, Hdm. split; [done|]. by eexists.
  - rewrite !calculate_resonance_fallback.
    do 2 eexists. split; [done|]. split; [done|].
    unfold AIService._mock_resonance. rewrite !score_of_resonance, Hda, Hdm.
    split; [done|]. by eexists.
Qed.

Lemma score_depends_on_tag_sets_witness :
  ∃ v v',
    AIService.calculate_resonance (λ _, None) (AIService.Make None None)
      (AIService.Analysis None None None None (Some ["sky"; "sea"; "sky"]) None)
      ["sea"; "sky"] None = Run [] (Returned v)
    ∧ AIService.calculate_resonance (λ _, None) (AIService.Make None None)
        (AIService.Analysis None None None None (Some ["sea"; "sky"]) None)
        ["sky"; "sea"; "sea"] None = Run [] (Returned v')
    ∧ score_of v = score_of v'
    ∧ is_Some (score_of v).
Proof.
  apply (score_depends_on_tag_sets (λ _, None) (AIService.Make None None)
           (AIService.Analysis None None None None (Some ["sky"; "sea"; "sky"]) None)
           (AIService.Analysis None None None None (Some ["sea"; "sky"]) None)
           ["sea"; "sky"] ["sky"; "sea"; "sea"]).
  - intros t. cbn. rewrite !elem_of_cons, !elem_of_nil. tauto.
  - intros t. rewrite !elem_of_cons, !elem_of_nil. tauto.
Defined.

(** ** Dream analysis and image generation *)

Section analysis.

Variable analysis_loads : string → option AIService.analysis.
Variable dream_prompt : string → string.
Variable model : string.

#[local] Abbreviation analyze_dream :=
  (AIService.analyze_dream analysis_loads dream_prompt model).

Lemma analyze_dream_cases self description :
  let mock := AIService._mock_dream_analysis description in
  let req := ChatRequest model (dream_prompt description) 1024 in
  match AIService.openai_client self with
  | None => analyze_dream self description = Run [] (Returned mock)
  | Some client =>
      ∃ a, analyze_dream self description = Run [req] (Returned a)
           ∧ (a = mock
              ∨ ∃ content cs,
                  AIService.chat_completions_create client req
                  = Returned (AIService.Choice (Some content) :: cs)
                  ∧ content ≠ EmptyString
                  ∧ analysis_loads content = Some a)
  end.
Proof.
  intros mock req. unfold AIService.analyze_dream.
  destruct (AIService.openai_client self) as [client|]; [|done].
  fold mock req. unfold try_except, AIService.create, mbind, M_bind; simpl.
  destruct (AIService.chat_completions_create client req) as [[|[content] cs]|e] eqn:Hc;
    simpl; try (by exists mock; split; [|left]).
  destruct content as [[|c s]|]; simpl; try (by exists mock; split; [|left]).
  destruct (analysis_loads (String c s)) as [a|] eqn:Ha; simpl.
  - exists a. split; [done|]. right. by exists (String c s), cs.
  - exists mock. split; [done|]. by left.
Qed.

Lemma analyze_dream_returns self description :
  ∃ a, result (analyze_dream self description) = Returned a.
Proof.
  pose proof (analyze_dream_cases self description) as H. cbv zeta in H.
  destruct (AIService.openai_client self) as [client|].
  - destruct H as (a & -> & _). by exists a.
  - rewrite H. by eexists.
Qed.

(** A first choice with a content that is not empty and decodes is the
    answer. *)
Lemma analyze_dream_decoded self client description content cs a :
  AIService.openai_client self = Some client →
  AIService.chat_completions_create client (ChatRequest model (dream_prompt description) 1024)
  = Returned (AIService.Choice (Some content) :: cs) →
  content ≠ EmptyString →
  analysis_loads content = Some a →
  analyze_dream self description
  = Run [ChatRequest model (dream_prompt description) 1024] (Returned a).
Proof.
  intros Hc Hr Hne Ha. unfold AIService.analyze_dream. rewrite Hc.
  unfold try_except, AIService.create, mbind, M_bind; simpl. rewrite Hr. simpl.
  destruct content as [|c s]; [done|]. simpl. by rewrite Ha.
Qed.

End analysis.

(** X4. [analyze_dream] never raises. Without a client it sends nothing and
    answers with the fallback analysis; with a client it sends one request,
    and its answer is the decoded content of the first choice when that is
    there, not empty and decodable, and the fallback analysis in every
    other case. *)
Theorem analyze_dream_fails_safe :
  ∀ (analysis_loads : string → option AIService.analysis) (dream_prompt : string → string)
    (model : string) (self : AIService.t) (description : string),
    let r := AIService.analyze_dream analysis_loads dream_prompt model self description in
    let mock := AIService._mock_dream_analysis description in
    let req := ChatRequest model (dream_prompt description) 1024 in
    (∃ a, result r = Returned a)
    ∧ (AIService.openai_client self = None → r = Run [] (Returned mock))
    ∧ (∀ client, AIService.openai_client self = Some client →
         trace r = [req]
         ∧ (result r = Returned mock
            ∨ ∃ a content cs,
                result r = Returned a
                ∧ AIService.chat_completions_create client req
                  = Returned (AIService.Choice (Some content) :: cs)
                ∧ content ≠ EmptyString
                ∧ analysis_loads content = Some a))
    ∧ (∀ client content cs a,
         AIService.openai_client self = Some client →
         AIService.chat_completions_create client req
         = Returned (AIService.Choice (Some content) :: cs) →
         content ≠ EmptyString →
         analysis_loads content = Some a →
         r = Run [req] (Returned a)).
Proof.
  intros analysis_loads dream_prompt model self description r mock req.
  pose proof (analyze_dream_cases analysis_loads dream_prompt model self description) as H.
  cbv zeta in H. fold r mock req in H.
  split; [apply analyze_dream_returns|].
  split; [|split].
  - intros Hn. by rewrite Hn in H.
  - intros client Hc. rewrite Hc in H. destruct H as (a & -> & Ha). split; [done|].
    destruct Ha as [->|(content & cs & ? & ? & ?)]; [by left|].
    right. by exists a, content, cs.
  - intros client content cs a Hc Hr Hne Ha. by apply analyze_dream_decoded with client content cs.
Qed.

Lemma analyze_dream_fails_safe_witness :
  let a := AIService.Analysis (Some ["flight"]) (Some ["awe"]) (Some ["mountain"])
             (Some "A flight over mountains.") (Some ["flying"; "silver"]) (Some "silver peaks") in
  let client := AIService.Client (λ _, Returned [AIService.Choice (Some "{...}")]) in
  AIService.analyze_dream (λ _, Some a) (λ d, d) "gpt"
    (AIService.Make None (Some client)) "flying above silver mountains"
  = Run [ChatRequest "gpt" "flying above silver mountains" 1024] (Returned a).
Proof.
  intros a client.
  destruct (analyze_dream_fails_safe (λ _, Some a) (λ d, d) "gpt"
              (AIService.Make None (Some client)) "flying above silver mountains")
    as (_ & _ & _ & H).
  apply (H client "{...}" []); [reflexivity | reflexivity | discriminate | reflexivity].
Defined.

(** X5. [generate_dream_image] never raises and sends a prompt of at most
    4000 characters. Without a client the answer is [None]. An answer is
    either the local path [/uploads/dreams/dream_<timestamp>_<id>.png],
    when the file was fetched and written, or the url the endpoint gave,
    when saving it failed. *)
Theorem generate_dream_image_result :
  ∀ (self : AIService.t) (backend : AIService.image_backend)
    (visual_prompt : string) (dream_title : option string),
    let prompt := AIService.image_prompt visual_prompt dream_title in
    let filename :=
      "dream_" +:+ AIService.timestamp backend +:+ "_"
      +:+ AIService.unique_id backend +:+ ".png" in
    let path := "/var/www/dreamcapture/backend/static/uploads/dreams/" +:+ filename in
    Py.len prompt ≤ 4000
    ∧ (AIService.openai_client self = None →
       AIService.generate_dream_image self backend visual_prompt dream_title = None)
    ∧ (∀ url, AIService.generate_dream_image self backend visual_prompt dream_title = Some url →
         ∃ temp_url rest,
           AIService.images_generate backend prompt = Returned (Some temp_url :: rest)
           ∧ ((url = "/uploads/dreams/" +:+ filename
               ∧ AIService.fetch_and_write backend temp_url path = Returned ())
              ∨ (url = temp_url
                 ∧ ∃ e, AIService.fetch_and_write backend temp_url path = Raised e))).
Proof.
  intros self backend visual_prompt dream_title prompt filename path.
  split; [apply length_prefix|]. split.
  - unfold AIService.generate_dream_image. by intros ->.
  - intros url. unfold AIService.generate_dream_image.
    destruct (AIService.openai_client self); [|done]. fold prompt.
    destruct (AIService.images_generate backend prompt) as [[|temp_url rest]|e]; try done.
    unfold AIService._download_and_save_image. fold filename path.
    destruct temp_url as [temp_url|]; [|done].
    destruct (AIService.fetch_and_write backend temp_url path) as [[]|e] eqn:Hf.
    + cbn. intros [= <-]. exists temp_url, rest. split; [done|]. by left.
    + cbn. intros [= <-]. exists temp_url, rest. split; [done|]. right. eauto.
Qed.

Lemma generate_dream_image_result_witness :
  AIService.generate_dream_image (AIService.Make None None)
    (AIService.ImageBackend (λ _, Returned [Some "https://images.example/a.png"])
       (λ _ _, Returned ()) "20250101_090000" "1a2b3c4d")
    "a lighthouse above the clouds" (Some "Lighthouse") = None.
Proof.
  destruct (generate_dream_image_result (AIService.Make None None)
              (AIService.ImageBackend (λ _, Returned [Some "https://images.example/a.png"])
                 (λ _ _, Returned ()) "20250101_090000" "1a2b3c4d")
              "a lighthouse above the clouds" (Some "Lighthouse")) as (_ & H & _).
  by apply H.
Defined.

(** ** Moderation *)

Section moderation.

Lemma join_singleton sep v : Py.join sep [v] = v.
Proof. done. Qed.

Lemma message_of_unknown table cat :
  (∀ v, (cat, v) ∉ table) → Moderation.message_of table cat = cat.
Proof.
  induction table as [|[k v] table IH]; intros Hn; simpl; [done|].
  destruct (String.eqb_spec cat k) as [->|Hne].
  - exfalso. apply (Hn v). by left.
  - apply IH. intros v' Hin. apply (Hn v'). by right.
Qed.

Lemma check_text_no_client text :
  Moderation.check_text (Moderation.Make None) text = Moderation.not_flagged.
Proof. done. Qed.

End moderation.

(** X6. The moderation check fails open: a text is flagged only when the
    client is there, the text is not empty and the endpoint answered with a
    first result that is flagged; without a client, on an empty text, on an
    error of the endpoint and on an empty answer the verdict is
    [not flagged], with no category. *)
Theorem check_text_fails_open :
  ∀ (self : Moderation.t) (text : string),
    let verdict := Moderation.check_text self text in
    (ContentModerator.flagged verdict = true →
       ∃ c r rs,
         Moderation.openai_client self = Some c
         ∧ text ≠ EmptyString
         ∧ Moderation.moderations_create c text = Returned (r :: rs)
         ∧ ContentModerator.flagged r = true
         ∧ ContentModerator.categories verdict = ContentModerator.categories r)
    ∧ (Moderation.openai_client self = None → verdict = Moderation.not_flagged)
    ∧ (text = EmptyString → verdict = Moderation.not_flagged)
    ∧ (∀ c e, Moderation.openai_client self = Some c →
         Moderation.moderations_create c text = Raised e →
         verdict = Moderation.not_flagged)
    ∧ Moderation.is_safe self text = negb (ContentModerator.flagged verdict).
Proof.
  intros [[c|]] text verdict; subst verdict;
    unfold Moderation.is_safe, Moderation.check_text; simpl.
  - split; [|split; [|split; [|split]]].
    + destruct text as [|a s]; simpl; [done|].
      destruct (Moderation.moderations_create c (String a s)) as [[|r rs]|e] eqn:Hc;
        simpl; try done.
      intros Hf. exists c, r, rs. by repeat split.
    + done.
    + by intros ->.
    + intros c' e [= <-] ->. by destruct text.
    + done.
  - split; [|split; [|split; [|split]]]; try done.
Qed.

Lemma check_text_fails_open_witness :
  Moderation.check_text
    (Moderation.Make (Some (Moderation.Client (λ _, Raised (UpstreamError "503")))))
    "a walk through the old town"
  = Moderation.not_flagged.
Proof.
  destruct (check_text_fails_open
              (Moderation.Make (Some (Moderation.Client (λ _, Raised (UpstreamError "503")))))
              "a walk through the old town") as (_ & _ & _ & H & _).
  by eapply H.
Defined.

(** X7. The violation message is empty for a verdict that is not flagged.
    For a flagged one it is the fixed prefix followed by the texts of the
    categories whose flag is set, in their order, separated by commas, the
    one-category case included; a category the table does not know appears
    under its own name. *)
Theorem violation_message_lists_flagged :
  ∀ (verdict : ContentModerator.moderation_result),
    let flagged_categories :=
      (filter (λ kv : string * bool, kv.2 = true) (ContentModerator.categories verdict)).*1 in
    (ContentModerator.flagged verdict = false →
       Moderation.get_violation_message verdict = EmptyString)
    ∧ (ContentModerator.flagged verdict = true →
       Moderation.get_violation_message verdict
       = Moderation.violation_prefix
         +:+ Py.join ", " (Moderation.message_of Moderation.category_messages
                             <$> flagged_categories))
    ∧ (∀ cat, (∀ v, (cat, v) ∉ Moderation.category_messages) →
         Moderation.message_of Moderation.category_messages cat = cat).
Proof.
  intros verdict flagged_categories. unfold Moderation.get_violation_message.
  fold flagged_categories.
  repeat apply conj.
  - by intros ->.
  - intros ->. cbn [negb]. by destruct (_ <$> flagged_categories) as [|v [|v' vs]].
  - intros cat. apply message_of_unknown.
Qed.

Lemma violation_message_lists_flagged_witness :
  Moderation.get_violation_message
    (ContentModerator.Result true [("hate", false); ("violence", true); ("spam", true)])
  = Moderation.violation_prefix +:+ "насилия, spam".
Proof.
  destruct (violation_message_lists_flagged
              (ContentModerator.Result true
                 [("hate", false); ("violence", true); ("spam", true)])) as (_ & H & _).
  rewrite H by reflexivity. vm_compute. reflexivity.
Defined.

(** X8. With the moderator of the source and no client behind it, no
    creation request is refused for its content: [create_dream] and
    [create_moment] never answer 400. *)
Theorem no_moderation_client_no_rejection :
  ∀ (settings : Settings.t) (redis_client : Redis.t) (user : N) (clock0 clock1 : Z)
    (db : DB.t) (dream_data : DreamCreate.t) (moment_data : MomentCreate.t),
    let content_moderator := Moderation.content_moderator (Moderation.Make None) in
    status_of (reply (Dreams.create_dream settings content_moderator dream_data user
                        clock0 clock1 db)) ≠ 400%Z
    ∧ status_of (reply (Moments.create_moment settings content_moderator redis_client
                          moment_data user clock0 clock1 db)) ≠ 400%Z.
Proof.
  intros settings redis_client user clock0 clock1 db dream_data moment_data content_moderator.
  split.
  - unfold Dreams.create_dream. cbn [ContentModerator.check_text content_moderator
      Moderation.content_moderator]. rewrite check_text_no_client.
    cbn [ContentModerator.flagged Moderation.not_flagged]. cbv zeta.
    by case_bool_decide.
  - unfold Moments.create_moment. cbn [ContentModerator.check_text content_moderator
      Moderation.content_moderator]. rewrite check_text_no_client.
    cbn [ContentModerator.flagged Moderation.not_flagged]. cbv zeta.
    destruct (Py.truthy _); (case_bool_decide; [done|]);
      by destruct (Redis.publish redis_client _ _).
Qed.

(** ** Lists of dreams *)

#[global] Instance dreams_newer_trans : Transitive Dreams.newer.
Proof. unfold Dreams.newer. intros a b c. lia. Qed.

#[global] Instance dreams_newer_total : Total Dreams.newer.
Proof. unfold Dreams.newer. intros a b. lia. Qed.

Section listing.

Lemma page_sorted {A : Type} (R : relation A) `{!RelDecision R, !Transitive R, !Total R}
    (skip limit : nat) (l : list A) :
  StronglySorted R (take limit (drop skip (merge_sort R l))).
Proof.
  pose proof (StronglySorted_merge_sort R l) as Hs.
  rewrite <- (take_drop skip (merge_sort R l)) in Hs.
  apply StronglySorted_app_1_r in Hs.
  rewrite <- (take_drop limit (drop skip (merge_sort R l))) in Hs.
  by apply StronglySorted_app_1_l in Hs.
Qed.

Lemma page_whole {A : Type} (R : relation A) `{!RelDecision R} (limit : nat) (l : list A) :
  length l ≤ limit → take limit (drop 0 (merge_sort R l)) ≡ₚ l.
Proof.
  intros Hl. rewrite drop_0, take_ge; [apply merge_sort_Permutation|].
  by rewrite merge_sort_Permutation.
Qed.

Lemma page_length {A : Type} (limit : nat) (l : list A) : length (take limit l) ≤ limit.
Proof. rewrite length_take. lia. Qed.

End listing.

(** X9. A page of the public stream has at most [limit] dreams, each of
    them public, visible and not expired, the newest first; and with
    [skip = 0] and a [limit] that covers them it contains every such dream
    of the table. *)
Theorem get_dreams_page :
  ∀ (skip limit : nat) (now : Z) (db : DB.t),
    let page := Dreams.get_dreams skip limit now db in
    length page ≤ limit
    ∧ StronglySorted (λ a b, (Dream.created_at b ≤ Dream.created_at a)%Z) page
    ∧ (∀ d, d ∈ page →
         Dream.is_public d = true ∧ Dream.is_visible d = true
         ∧ (now < Dream.expires_at d)%Z)
    ∧ (skip = 0 → length (DB.select (Dreams.listed now) (DB.dreams db)) ≤ limit →
       ∀ k d, DB.dreams db !! k = Some d →
         Dream.is_public d = true → Dream.is_visible d = true →
         (now < Dream.expires_at d)%Z → d ∈ page).
Proof.
  intros skip limit now db page. subst page. unfold Dreams.get_dreams.
  split; [apply page_length|]. split; [apply (page_sorted Dreams.newer)|]. split.
  - intros d [Hl _]%get_dreams_listed. unfold Dreams.listed in Hl.
    apply andb_true_iff in Hl as [[Hp Hv]%andb_true_iff He].
    by apply bool_decide_eq_true in He.
  - intros -> Hlen k d Hk Hp Hv He.
    rewrite page_whole by by rewrite length_fmap.
    apply elem_of_select_rows. exists k. split; [done|].
    unfold Dreams.listed. by rewrite Hp, Hv, bool_decide_eq_true_2.
Qed.

Lemma get_dreams_page_witness :
  let d := Dream.Make 4 1 None "a walk through the town" None None None None
             0 604800000000 7 true true 0 in
  d ∈ Dreams.get_dreams 0 20 1000 (DB.Make {[ 4%N := d ]} ∅).
Proof.
  intros d.
  destruct (get_dreams_page 0 20 1000 (DB.Make {[ 4%N := d ]} ∅)) as (_ & _ & _ & H).
  apply (H eq_refl) with (k := 4%N); vm_compute; try reflexivity; lia.
Defined.

(** X10. A page of an owner's own dreams has at most [limit] dreams, all of
    them the owner's and not expired, the newest first; private and hidden
    dreams are not left out: with [skip = 0] and a [limit] that covers them
    it contains every dream of the owner that has not expired. *)
Theorem get_my_dreams_page :
  ∀ (skip limit : nat) (user : N) (now : Z) (db : DB.t),
    let page := Dreams.get_my_dreams skip limit user now db in
    length page ≤ limit
    ∧ StronglySorted (λ a b, (Dream.created_at b ≤ Dream.created_at a)%Z) page
    ∧ (∀ d, d ∈ page →
         Dream.user_id d = user ∧ (now < Dream.expires_at d)%Z
         ∧ ∃ k, DB.dreams db !! k = Some d)
    ∧ (skip = 0 → length (DB.select (Dreams.mine user now) (DB.dreams db)) ≤ limit →
       ∀ k d, DB.dreams db !! k = Some d →
         Dream.user_id d = user → (now < Dream.expires_at d)%Z → d ∈ page).
Proof.
  intros skip limit user now db page. subst page. unfold Dreams.get_my_dreams.
  split; [apply page_length|]. split; [apply (page_sorted Dreams.newer)|]. split.
  - intros d Hin. apply subseteq_take, subseteq_drop in Hin.
    rewrite merge_sort_Permutation in Hin.
    apply elem_of_select_rows in Hin as (k & Hk & Hm). unfold Dreams.mine in Hm.
    apply andb_true_iff in Hm as [Hu He].
    apply bool_decide_eq_true in Hu, He. eauto.
  - intros -> Hlen k d Hk Hu He.
    rewrite page_whole by by rewrite length_fmap.
    apply elem_of_select_rows. exists k. split; [done|].
    unfold Dreams.mine. by rewrite !bool_decide_eq_true_2.
Qed.

Lemma get_my_dreams_page_witness :
  let d := Dream.Make 4 1 None "a walk through the town" None None None None
             0 604800000000 7 false false 0 in
  d ∈ Dreams.get_my_dreams 0 20 1 1000 (DB.Make {[ 4%N := d ]} ∅).
Proof.
  intros d.
  destruct (get_my_dreams_page 0 20 1 1000 (DB.Make {[ 4%N := d ]} ∅)) as (_ & _ & _ & H).
  apply (H eq_refl) with (k := 4%N); vm_compute; try reflexivity; lia.
Defined.

(** ** Reading and deleting one dream *)

(** X11. Reading by id a public dream (any moment) that has not expired
    succeeds with 200; the row that is served and stored has its
    [view_count] raised by exactly one and every other column as it was,
    and no other row changes; a refused read changes nothing. *)
Theorem read_counts_one_view :
  ∀ (k : N) (now : Z) (db : DB.t),
    let h := Dreams.get_dream k now db in
    let g := Moments.get_moment k now db in
    (∀ s d, reply h = Success s d →
       ∃ d0, DB.dreams db !! k = Some d0
             ∧ Dream.is_public d0 = true ∧ (now < Dream.expires_at d0)%Z
             ∧ s = 200%Z
             ∧ Dream.view_count d = (Dream.view_count d0 + 1)%Z
             ∧ dream_content d = dream_content d0
             ∧ dream_enrichment d = dream_enrichment d0
             ∧ Dream.is_visible d = Dream.is_visible d0
             ∧ db_after h = DB.Make (<[k := d]> (DB.dreams db)) (DB.moments db))
    ∧ (∀ d0, DB.dreams db !! k = Some d0 → Dream.is_public d0 = true →
         (now < Dream.expires_at d0)%Z →
         ∃ d, reply h = Success 200 d ∧ DB.dreams (db_after h) !! k = Some d)
    ∧ (∀ s detail, reply h = HTTPException s detail → db_after h = db)
    ∧ (∀ s m, reply g = Success s m →
         ∃ m0, DB.moments db !! k = Some m0
               ∧ (now < Moment.expires_at m0)%Z
               ∧ s = 200%Z
               ∧ Moment.view_count m = (Moment.view_count m0 + 1)%Z
               ∧ moment_content m = moment_content m0
               ∧ Moment.ai_tags m = Moment.ai_tags m0
               ∧ Moment.is_visible m = Moment.is_visible m0
               ∧ db_after g = DB.Make (DB.dreams db) (<[k := m]> (DB.moments db)))
    ∧ (∀ m0, DB.moments db !! k = Some m0 → (now < Moment.expires_at m0)%Z →
         ∃ m, reply g = Success 200 m ∧ DB.moments (db_after g) !! k = Some m)
    ∧ (∀ s detail, reply g = HTTPException s detail → db_after g = db).
Proof.
  intros k now db h g. subst h g. unfold Dreams.get_dream, Moments.get_moment.
  split; [|split; [|split; [|split; [|split]]]].
  - intros s d. destruct (DB.dreams db !! k) as [d0|]; [|done].
    case_bool_decide as He; [done|]. destruct (Dream.is_public d0) eqn:Hp; [|done].
    cbn. intros [= <- <-]. exists d0. destruct d0. cbn in *. repeat split; try done. lia.
  - intros d0 -> Hp He. rewrite bool_decide_eq_false_2 by lia. rewrite Hp. cbn.
    eexists. split; [done|]. apply lookup_insert_eq.
  - intros s detail. destruct (DB.dreams db !! k) as [d0|]; [|done].
    case_bool_decide; [done|]. by destruct (Dream.is_public d0).
  - intros s m. destruct (DB.moments db !! k) as [m0|]; [|done].
    case_bool_decide as He; [done|].
    cbn. intros [= <- <-]. exists m0. destruct m0. cbn in *. repeat split; try done. lia.
  - intros m0 -> He. rewrite bool_decide_eq_false_2 by lia. cbn.
    eexists. split; [done|]. apply lookup_insert_eq.
  - intros s detail. destruct (DB.moments db !! k) as [m0|]; [|done].
    by case_bool_decide.
Qed.

Lemma read_counts_one_view_witness :
  let m0 := Moment.Make 4 1 (Some "first snow") "photo" "/uploads/snow.jpg" None None
              0 60000000 true 41 in
  let db := DB.Make ∅ {[ 4%N := m0 ]} in
  ∃ m, reply (Moments.get_moment 4 1000 db) = Success 200 m
       ∧ Moment.view_count m = 42%Z
       ∧ Moment.caption m = Some "first snow".
Proof.
  intros m0 db.
  destruct (read_counts_one_view 4 1000 db) as (_ & _ & _ & Hread & Hserved & _).
  destruct (Hserved m0) as (m & Hm & _); [vm_compute; reflexivity | vm_compute; reflexivity |].
  exists m. split; [exact Hm|].
  destruct (Hread 200%Z m Hm) as (m1 & Hm1 & _ & _ & Hv & Hc & _).
  vm_compute in Hm1. injection Hm1 as <-.
  split; [exact Hv|]. injection Hc as _ _ Hcap _ _ _ _ _. exact Hcap.
Defined.

(** X12. Deleting a dream: an unknown id is answered with 404 and an id of
    somebody else's dream with 403, both without any change; the owner's
    request removes that row and no other, after which the dream can be
    neither read nor deleted again (404). *)
Theorem delete_dream_owner_only :
  ∀ (k user : N) (now : Z) (db : DB.t),
    let h := Dreams.delete_dream k user db in
    (DB.dreams db !! k = None → h = refuse db 404 "Dream not found")
    ∧ (∀ d, DB.dreams db !! k = Some d → Dream.user_id d ≠ user →
         h = refuse db 403 "Access denied")
    ∧ (∀ d, DB.dreams db !! k = Some d → Dream.user_id d = user →
         reply h = Success 204 ()
         ∧ DB.dreams (db_after h) !! k = None
         ∧ (∀ k', k' ≠ k → DB.dreams (db_after h) !! k' = DB.dreams db !! k')
         ∧ DB.moments (db_after h) = DB.moments db
         ∧ status_of (reply (Dreams.get_dream k now (db_after h))) = 404%Z
         ∧ status_of (reply (Dreams.delete_dream k user (db_after h))) = 404%Z).
Proof.
  intros k user now db h. subst h. unfold Dreams.delete_dream.
  repeat apply conj.
  - by intros ->.
  - intros d -> Hu. by rewrite bool_decide_eq_true_2.
  - intros d -> Hu. rewrite bool_decide_eq_false_2 by (by intros ?).
    cbn [reply db_after DB.dreams DB.moments].
    repeat apply conj; try done.
    + apply lookup_delete_eq.
    + intros k' Hk'. by apply lookup_delete_ne.
    + rewrite get_dream_status. cbn [DB.dreams]. by rewrite lookup_delete_eq.
    + cbn [DB.dreams]. by rewrite lookup_delete_eq.
Qed.

Lemma delete_dream_owner_only_witness :
  let d := Dream.Make 4 1 None "a walk through the town" None None None None
             0 604800000000 7 true true 0 in
  Dreams.delete_dream 4 2 (DB.Make {[ 4%N := d ]} ∅)
  = refuse (DB.Make {[ 4%N := d ]} ∅) 403 "Access denied".
Proof.
  intros d.
  destruct (delete_dream_owner_only 4 2 0 (DB.Make {[ 4%N := d ]} ∅)) as (_ & H & _).
  apply (H d); [vm_compute; reflexivity|]. vm_compute. discriminate.
Defined.

(** X13. Creating a dream and then deleting it, as its owner, gives back the
    database there was before; and until it expires the new dream, when
    public, is served by id with one view, from its expiry on it is
    answered with 410, and when private it is refused with 403. *)
Theorem create_then_read_or_delete :
  ∀ (settings : Settings.t) (content_moderator : ContentModerator.t)
    (dream_data : DreamCreate.t) (user : N) (clock0 clock1 now : Z) (db : DB.t) s d,
    let h := Dreams.create_dream settings content_moderator dream_data user clock0 clock1 db in
    reply h = Success s d →
    db_after (Dreams.delete_dream (Dream.id d) user (db_after h)) = db
    ∧ status_of (reply (Dreams.get_dream (Dream.id d) now (db_after h)))
      = (if bool_decide (Dream.expires_at d ≤ now)%Z then 410
         else if DreamCreate.is_public dream_data then 200 else 403)%Z
    ∧ ((now < Dream.expires_at d)%Z → DreamCreate.is_public dream_data = true →
       reply (Dreams.get_dream (Dream.id d) now (db_after h))
       = Success 200 (Dream.set_view_count 1 d)).
Proof.
  intros settings content_moderator dream_data user clock0 clock1 now db s d h Hr.
  assert (Dream.is_public d = DreamCreate.is_public dream_data
          ∧ Dream.view_count d = 0%Z) as [Hp Hv].
  { subst h. unfold Dreams.create_dream in Hr.
    destruct (ContentModerator.flagged _); [done|]. cbv zeta in Hr.
    case_bool_decide; [done|]. cbn in Hr. by injection Hr as <- <-. }
  apply create_dream_success in Hr as (_ & _ & _ & Hu & _ & _ & _ & _ & Hfresh & Hdb).
  fold h in Hdb. rewrite Hdb. repeat apply conj.
  - unfold Dreams.delete_dream. cbn [DB.dreams DB.moments]. rewrite lookup_insert_eq.
    rewrite bool_decide_eq_false_2 by (by intros ?). cbn [db_after].
    rewrite delete_insert_id by done. by destruct db.
  - rewrite get_dream_status. cbn [DB.dreams]. rewrite lookup_insert_eq. by rewrite Hp.
  - intros He Hpub. unfold Dreams.get_dream. cbn [DB.dreams]. rewrite lookup_insert_eq.
    rewrite bool_decide_eq_false_2 by lia. rewrite Hp, Hpub. cbn [negb reply].
    by rewrite Hv.
Qed.

Lemma create_then_read_or_delete_witness :
  let content_moderator :=
    ContentModerator.Make (λ _, ContentModerator.Result false []) (λ _, EmptyString) in
  let dream_data := DreamCreate.Make "a long walk through the old town" None None true 7 in
  let h := Dreams.create_dream Settings.default content_moderator dream_data 1 1000 2000
             (DB.Make ∅ ∅) in
  ∃ d, reply h = Success 201 d
       ∧ db_after (Dreams.delete_dream (Dream.id d) 1 (db_after h)) = DB.Make ∅ ∅.
Proof.
  intros content_moderator dream_data h.
  eexists. split; [vm_compute; reflexivity|].
  refine (proj1 (create_then_read_or_delete Settings.default content_moderator dream_data
                   1%N 1000%Z 2000%Z 0%Z (DB.Make ∅ ∅) 201%Z _ _)).
  vm_compute. reflexivity.
Defined.

(** ** The enrichment tasks *)

Section enrichment_tasks.

Variable analysis_loads : string → option AIService.analysis.
Variable dream_prompt : string → string.
Variable model : string.
Variable ai_service : AIService.t.
Variable backend : AIService.image_backend.

#[local] Abbreviation process_dream_ai :=
  (Dreams.process_dream_ai analysis_loads dream_prompt model ai_service backend).

(** The row the task writes for a dream. *)
#[local] Abbreviation enriched := (λ (a : AIService.analysis) (description : string),
  Dream.set_enrichment a (AIService.get_list (AIService.tags a))
    (AIService.generate_dream_image ai_service backend
       (default (Py.prefix 200 description) (AIService.visual_prompt a)) None)).

Lemma process_dream_ai_run dream_id description db :
  ∃ a, result (AIService.analyze_dream analysis_loads dream_prompt model ai_service description)
       = Returned a
       ∧ result (process_dream_ai dream_id description db)
         = Returned match DB.dreams db !! dream_id with
                    | Some d =>
                        DB.Make (<[dream_id := enriched a description d]> (DB.dreams db))
                          (DB.moments db)
                    | None => db
                    end.
Proof.
  destruct (analyze_dream_returns analysis_loads dream_prompt model ai_service description)
    as [a Ha].
  exists a. split; [done|].
  unfold Dreams.process_dream_ai, try_except, mbind, M_bind. rewrite Ha. cbn.
  by destruct (DB.dreams db !! dream_id).
Qed.

Lemma swept_enriched now a tags image (d : Dream.t) :
  spec_swept_dream now (Dream.set_enrichment a tags image d)
  = Dream.set_enrichment a tags image (spec_swept_dream now d).
Proof. by destruct d. Qed.

Lemma swept_tagged now tags (m : Moment.t) :
  spec_swept_moment now (Moment.set_ai_tags tags m)
  = Moment.set_ai_tags tags (spec_swept_moment now m).
Proof. by destruct m. Qed.

(** The columns of an enriched row. *)
Lemma enriched_columns a tags image (d : Dream.t) :
  let d' := Dream.set_enrichment a tags image d in
  Dream.ai_analysis d' = Some a
  ∧ Dream.ai_tags d' = Some tags
  ∧ Dream.generated_image_url d' = image
  ∧ dream_content d' = dream_content d
  ∧ Dream.is_visible d' = Dream.is_visible d
  ∧ Dream.view_count d' = Dream.view_count d.
Proof. by destruct d. Qed.

Lemma tagged_columns tags (m : Moment.t) :
  let m' := Moment.set_ai_tags tags m in
  Moment.ai_tags m' = Some tags
  ∧ moment_content m' = moment_content m
  ∧ Moment.is_visible m' = Moment.is_visible m
  ∧ Moment.view_count m' = Moment.view_count m.
Proof. by destruct m. Qed.

End enrichment_tasks.

(** X14. The enrichment task of a dream never raises. In the row of the
    given id it sets [ai_analysis] to the analysis, [ai_tags] to its tags
    and [generated_image_url] to the url of the image, and leaves every
    other column as it was; it changes no other dream and no moment; when
    the row is gone it changes nothing. It commutes with the visibility
    sweep: enriching after a sweep or sweeping after the enrichment gives
    the same database. *)
Theorem process_dream_ai_only_enriches :
  ∀ (analysis_loads : string → option AIService.analysis) (dream_prompt : string → string)
    (model : string) (ai_service : AIService.t) (backend : AIService.image_backend)
    (dream_id : N) (description : string) (db : DB.t),
    let run := Dreams.process_dream_ai analysis_loads dream_prompt model ai_service backend
                 dream_id description in
    ∃ db' a,
      result (run db) = Returned db'
      ∧ result (AIService.analyze_dream analysis_loads dream_prompt model ai_service description)
        = Returned a
      ∧ DB.moments db' = DB.moments db
      ∧ (∀ k, k ≠ dream_id → DB.dreams db' !! k = DB.dreams db !! k)
      ∧ (∀ d, DB.dreams db !! dream_id = Some d →
           ∃ d', DB.dreams db' !! dream_id = Some d'
                 ∧ Dream.ai_analysis d' = Some a
                 ∧ Dream.ai_tags d' = Some (AIService.get_list (AIService.tags a))
                 ∧ Dream.generated_image_url d'
                   = AIService.generate_dream_image ai_service backend
                       (default (Py.prefix 200 description) (AIService.visual_prompt a)) None
                 ∧ dream_content d' = dream_content d
                 ∧ Dream.is_visible d' = Dream.is_visible d
                 ∧ Dream.view_count d' = Dream.view_count d)
      ∧ (DB.dreams db !! dream_id = None → db' = db)
      ∧ (∀ now, result (run (Cleanup.sweep now db)) = Returned (Cleanup.sweep now db')).
Proof.
  intros analysis_loads dream_prompt model ai_service backend dream_id description db run.
  subst run.
  destruct (process_dream_ai_run analysis_loads dream_prompt model ai_service backend
              dream_id description db) as (a & Ha & Hrun).
  cbv beta in Hrun. eexists _, a. split; [exact Hrun|]. split; [exact Ha|].
  assert (∀ k db0,
    DB.dreams match DB.dreams db0 !! dream_id with
              | Some d =>
                  DB.Make (<[dream_id :=
                     Dream.set_enrichment a (AIService.get_list (AIService.tags a))
                       (AIService.generate_dream_image ai_service backend
                          (default (Py.prefix 200 description) (AIService.visual_prompt a))
                          None) d]> (DB.dreams db0)) (DB.moments db0)
              | None => db0
              end !! k
    = if decide (k = dream_id)
      then Dream.set_enrichment a (AIService.get_list (AIService.tags a))
             (AIService.generate_dream_image ai_service backend
                (default (Py.prefix 200 description) (AIService.visual_prompt a)) None)
           <$> DB.dreams db0 !! k
      else DB.dreams db0 !! k) as Hlook.
  { intros k db0. destruct (decide (k = dream_id)) as [->|Hne].
    - destruct (DB.dreams db0 !! dream_id) eqn:Hd; cbn; [|by rewrite Hd].
      by rewrite lookup_insert_eq.
    - destruct (DB.dreams db0 !! dream_id) eqn:Hd; cbn; [|done].
      by rewrite lookup_insert_ne. }
  assert (∀ db0,
    DB.moments match DB.dreams db0 !! dream_id with
               | Some d =>
                   DB.Make (<[dream_id :=
                      Dream.set_enrichment a (AIService.get_list (AIService.tags a))
                        (AIService.generate_dream_image ai_service backend
                           (default (Py.prefix 200 description) (AIService.visual_prompt a))
                           None) d]> (DB.dreams db0)) (DB.moments db0)
               | None => db0
               end = DB.moments db0) as Hmom.
  { intros db0. by destruct (DB.dreams db0 !! dream_id). }
  split; [apply Hmom|]. split; [|split; [|split]].
  - intros k Hk. rewrite Hlook. by rewrite decide_False.
  - intros d Hd. eexists. split.
    + rewrite Hlook, decide_True by done. rewrite Hd. reflexivity.
    + apply enriched_columns.
  - by intros ->.
  - intros now.
    destruct (process_dream_ai_run analysis_loads dream_prompt model ai_service backend
                dream_id description (Cleanup.sweep now db)) as (a' & Ha' & ->).
    cbv beta. rewrite Ha in Ha'. injection Ha' as <-. f_equal.
    apply db_eq; intros k.
    + rewrite Hlook, !sweep_dreams, Hlook.
      destruct (decide (k = dream_id)); [|done].
      destruct (DB.dreams db !! k); cbn; [|done]. by rewrite swept_enriched.
    + rewrite Hmom, !sweep_moments. by rewrite Hmom.
Qed.

Lemma process_dream_ai_only_enriches_witness :
  let d := Dream.Make 4 1 None "flying above silver mountains" None None None None
             0 604800000000 7 true true 3 in
  let db := DB.Make {[ 4%N := d ]} ∅ in
  let backend := AIService.ImageBackend (λ _, Raised (UpstreamError "down"))
                   (λ _ _, Returned ()) "20240101_000000" "abcd1234" in
  ∃ db' d',
    result (Dreams.process_dream_ai (λ _, None) (λ s, s) "gpt" (AIService.Make None None)
              backend 4 "flying above silver mountains" db) = Returned db'
    ∧ DB.dreams db' !! 4%N = Some d'
    ∧ Dream.ai_tags d' = Some ["flying"; "above"; "silver"; "mountains"]
    ∧ Dream.generated_image_url d' = None
    ∧ Dream.view_count d' = 3%Z.
Proof.
  intros d db backend.
  destruct (process_dream_ai_only_enriches (λ _, None) (λ s, s) "gpt" (AIService.Make None None)
              backend 4 "flying above silver mountains" db)
    as (db' & a & Hrun & Ha & _ & _ & Hrow & _).
  destruct (Hrow d) as (d' & Hd' & _ & Ht & Hi & _ & _ & Hv); [vm_compute; reflexivity|].
  exists db', d'. split; [exact Hrun|]. split; [exact Hd'|].
  vm_compute in Ha. injection Ha as <-.
  split; [exact Ht|]. split; [exact Hi | exact Hv].
Defined.

(** X15. The tagging task of a moment sets [ai_tags], in the row of the
    given id, to the fallback tags of the caption and leaves every other
    column as it was; it changes no other row; when the row is gone it
    changes nothing; running it again changes nothing more; and it commutes
    with the visibility sweep. Texts are over the code points 0 to 255. *)
Theorem process_moment_ai_only_tags :
  ∀ (ai_service : AIService.t) (moment_id : N) (caption media_type : string) (db : DB.t),
    let run := Moments.process_moment_ai ai_service moment_id caption media_type in
    DB.dreams (run db) = DB.dreams db
    ∧ (∀ k, k ≠ moment_id → DB.moments (run db) !! k = DB.moments db !! k)
    ∧ (∀ m, DB.moments db !! moment_id = Some m →
         ∃ m', DB.moments (run db) !! moment_id = Some m'
               ∧ Moment.ai_tags m' = Some (spec_fallback_tags (Some caption) media_type)
               ∧ moment_content m' = moment_content m
               ∧ Moment.is_visible m' = Moment.is_visible m
               ∧ Moment.view_count m' = Moment.view_count m)
    ∧ (DB.moments db !! moment_id = None → run db = db)
    ∧ run (run db) = run db
    ∧ (∀ now, run (Cleanup.sweep now db) = Cleanup.sweep now (run db)).
Proof.
  intros ai_service moment_id caption media_type db run.
  assert (∀ k db0,
    DB.moments (run db0) !! k
    = if decide (k = moment_id)
      then Moment.set_ai_tags (spec_fallback_tags (Some caption) media_type)
           <$> DB.moments db0 !! k
      else DB.moments db0 !! k) as Hlook.
  { intros k db0. subst run. unfold Moments.process_moment_ai.
    rewrite analyze_moment_spec.
    destruct (decide (k = moment_id)) as [->|Hne].
    - destruct (DB.moments db0 !! moment_id) eqn:Hm; cbn; [|by rewrite Hm].
      by rewrite lookup_insert_eq.
    - destruct (DB.moments db0 !! moment_id) eqn:Hm; cbn; [|done].
      by rewrite lookup_insert_ne. }
  assert (∀ db0, DB.dreams (run db0) = DB.dreams db0) as Hdr.
  { intros db0. subst run. unfold Moments.process_moment_ai.
    by destruct (DB.moments db0 !! moment_id). }
  split; [apply Hdr|]. split; [|split; [|split; [|split]]].
  - intros k Hk. rewrite Hlook. by rewrite decide_False.
  - intros m Hm. eexists. split.
    + rewrite Hlook, decide_True by done. rewrite Hm. reflexivity.
    + apply tagged_columns.
  - subst run. unfold Moments.process_moment_ai. by intros ->.
  - apply db_eq; intros k; [by rewrite !Hdr|].
    rewrite !Hlook. destruct (decide (k = moment_id)); [|done].
    by destruct (DB.moments db !! k) as [[]|].
  - intros now. apply db_eq; intros k.
    + by rewrite Hdr, !sweep_dreams, Hdr.
    + rewrite Hlook, !sweep_moments, Hlook.
      destruct (decide (k = moment_id)); [|done].
      destruct (DB.moments db !! k); cbn; [|done]. by rewrite swept_tagged.
Qed.

Lemma process_moment_ai_only_tags_witness :
  let m := Moment.Make 4 1 (Some "First SNOW on the Old bridge") "photo" "/uploads/snow.jpg"
             None None 0 60000000 true 3 in
  let db := DB.Make ∅ {[ 4%N := m ]} in
  ∃ m', DB.moments (Moments.process_moment_ai (AIService.Make None None) 4
                      "First SNOW on the Old bridge" "photo" db) !! 4%N = Some m'
        ∧ Moment.ai_tags m' = Some ["first"; "snow"; "bridge"; "photo"; "moment"]
        ∧ Moment.view_count m' = 3%Z.
Proof.
  intros m db.
  destruct (process_moment_ai_only_tags (AIService.Make None None) 4
              "First SNOW on the Old bridge" "photo" db) as (_ & _ & Hrow & _).
  destruct (Hrow m) as (m' & Hm' & Ht & _ & _ & Hv); [vm_compute; reflexivity|].
  exists m'. split; [exact Hm'|]. split; [|exact Hv].
  rewrite Ht. vm_compute. reflexivity.
Defined.

(** ** Quotas *)

Section quotas.

Lemma dreams_today_insert user clock (d : Dream.t) (tbl : gmap N Dream.t) moments k :
  tbl !! k = None →
  dreams_today user clock (DB.Make (<[k := d]> tbl) moments)
  = if bool_decide (Dream.user_id d = user ∧ (utc_day_start clock ≤ Dream.created_at d)%Z)
    then S (dreams_today user clock (DB.Make tbl moments))
    else dreams_today user clock (DB.Make tbl moments).
Proof.
  intros Hk. unfold dreams_today. cbn [DB.dreams].
  case_bool_decide as Hp.
  - rewrite map_filter_insert_True by done.
    rewrite map_size_insert_None; [done|].
    apply map_lookup_filter_None. by left.
  - rewrite map_filter_insert_False by done. by rewrite delete_id.
Qed.

Lemma dreams_today_none user clock db :
  (∀ k d, DB.dreams db !! k = Some d → Dream.user_id d = user →
          (Dream.created_at d < utc_day_start clock)%Z) →
  dreams_today user clock db = 0.
Proof.
  intros Hold. unfold dreams_today. apply map_size_empty_iff, map_empty. intros k.
  apply map_lookup_filter_None. right. intros d Hd [Hu Hc]. cbn in *.
  specialize (Hold k d Hd Hu). lia.
Qed.

Lemma moment_quota_count user clock db :
  length (DB.select (Moments.created_since user (clock - Time.hours 1)) (DB.moments db))
  = moments_last_hour user clock db.
Proof.
  rewrite length_select. unfold moments_last_hour. f_equal.
  apply map_filter_ext. intros k m _; simpl.
  unfold Moments.created_since, Time.hours, Time.hour, Time.second.
  rewrite andb_true_iff, !bool_decide_eq_true.
  replace (1 * (3600 * 1000000))%Z with 3600000000%Z by lia. done.
Qed.

End quotas.

(** X16. The daily quota counts the dreams of the current UTC day only: an
    owner all of whose dreams were created before the start of the day of
    the request is admitted, however many they are, provided the text passes
    moderation and the limit is positive. *)
Theorem dream_quota_day_rollover :
  ∀ (settings : Settings.t) (content_moderator : ContentModerator.t)
    (dream_data : DreamCreate.t) (user : N) (clock0 clock1 : Z) (db : DB.t),
    ContentModerator.flagged
      (ContentModerator.check_text content_moderator (Dreams.text_to_check dream_data)) = false →
    (0 < Settings.MAX_DREAMS_PER_DAY settings)%Z →
    (∀ k d, DB.dreams db !! k = Some d → Dream.user_id d = user →
            (Dream.created_at d < utc_day_start clock0)%Z) →
    ∃ d, reply (Dreams.create_dream settings content_moderator dream_data user
                  clock0 clock1 db) = Success 201 d.
Proof.
  intros settings content_moderator dream_data user clock0 clock1 db Hf Hmax Hold.
  apply create_dream_admitted; [done|]. rewrite dreams_today_none by done. lia.
Qed.

Lemma dream_quota_day_rollover_witness :
  let content_moderator :=
    ContentModerator.Make (λ _, ContentModerator.Result false []) (λ _, EmptyString) in
  let dream_data := DreamCreate.Make "a long walk through the old town" None None true 1 in
  let row := λ i : N, (i, Dream.Make i 1 None "a walk through the town" None None None None
                            86399999999 172799999999 1 true true 0) in
  let db := DB.Make (list_to_map (row <$> [0; 1; 2; 3; 4; 5; 6; 7; 8; 9]%N)) ∅ in
  ∃ d, reply (Dreams.create_dream Settings.default content_moderator dream_data 1
                86400000000 86400000001 db) = Success 201 d.
Proof.
  intros content_moderator dream_data row db.
  apply dream_quota_day_rollover; [reflexivity | reflexivity |].
  intros k d Hk _.
  assert (Dream.created_at d = 86399999999%Z) as ->; [|reflexivity].
  subst db. cbn [DB.dreams] in Hk.
  apply elem_of_list_to_map_2 in Hk.
  apply list_elem_of_fmap in Hk as (i & [= -> ->] & _). reflexivity.
Defined.

(** X17. A dream that is created counts towards its owner's quota of the
    day it is created in, and towards nobody else's: the owner's count of
    that day goes up by one. So the request that follows the one reaching
    the limit, on the same day and with an acceptable text, is refused with
    429. *)
Theorem created_dream_counts :
  ∀ (settings : Settings.t) (content_moderator : ContentModerator.t)
    (dream_data : DreamCreate.t) (user : N) (clock0 clock1 : Z) (db : DB.t) s d,
    let h := Dreams.create_dream settings content_moderator dream_data user clock0 clock1 db in
    reply h = Success s d →
    (∀ clock, (utc_day_start clock ≤ clock1)%Z →
       dreams_today user clock (db_after h) = S (dreams_today user clock db))
    ∧ (∀ other clock, other ≠ user →
         dreams_today other clock (db_after h) = dreams_today other clock db)
    ∧ (∀ next clock2 clock3,
         (utc_day_start clock2 ≤ clock1)%Z →
         (Settings.MAX_DREAMS_PER_DAY settings ≤ Z.of_nat (S (dreams_today user clock2 db)))%Z →
         ContentModerator.flagged
           (ContentModerator.check_text content_moderator (Dreams.text_to_check next)) = false →
         status_of (reply (Dreams.create_dream settings content_moderator next user
                             clock2 clock3 (db_after h))) = 429%Z).
Proof.
  intros settings content_moderator dream_data user clock0 clock1 db s d h Hr.
  apply create_dream_success in Hr as (_ & _ & _ & Hu & Hc & _ & _ & _ & Hfresh & Hdb).
  fold h in Hdb. rewrite Hdb.
  assert (∀ clock, (utc_day_start clock ≤ clock1)%Z →
            dreams_today user clock (DB.Make (<[Dream.id d := d]> (DB.dreams db)) (DB.moments db))
            = S (dreams_today user clock db)) as Hcount.
  { intros clock Hday. rewrite dreams_today_insert by done.
    rewrite bool_decide_eq_true_2 by (split; [done|lia]). by destruct db. }
  repeat apply conj.
  - exact Hcount.
  - intros other clock Hne. rewrite dreams_today_insert by done.
    rewrite bool_decide_eq_false_2 by (intros [? _]; congruence). by destruct db.
  - intros next clock2 clock3 Hday Hmax Hf.
    rewrite create_dream_over_quota; [done|done|]. by rewrite Hcount.
Qed.

Lemma created_dream_counts_witness :
  let content_moderator :=
    ContentModerator.Make (λ _, ContentModerator.Result false []) (λ _, EmptyString) in
  let dream_data := DreamCreate.Make "a long walk through the old town" None None true 1 in
  let h := Dreams.create_dream Settings.default content_moderator dream_data 1 1000 2000
             (DB.Make ∅ ∅) in
  dreams_today 1 3000 (db_after h) = 1.
Proof.
  intros content_moderator dream_data h.
  refine (proj1 (created_dream_counts Settings.default content_moderator dream_data
                   1%N 1000%Z 2000%Z (DB.Make ∅ ∅) 201%Z _ _) 3000%Z _).
  - vm_compute. reflexivity.
  - vm_compute. discriminate.
Defined.

(** X18. The hourly quota of moments, for a request without caption or
    whose caption passes moderation: an owner with [MAX_MOMENTS_PER_HOUR] or
    more moments created in the hour (3 600 000 000 microseconds) before
    the request is refused with 429 and a detail that carries the limit,
    nothing being stored or published. Below the limit the moment is stored
    under a fresh key; when the message for that key is published, the
    answer is 201 and that message is the only one published; when
    [publish] raises, the answer is 500, the row stays stored and nothing
    is handed over. *)
Theorem moment_quota_last_hour :
  ∀ (settings : Settings.t) (content_moderator : ContentModerator.t)
    (redis_client : Redis.t) (moment_data : MomentCreate.t) (user : N)
    (clock0 clock1 : Z) (db : DB.t),
    let h := Moments.create_moment settings content_moderator redis_client moment_data user
               clock0 clock1 db in
    let limit := Settings.MAX_MOMENTS_PER_HOUR settings in
    Py.truthy (MomentCreate.caption moment_data) = false
    ∨ ContentModerator.flagged
        (ContentModerator.check_text content_moderator
           (default EmptyString (MomentCreate.caption moment_data))) = false →
    ((limit ≤ Z.of_nat (moments_last_hour user clock0 db))%Z →
       h = refuse db 429 ("Maximum " +:+ pretty limit +:+ " moments per hour"))
    ∧ ((Z.of_nat (moments_last_hour user clock0 db) < limit)%Z →
       ∃ m, Moment.user_id m = user
            ∧ DB.moments db !! Moment.id m = None
            ∧ db_after h = DB.Make (DB.dreams db) (<[Moment.id m := m]> (DB.moments db))
            ∧ (∀ u, Redis.publish redis_client "moments_stream" (Moment.id m) = Returned u →
                 reply h = Success 201 m
                 ∧ ∃ rest, scheduled h = publish "moments_stream" (Moment.id m) :: rest
                           ∧ ∀ c k, publish c k ∉ rest)
            ∧ (∀ e, Redis.publish redis_client "moments_stream" (Moment.id m) = Raised e →
                 reply h = HTTPException 500 "Internal server error"
                 ∧ scheduled h = [])).
Proof.
  intros settings content_moderator redis_client moment_data user clock0 clock1 db h limit Hok.
  subst h. unfold Moments.create_moment. cbv zeta.
  assert ((if Py.truthy (MomentCreate.caption moment_data)
           then if ContentModerator.flagged
                     (ContentModerator.check_text content_moderator
                        (default EmptyString (MomentCreate.caption moment_data)))
                then Some (ContentModerator.get_violation_message content_moderator
                             (ContentModerator.check_text content_moderator
                                (default EmptyString (MomentCreate.caption moment_data))))
                else None
           else None) = None) as ->.
  { destruct Hok as [-> | ->]; [done|]. by destruct (Py.truthy _). }
  rewrite moment_quota_count. fold limit. split; intros Hq.
  - by rewrite bool_decide_eq_true_2.
  - rewrite bool_decide_eq_false_2 by lia.
    exists (Moment.Make (DB.new_id (DB.moments db)) user (MomentCreate.caption moment_data)
              (MomentCreate.media_type moment_data) (MomentCreate.media_url moment_data)
              (MomentCreate.location moment_data) None clock1
              (clock1 + Time.seconds (Settings.MOMENT_TTL_SECONDS settings))%Z true 0).
    cbn [Moment.id Moment.user_id].
    split; [done|]. split; [apply new_id_fresh|]. split; [|split].
    + by destruct (Redis.publish redis_client _ _).
    + intros u ->. split; [done|]. cbn [scheduled].
      eexists. split; [done|]. intros c k.
      destruct (_ && _); [|apply not_elem_of_nil].
      by intros [=]%list_elem_of_singleton.
    + by intros e ->.
Qed.

Lemma moment_quota_last_hour_witness :
  let content_moderator :=
    ContentModerator.Make (λ _, ContentModerator.Result true []) (λ _, "flagged") in
  let redis_client := Redis.Make (λ _ _, Raised (UpstreamError "connection refused")) in
  let moment_data := MomentCreate.Make None "photo" "/uploads/moments/a.jpg" None in
  let h := Moments.create_moment Settings.default content_moderator redis_client moment_data 1
             1000 2000 (DB.Make ∅ ∅) in
  reply h = HTTPException 500 "Internal server error"
  ∧ scheduled h = []
  ∧ ∃ m, db_after h = DB.Make ∅ {[ Moment.id m := m ]} ∧ Moment.user_id m = 1%N.
Proof.
  intros content_moderator redis_client moment_data h.
  destruct (moment_quota_last_hour Settings.default content_moderator redis_client moment_data
              1%N 1000%Z 2000%Z (DB.Make ∅ ∅)) as [_ H]; [by left|].
  destruct H as (m & Hu & _ & Hdb & _ & Hfail); [vm_compute; reflexivity|].
  destruct (Hfail (UpstreamError "connection refused")) as [Hr Hs]; [reflexivity|].
  split; [exact Hr|]. split; [exact Hs|].
  exists m. split; [|exact Hu]. fold h in Hdb. rewrite Hdb. reflexivity.
Defined.

(** X19. What a creation request leaves behind. A dream request that is not
    answered with 201 leaves the database as it was and hands over no
    work, and so does a moment request answered with neither 201 nor 500.
    A moment request is answered with 500 exactly when the row has been
    stored and its publication raised: the row stays and nothing is handed
    over. A request answered with 201 adds one row and touches no other
    row, and hands over the analysis task exactly when the AI features are
    enabled (for a moment, when moreover there is a caption). *)
Theorem creation_is_atomic :
  ∀ (settings : Settings.t) (content_moderator : ContentModerator.t)
    (redis_client : Redis.t) (dream_data : DreamCreate.t) (moment_data : MomentCreate.t)
    (user : N) (clock0 clock1 : Z) (db : DB.t),
    let h := Dreams.create_dream settings content_moderator dream_data user clock0 clock1 db in
    let g := Moments.create_moment settings content_moderator redis_client moment_data user
               clock0 clock1 db in
    (status_of (reply h) ≠ 201%Z → db_after h = db ∧ scheduled h = [])
    ∧ (status_of (reply g) ≠ 201%Z → status_of (reply g) ≠ 500%Z →
       db_after g = db ∧ scheduled g = [])
    ∧ (status_of (reply g) = 500%Z →
       scheduled g = []
       ∧ ∃ m e, Redis.publish redis_client "moments_stream" (Moment.id m) = Raised e
                ∧ DB.moments db !! Moment.id m = None
                ∧ db_after g = DB.Make (DB.dreams db) (<[Moment.id m := m]> (DB.moments db)))
    ∧ (∀ s d, reply h = Success s d →
         DB.moments (db_after h) = DB.moments db
         ∧ (∀ k, k ≠ Dream.id d → DB.dreams (db_after h) !! k = DB.dreams db !! k)
         ∧ scheduled h
           = if Settings.ENABLE_AI_FEATURES settings
             then [process_dream_ai (Dream.id d) (DreamCreate.description dream_data)]
             else [])
    ∧ (∀ s m, reply g = Success s m →
         DB.dreams (db_after g) = DB.dreams db
         ∧ (∀ k, k ≠ Moment.id m → DB.moments (db_after g) !! k = DB.moments db !! k)
         ∧ is_returned (Redis.publish redis_client "moments_stream" (Moment.id m)) = true
         ∧ scheduled g
           = publish "moments_stream" (Moment.id m)
             :: if Settings.ENABLE_AI_FEATURES settings
                   && Py.truthy (MomentCreate.caption moment_data)
                then [process_moment_ai (Moment.id m)
                        (default EmptyString (MomentCreate.caption moment_data))
                        (MomentCreate.media_type moment_data)]
                else []).
Proof.
  intros settings content_moderator redis_client dream_data moment_data user clock0 clock1 db
    h g.
  subst h g. unfold Dreams.create_dream, Moments.create_moment. cbv zeta.
  split; [|split; [|split; [|split]]].
  - destruct (ContentModerator.flagged _); [done|]. by case_bool_decide.
  - destruct (if Py.truthy _ then _ else _); [done|]. case_bool_decide; [done|].
    by destruct (Redis.publish redis_client _ _).
  - destruct (if Py.truthy _ then _ else _); [done|].
    case_bool_decide; [done|].
    destruct (Redis.publish redis_client _ _) as [u|e] eqn:Hp; [done|].
    intros _. split; [done|]. eexists _, e. cbn [Moment.id db_after].
    split; [exact Hp|]. split; [apply new_id_fresh | done].
  - intros s d. destruct (ContentModerator.flagged _); [done|].
    case_bool_decide; [done|]. cbn. intros [= <- <-]. cbn.
    repeat apply conj; try done. intros k Hk. by rewrite lookup_insert_ne.
  - intros s m. destruct (if Py.truthy _ then _ else _); [done|].
    case_bool_decide; [done|].
    destruct (Redis.publish redis_client _ _) eqn:Hp; [|done].
    cbn in Hp. cbn. intros [= <- <-]. cbn. rewrite Hp.
    repeat apply conj; try done. intros k Hk. by rewrite lookup_insert_ne.
Qed.

Lemma creation_is_atomic_witness :
  let content_moderator :=
    ContentModerator.Make (λ _, ContentModerator.Result true []) (λ _, "flagged") in
  let redis_client := Redis.Make (λ _ _, Returned ()) in
  let dream_data := DreamCreate.Make "a long walk through the old town" None None true 1 in
  let moment_data := MomentCreate.Make None "photo" "/uploads/moments/a.jpg" None in
  let h := Dreams.create_dream Settings.default content_moderator dream_data 1 1000 2000
             (DB.Make ∅ ∅) in
  db_after h = DB.Make ∅ ∅ ∧ scheduled h = [].
Proof.
  intros content_moderator redis_client dream_data moment_data h.
  destruct (creation_is_atomic Settings.default content_moderator redis_client dream_data
              moment_data 1%N 1000%Z 2000%Z (DB.Make ∅ ∅)) as (H & _).
  apply H. vm_compute. discriminate.
Defined.

(** ** Connections and the listener *)

Section connections.

Import ConnectionManager.

Lemma sends_to_app c w new :
  sends_to c (World (manager w) (calls w ++ new))
  = sends_to c w + length (filter (λ call : N * outcome unit, call.1 = c) new).
Proof. unfold sends_to. cbn. by rewrite filter_app, length_app. Qed.

Lemma count_calls_NoDup (new : list (N * outcome unit)) c :
  NoDup new.*1 →
  length (filter (λ call : N * outcome unit, call.1 = c) new)
  = if bool_decide (c ∈ new.*1) then 1 else 0.
Proof.
  induction new as [|[x o] new IH]; [done|].
  rewrite fmap_cons. cbn [fst]. intros [Hx Hnd]%NoDup_cons.
  rewrite filter_cons. cbn [fst].
  destruct (decide (x = c)) as [->|Hne].
  - cbn [length]. rewrite IH by done.
    rewrite (bool_decide_eq_false_2 (c ∈ new.*1)) by done.
    by rewrite bool_decide_eq_true_2 by left.
  - rewrite IH by done. rewrite (bool_decide_ext (c ∈ x :: new.*1) (c ∈ new.*1)); [done|].
    rewrite elem_of_cons. split; [by intros [->|?]|by right].
Qed.

Lemma count_calls_live net message log c (live : gset N) :
  length (filter (λ call : N * outcome unit, call.1 = c)
            (calls_of_pass net message log (elements live)))
  = if bool_decide (c ∈ live) then 1 else 0.
Proof.
  rewrite count_calls_NoDup; rewrite calls_of_pass_sockets; [|apply NoDup_elements].
  by rewrite (bool_decide_ext (c ∈ elements live) (c ∈ live)) by apply elem_of_elements.
Qed.

(** A pass over sockets that accept. *)
Lemma calls_of_pass_accepted net message l : ∀ log0,
  (∀ log c, c ∈ l → is_returned (net (log0 ++ log) c message) = true) →
  calls_of_pass net message log0 l = (λ c, (c, Returned ())) <$> l.
Proof.
  induction l as [|c l IH]; intros log0 Hok; [done|].
  cbn [calls_of_pass]. rewrite fmap_cons.
  assert (is_returned (net log0 c message) = true) as Hc.
  { rewrite <- (app_nil_r log0) at 1. apply Hok. by left. }
  destruct (net log0 c message) as [[]|e] eqn:Hn; [|done].
  f_equal. apply IH. intros log c' Hc'. rewrite <- app_assoc. apply Hok. by right.
Qed.

(** One broadcast, for one socket. *)
Lemma broadcast_one net message w c :
  let w' := (broadcast net message w).1 in
  (broadcast net message w).2 = Returned ()
  ∧ sends_to c w'
    = sends_to c w + (if bool_decide (c ∈ active_connections (manager w)) then 1 else 0)
  ∧ (c ∈ active_connections (manager w') → c ∈ active_connections (manager w))
  ∧ (c ∈ active_connections (manager w) →
     (∀ log, is_returned (net log c message) = true) →
     c ∈ active_connections (manager w')).
Proof.
  rewrite broadcast_run. cbn [fst snd]. split; [done|]. split; [|split].
  - unfold sends_to at 1. cbn [calls]. rewrite filter_app, length_app.
    by rewrite count_calls_live.
  - cbn. by intros [? _]%elem_of_difference.
  - cbn. intros Hc Hok. apply elem_of_difference. split; [done|].
    rewrite elem_of_list_to_set, elem_of_failed. intros [e He].
    apply list_elem_of_lookup in He as [i Hi].
    apply calls_of_pass_outcome in Hi. specialize (Hok (calls w ++ take i
      (calls_of_pass net message (calls w) (elements (active_connections (manager w)))))).
    by rewrite <- Hi in Hok.
Qed.

Lemma listener_loop net (messages : list pubsub_message) : ∀ w,
  ∃ w',
    for_each messages
      (λ message,
         if String.eqb (type message) "message"
         then broadcast net (new_moment_event (data message))
         else skip) w = (w', Returned ())
    ∧ (∀ c, c ∈ active_connections (manager w') → c ∈ active_connections (manager w))
    ∧ (∀ c, c ∉ active_connections (manager w) → sends_to c w' = sends_to c w)
    ∧ (∀ c, c ∈ active_connections (manager w) →
            (∀ log m, is_returned (net log c m) = true) →
            c ∈ active_connections (manager w')
            ∧ sends_to c w'
              = sends_to c w
                + length (filter (λ m, String.eqb (type m) "message" = true) messages)).
Proof.
  induction messages as [|message messages IH]; intros w.
  - exists w. cbn. repeat split; try done; lia.
  - cbn [for_each]. rewrite filter_cons.
    destruct (String.eqb (type message) "message") eqn:Ht.
    + destruct (broadcast_one net (new_moment_event (data message)) w 0%N) as (Hr & _).
      destruct (broadcast net (new_moment_event (data message)) w) as [w1 r] eqn:Hb.
      cbn in Hr. subst r.
      destruct (IH w1) as (w' & -> & Hsub & Hout & Hin).
      exists w'. split; [done|].
      assert (∀ c, sends_to c w1
                   = sends_to c w
                     + (if bool_decide (c ∈ active_connections (manager w)) then 1 else 0)
                   ∧ (c ∈ active_connections (manager w1) →
                      c ∈ active_connections (manager w))
                   ∧ (c ∈ active_connections (manager w) →
                      (∀ log, is_returned (net log c (new_moment_event (data message))) = true) →
                      c ∈ active_connections (manager w1)))
        as Hone.
      { intros c. pose proof (broadcast_one net (new_moment_event (data message)) w c) as H.
        rewrite Hb in H. cbn in H. tauto. }
      repeat split.
      * intros c Hc%Hsub. by apply Hone in Hc.
      * intros c Hc. rewrite Hout.
        -- destruct (Hone c) as [-> _]. rewrite bool_decide_eq_false_2 by done. lia.
        -- intros Hc1. by apply Hone in Hc1.
      * apply Hin; [|done]. apply Hone; [done|]. intros log. apply H0.
      * destruct (Hin c) as [_ ->]; [apply Hone; [done|]; intros log; apply H0|done|].
        destruct (Hone c) as [-> _]. rewrite bool_decide_eq_true_2 by done.
        rewrite decide_True by done. cbn [length]. lia.
    + unfold skip at 1. destruct (IH w) as (w' & -> & Hsub & Hout & Hin).
      exists w'. split; [done|]. rewrite decide_False by done. done.
Qed.

End connections.

(** X20. Connecting and disconnecting: a socket that has been connected gets
    exactly one call in the next broadcast; one that has been disconnected
    gets none; disconnecting a socket that is not in the set changes
    nothing, and disconnecting right after connecting a new socket gives
    back the set there was. *)
Theorem connect_disconnect_broadcast :
  ∀ (net : ConnectionManager.transport) (message : json)
    (self : ConnectionManager.t) (log : list (N * outcome unit)) (c : N),
    let sends := λ m,
      ConnectionManager.sends_to c
        (ConnectionManager.broadcast net message (ConnectionManager.World m log)).1 in
    sends (ConnectionManager.connect c self)
    = ConnectionManager.sends_to c (ConnectionManager.World self log) + 1
    ∧ sends (ConnectionManager.disconnect c self)
      = ConnectionManager.sends_to c (ConnectionManager.World self log)
    ∧ (c ∉ ConnectionManager.active_connections self →
       ConnectionManager.disconnect c self = self
       ∧ ConnectionManager.disconnect c (ConnectionManager.connect c self) = self)
    ∧ ConnectionManager.disconnect c (ConnectionManager.disconnect c self)
      = ConnectionManager.disconnect c self
    ∧ ConnectionManager.connect c (ConnectionManager.connect c self)
      = ConnectionManager.connect c self.
Proof.
  intros net message [live] log c sends. subst sends. cbv beta.
  repeat apply conj.
  - destruct (broadcast_one net message
                (ConnectionManager.World (ConnectionManager.connect c
                   (ConnectionManager.Make live)) log) c) as (_ & -> & _).
    unfold ConnectionManager.sends_to. cbn.
    rewrite bool_decide_eq_true_2; [done|]. apply elem_of_union. left.
    by apply elem_of_singleton.
  - destruct (broadcast_one net message
                (ConnectionManager.World (ConnectionManager.disconnect c
                   (ConnectionManager.Make live)) log) c) as (_ & -> & _).
    unfold ConnectionManager.sends_to. cbn.
    rewrite bool_decide_eq_false_2; [lia|].
    intros [_ Hc]%elem_of_difference. apply Hc. by apply elem_of_singleton.
  - cbn. intros Hc. split; unfold ConnectionManager.disconnect, ConnectionManager.connect;
      cbn; f_equal; apply set_eq; intros x; set_unfold; intuition congruence.
  - unfold ConnectionManager.disconnect. cbn. f_equal. apply set_eq. intros x.
    set_unfold. tauto.
  - unfold ConnectionManager.connect. cbn. f_equal. apply set_eq. intros x.
    set_unfold. tauto.
Qed.

Lemma connect_disconnect_broadcast_witness :
  ConnectionManager.disconnect 3 (ConnectionManager.connect 3 (ConnectionManager.Make {[ 1%N ]}))
  = ConnectionManager.Make {[ 1%N ]}.
Proof.
  destruct (connect_disconnect_broadcast (λ _ _ _, Returned ()) JNull
              (ConnectionManager.Make {[ 1%N ]}) [] 3%N) as (_ & _ & H & _).
  apply H. cbn. intros Hin%elem_of_singleton. discriminate Hin.
Defined.

(** X21. Two broadcasts in a row. A socket the first one dropped is not
    called by the second: a failed socket is never tried again. A socket
    the first one left is called exactly once more. The set only shrinks:
    the second broadcast leaves the sockets whose second call did not
    raise, so that a connection that broke in between is dropped by it,
    and when the sockets that were left still accept it drops nobody. *)
Theorem broadcast_again_is_stable :
  ∀ (net : ConnectionManager.transport) (message : json) (w : ConnectionManager.world),
    let w1 := (ConnectionManager.broadcast net message w).1 in
    let w2 := (ConnectionManager.broadcast net message w1).1 in
    let live1 := ConnectionManager.active_connections (ConnectionManager.manager w1) in
    (∀ c, c ∈ ConnectionManager.active_connections (ConnectionManager.manager w2) →
          c ∈ live1)
    ∧ (∀ c, c ∈ live1 →
            c ∈ ConnectionManager.active_connections (ConnectionManager.manager w))
    ∧ (∀ c, c ∉ live1 → ConnectionManager.sends_to c w2 = ConnectionManager.sends_to c w1)
    ∧ (∀ c, c ∈ live1 → ConnectionManager.sends_to c w2 = ConnectionManager.sends_to c w1 + 1)
    ∧ ((∀ log c, c ∈ live1 →
          is_returned (net (ConnectionManager.calls w1 ++ log) c message) = true) →
       ConnectionManager.manager w2 = ConnectionManager.manager w1
       ∧ ConnectionManager.calls w2
         = ConnectionManager.calls w1 ++ ((λ c, (c, Returned ())) <$> elements live1))
    ∧ (∀ c, c ∈ ConnectionManager.active_connections (ConnectionManager.manager w2)
            ↔ c ∈ live1
              ∧ ∀ e, (c, Raised e)
                     ∉ drop (length (ConnectionManager.calls w1)) (ConnectionManager.calls w2)).
Proof.
  intros net message w w1 w2 live1.
  assert (∀ c, ConnectionManager.sends_to c w2
               = ConnectionManager.sends_to c w1 + (if bool_decide (c ∈ live1) then 1 else 0)
               ∧ (c ∈ ConnectionManager.active_connections (ConnectionManager.manager w2) →
                  c ∈ live1)) as Hsecond.
  { intros c. destruct (broadcast_one net message w1 c) as (_ & H1 & H2 & _). by split. }
  split; [intros c; apply Hsecond|]. split.
  { intros c. by destruct (broadcast_one net message w c) as (_ & _ & H & _). }
  split. { intros c Hc. destruct (Hsecond c) as [-> _]. rewrite bool_decide_eq_false_2 by done. lia. }
  split. { intros c Hc. destruct (Hsecond c) as [-> _]. by rewrite bool_decide_eq_true_2. }
  split.
  - intros Hok. subst w2. rewrite (broadcast_run net message w1). cbn [fst].
    fold live1.
    rewrite (calls_of_pass_accepted net message (elements live1) (ConnectionManager.calls w1))
      by (intros log c Hc%elem_of_elements; by apply Hok).
    split; [|done]. cbn [ConnectionManager.manager].
    destruct (ConnectionManager.manager w1) as [conns] eqn:Hm. subst live1. cbn in *.
    f_equal. apply set_eq. intros c.
    rewrite elem_of_difference, elem_of_list_to_set, elem_of_failed.
    split; [tauto|]. intros Hc. split; [done|].
    by intros [e (c' & [=] & _)%list_elem_of_fmap].
  - intros c. subst w2. rewrite (broadcast_run net message w1).
    cbn [fst ConnectionManager.manager ConnectionManager.calls
         ConnectionManager.active_connections]. fold live1.
    rewrite drop_app_length.
    rewrite elem_of_difference, elem_of_list_to_set, elem_of_failed.
    split; intros [Hc Hn]; (split; [done|]).
    + intros e He. apply Hn. by exists e.
    + intros [e He]. by apply (Hn e).
Qed.

Lemma broadcast_again_is_stable_witness :
  let net : ConnectionManager.transport :=
    λ log c _, if (c =? 1)%N && bool_decide (2 ≤ length log)
               then Raised (UpstreamError "closed") else Returned () in
  let w := ConnectionManager.World (ConnectionManager.Make {[ 1%N; 2%N ]}) [] in
  let w1 := (ConnectionManager.broadcast net JNull w).1 in
  let w2 := (ConnectionManager.broadcast net JNull w1).1 in
  ConnectionManager.sends_to 1 w2 = 2
  ∧ elements (ConnectionManager.active_connections (ConnectionManager.manager w1)) = [2%N; 1%N]
  ∧ elements (ConnectionManager.active_connections (ConnectionManager.manager w2)) = [2%N].
Proof.
  intros net w w1 w2. split; [|split; vm_compute; reflexivity].
  destruct (broadcast_again_is_stable net JNull w) as (_ & _ & _ & H & _).
  fold w1 w2 in H. rewrite (H 1%N); [vm_compute; reflexivity|].
  apply elem_of_elements. vm_compute. right. left.
Defined.

(** X22. The Redis listener never raises. Over the messages it is given, it
    calls a socket that is live and always accepts once for each message of
    type [message] and leaves it in the set; the other messages cause no
    call; nobody joins the set; and a socket outside the set is never
    called. *)
Theorem redis_listener_fans_out :
  ∀ (net : ConnectionManager.transport) (messages : list ConnectionManager.pubsub_message)
    (w : ConnectionManager.world),
    let r := ConnectionManager.redis_listener net messages w in
    let live := ConnectionManager.active_connections (ConnectionManager.manager w) in
    let events :=
      filter (λ m, String.eqb (ConnectionManager.type m) "message" = true) messages in
    r.2 = Returned ()
    ∧ (∀ c, c ∈ ConnectionManager.active_connections (ConnectionManager.manager r.1) →
            c ∈ live)
    ∧ (∀ c, c ∉ live → ConnectionManager.sends_to c r.1 = ConnectionManager.sends_to c w)
    ∧ (∀ c, c ∈ live → (∀ log m, is_returned (net log c m) = true) →
            c ∈ ConnectionManager.active_connections (ConnectionManager.manager r.1)
            ∧ ConnectionManager.sends_to c r.1
              = ConnectionManager.sends_to c w + length events)
    ∧ (events = [] → r.1 = w).
Proof.
  intros net messages w r live events. subst r.
  unfold ConnectionManager.redis_listener, ConnectionManager.catch.
  destruct (listener_loop net messages w) as (w' & Hrun & Hsub & Hout & Hin).
  rewrite Hrun. cbn [fst snd]. repeat apply conj; try done.
  intros Hnone. clear Hsub Hout Hin. subst events live.
  revert w w' Hrun. induction messages as [|message messages IH]; intros w w' Hrun.
  - cbn in Hrun. by injection Hrun as <-.
  - cbn [ConnectionManager.for_each] in Hrun. rewrite filter_cons in Hnone.
    destruct (String.eqb (ConnectionManager.type message) "message") eqn:Ht.
    + by rewrite decide_True in Hnone.
    + rewrite decide_False in Hnone by done. unfold ConnectionManager.skip at 1 in Hrun.
      by apply IH.
Qed.

Lemma redis_listener_fans_out_witness :
  let net : ConnectionManager.transport := λ _ _ _, Returned () in
  let w := ConnectionManager.World (ConnectionManager.Make {[ 1%N; 2%N ]}) [] in
  let messages :=
    [ConnectionManager.Message "subscribe" "1";
     ConnectionManager.Message "message" "new_moment:7";
     ConnectionManager.Message "message" "new_moment:8"] in
  ConnectionManager.sends_to 2 (ConnectionManager.redis_listener net messages w).1 = 2.
Proof.
  intros net w messages.
  destruct (redis_listener_fans_out net messages w) as (_ & _ & _ & H & _).
  destruct (H 2%N) as [_ ->]; [|reflexivity|reflexivity].
  apply elem_of_union. right. by apply elem_of_singleton.
Defined.

(** ** Media upload *)

Section upload.

Lemma type_photo_or_video (type : string) :
  type ∈ ["photo"; "video"] ↔ type = "photo" ∨ type = "video".
Proof. rewrite !elem_of_cons, elem_of_nil. tauto. Qed.

Lemma among_Some key l :
  Upload.among key l = true ↔ ∃ mime, key = Some mime ∧ mime ∈ l.
Proof.
  destruct key as [k|]; simpl.
  - rewrite bool_decide_eq_true. split; [eauto|]. by intros (? & [= <-] & ?).
  - split; [done|]. by intros (? & [=] & _).
Qed.

End upload.

Lemma upload_photo_cases fs file :
  let r := Upload.upload_moment_media fs file "photo" in
  (upload_valid file "photo"
   ∧ ∃ ext, upload_extension "photo" ext ∧ r = upload_stored fs file ext)
  ∨ (¬ upload_valid file "photo" ∧ ∃ detail, r = HTTPException 400 detail).
Proof.
  intros r. subst r. unfold Upload.upload_moment_media.
  rewrite bool_decide_eq_true_2 by (apply type_photo_or_video; by left).
  cbn [negb String.eqb Ascii.eqb Bool.eqb andb].
  destruct (Upload.among _ _) eqn:Ha; cbn [negb].
  - apply among_Some in Ha as (mime & Hm & Hin).
    case_bool_decide as Hs.
    + right. split; [|by eexists].
      intros [(_ & _ & Hle)|([=] & _)]. unfold Upload.MAX_PHOTO_SIZE in Hs. lia.
    + left. split.
      * left. split; [done|]. split; [by exists mime|].
        unfold Upload.MAX_PHOTO_SIZE in Hs. lia.
      * rewrite Hm. unfold upload_stored, upload_extension.
        unfold Upload.ALLOWED_PHOTO_TYPES in Hin.
        rewrite !elem_of_cons, elem_of_nil in Hin.
        destruct Hin as [->|[->|[->|[->|[]]]]];
          eexists; (split; [left; split; [done|]|vm_compute Upload.get; reflexivity]);
          rewrite !elem_of_cons; tauto.
  - right. split; [|by eexists].
    intros [(_ & Hm & _)|([=] & _)].
    apply among_Some in Hm. unfold Upload.ALLOWED_PHOTO_TYPES in Ha. congruence.
Qed.

Lemma upload_video_cases fs file :
  let r := Upload.upload_moment_media fs file "video" in
  (upload_valid file "video"
   ∧ ∃ ext, upload_extension "video" ext ∧ r = upload_stored fs file ext)
  ∨ (¬ upload_valid file "video" ∧ ∃ detail, r = HTTPException 400 detail).
Proof.
  intros r. subst r. unfold Upload.upload_moment_media.
  rewrite bool_decide_eq_true_2 by (apply type_photo_or_video; by right).
  cbn [negb String.eqb Ascii.eqb Bool.eqb andb].
  destruct (Upload.among _ _) eqn:Ha; cbn [negb].
  - apply among_Some in Ha as (mime & Hm & Hin).
    case_bool_decide as Hs.
    + right. split; [|by eexists].
      intros [([=] & _)|(_ & _ & Hle)]. unfold Upload.MAX_VIDEO_SIZE in Hs. lia.
    + left. split.
      * right. split; [done|]. split; [by exists mime|].
        unfold Upload.MAX_VIDEO_SIZE in Hs. lia.
      * rewrite Hm. unfold upload_stored, upload_extension.
        unfold Upload.ALLOWED_VIDEO_TYPES in Hin.
        rewrite !elem_of_cons, elem_of_nil in Hin.
        destruct Hin as [->|[->|[->|[]]]];
          eexists; (split; [right; split; [done|]|vm_compute Upload.get; reflexivity]);
          rewrite !elem_of_cons; tauto.
  - right. split; [|by eexists].
    intros [([=] & _)|(_ & Hm & _)].
    apply among_Some in Hm. unfold Upload.ALLOWED_VIDEO_TYPES in Ha. congruence.
Qed.

(** X23. An upload that does not pass the checks (kind [photo] or [video],
    a MIME type allowed for that kind, at most 10 MB for a photo and 50 MB
    for a video, the limit included) is refused with 400. One that passes
    them is stored as [moment_<timestamp>_<id>.<ext>], whose extension is an
    image extension for a photo and a video extension for a video, never
    the default [bin]; it is answered with the url of the file, or with 500
    when the directory or the file cannot be written. Only a valid upload
    is ever accepted. *)
Theorem upload_checked_and_named :
  ∀ (fs : Upload.storage) (file : Upload.UploadFile) (type : string),
    let r := Upload.upload_moment_media fs file type in
    (¬ upload_valid file type → ∃ detail, r = HTTPException 400 detail)
    ∧ (upload_valid file type →
       ∃ ext, upload_extension type ext ∧ r = upload_stored fs file ext)
    ∧ (∀ s url, r = Success s url → upload_valid file type).
Proof.
  intros fs file type r.
  assert ((upload_valid file type
           ∧ ∃ ext, upload_extension type ext ∧ r = upload_stored fs file ext)
          ∨ (¬ upload_valid file type ∧ ∃ detail, r = HTTPException 400 detail)) as Hcases.
  { destruct (decide (type ∈ ["photo"; "video"])) as [Ht|Ht].
    - apply type_photo_or_video in Ht as [-> | ->];
        [apply upload_photo_cases | apply upload_video_cases].
    - right. split.
      + intros [(-> & _)|(-> & _)]; apply Ht, type_photo_or_video; tauto.
      + subst r. unfold Upload.upload_moment_media.
        rewrite bool_decide_eq_false_2 by done. by eexists. }
  destruct Hcases as [[Hv Hext]|[Hn [detail Hd]]].
  - repeat apply conj; [by intros ?|done|done].
  - repeat apply conj; [by exists detail|done|].
    intros s url. by rewrite Hd.
Qed.

Lemma upload_checked_and_named_witness :
  let fs := Upload.Storage (Returned ()) (λ _ _, Returned ()) "20250101_090000" "1a2b3c4d" in
  let file := Upload.File (Some "image/jpeg") [255; 216; 255]%N in
  ∃ detail, Upload.upload_moment_media fs file "video" = HTTPException 400 detail.
Proof.
  intros fs file.
  destruct (upload_checked_and_named fs file "video") as (H & _).
  apply H. intros [([=] & _)|(_ & (mime & [= <-] & Hin) & _)].
  rewrite !elem_of_cons, elem_of_nil in Hin.
  destruct Hin as [Hin|[Hin|[Hin|[]]]]; discriminate Hin.
Defined.

(** ** Accounts *)

Section accounts.

Implicit Types (users : gmap N User.t) (l : Auth.libs) (key : N) (user : User.t).

Lemma singleton_of_NoDup {A : Type} (xs : list A) (y : A) :
  NoDup xs → y ∈ xs → (∀ x, x ∈ xs → x = y) → xs = [y].
Proof.
  intros Hnd Hin Hall. destruct xs as [|a [|b xs]].
  - by apply elem_of_nil in Hin.
  - f_equal. apply Hall. by left.
  - exfalso. apply NoDup_cons in Hnd as [Ha _]. apply Ha.
    rewrite (Hall a) by left. rewrite <- (Hall b) by (right; left). by left.
Qed.

Lemma NoDup_select {A : Type} (p : A → bool) (tbl : gmap N A) : NoDup (DB.select p tbl).
Proof. apply NoDup_map_to_list. Qed.

Lemma has_email_true address user :
  Auth.has_email address user = true ↔ User.email user = address.
Proof. unfold Auth.has_email. apply String.eqb_eq. Qed.

Lemma has_username_true name user :
  Auth.has_username name user = true ↔ User.username user = name.
Proof. unfold Auth.has_username. apply String.eqb_eq. Qed.

Lemma select_account users address key user :
  account users address key user →
  DB.select (Auth.has_email address) users = [(key, user)].
Proof.
  intros (Hk & He & Huniq). apply singleton_of_NoDup.
  - apply NoDup_select.
  - apply elem_of_select. split; [done|]. by apply has_email_true.
  - intros [k u] [Hu Hp]%elem_of_select. apply has_email_true in Hp.
    assert (k = key) as -> by eauto. congruence.
Qed.

Lemma select_nobody {A : Type} (p : A → bool) (tbl : gmap N A) :
  (∀ k a, tbl !! k = Some a → p a = false) → DB.select p tbl = [].
Proof.
  intros Hno. destruct (DB.select p tbl) as [|[k a] rows] eqn:Hs; [done|].
  assert ((k, a) ∈ DB.select p tbl) as [Hk Hp]%elem_of_select by (rewrite Hs; left).
  rewrite (Hno k a Hk) in Hp. done.
Qed.

Lemma scalar_none_nobody {A : Type} (p : A → bool) (tbl : gmap N A) :
  Auth.scalar_one_or_none (DB.select p tbl) = Returned None →
  ∀ k a, tbl !! k = Some a → p a = false.
Proof.
  intros Hs k a Hk. destruct (p a) eqn:Hp; [|done].
  assert ((k, a) ∈ DB.select p tbl) as Hin by by apply elem_of_select.
  destruct (DB.select p tbl) as [|x [|y rows]]; [|done|done].
  by apply elem_of_nil in Hin.
Qed.

(** An update of the account's row that keeps its address keeps the
    account. *)
Lemma account_update users address key user user' :
  account users address key user → User.email user' = address →
  account (<[key := user']> users) address key user'.
Proof.
  intros (Hk & He & Huniq) He'. split; [apply lookup_insert_eq|]. split; [done|].
  intros k u Hu Hue. destruct (decide (k = key)) as [|Hne]; [done|].
  rewrite lookup_insert_ne in Hu by done. eauto.
Qed.

Lemma login_found l credentials clock0 clock1 clock2 users address key user :
  normalised l (Auth.login_email credentials) = Some address →
  account users address key user →
  Auth.login l credentials clock0 clock1 clock2 users
  = let unlocked : Auth.handled Auth.Token :=
      if negb (Auth.verify_password l (Auth.login_password credentials)
                 (User.hashed_password user))
      then
        let user :=
          User.set_failed_login_attempts (User.failed_login_attempts user + 1) user in
        let user :=
          if bool_decide (5 ≤ User.failed_login_attempts user)%Z
          then User.set_locked_until (Some (clock1 + Auth.minutes 15)%Z) user
          else user in
        Auth.Handled (<[key := user]> users)
          (HTTPException 401 "Incorrect email or password")
      else if negb (User.is_active user) then
        Auth.Handled users (HTTPException 400 "Inactive user")
      else
        let users :=
          if bool_decide (0 < User.failed_login_attempts user)%Z
          then <[key := User.set_locked_until None
                           (User.set_failed_login_attempts 0 user)]> users
          else users in
        let access_token :=
          Auth.create_access_token l key
            (Some (Auth.minutes Auth.ACCESS_TOKEN_EXPIRE_MINUTES)) clock2 in
        Auth.Handled users (Success 200 (Auth.Bearer access_token "bearer")) in
    match User.locked_until user with
    | Some until =>
        if bool_decide (clock0 < until)%Z
        then Auth.Handled users
               (HTTPException 403
                  ("Account locked. Try again after " +:+ Auth.strftime_HMS until))
        else unlocked
    | None => unlocked
    end.
Proof.
  unfold normalised. intros Hn Hacc. unfold Auth.login. cbv zeta. rewrite Hn.
  by rewrite (select_account _ _ _ _ Hacc).
Qed.

End accounts.

(** X24. While an account is locked, a login for it is refused with 403,
    whatever the password, and nothing is written; the detail gives the
    time of day at which the lock ends. *)
Theorem login_locked_account :
  ∀ (l : Auth.libs) (credentials : Auth.UserLogin) (clock0 clock1 clock2 : Z)
    (users : gmap N User.t) (address : string) (key : N) (user : User.t) (until : Z),
    normalised l (Auth.login_email credentials) = Some address →
    account users address key user →
    User.locked_until user = Some until →
    (clock0 < until)%Z →
    Auth.login l credentials clock0 clock1 clock2 users
    = Auth.Handled users
        (HTTPException 403 ("Account locked. Try again after " +:+ Auth.strftime_HMS until)).
Proof.
  intros l credentials clock0 clock1 clock2 users address key user until Hn Hacc Hl Hc.
  rewrite (login_found _ _ _ _ _ _ _ _ _ Hn Hacc). cbv zeta.
  by rewrite Hl, bool_decide_eq_true_2.
Qed.

Lemma login_locked_account_witness :
  let l := Auth.Libs (λ _ _, Returned true) [] (λ _ _, Returned "hash")
             (λ _ _, "token") (λ _, None) Some in
  let user := User.Make 3 "ada" "ada@example.org" "hash" true false 0 5
                (Some 34200000000%Z) in
  Auth.login l (Auth.Credentials " Ada@Example.org " "secret") 33300000000 33300000000
    33300000000 {[ 3%N := user ]}
  = Auth.Handled {[ 3%N := user ]}
      (HTTPException 403 "Account locked. Try again after 09:30:00").
Proof.
  intros l user.
  apply (login_locked_account l _ _ _ _ _ "ada@example.org" 3%N user 34200000000%Z).
  - vm_compute. reflexivity.
  - split; [vm_compute; reflexivity|]. split; [reflexivity|].
    intros k u Hk _. apply lookup_singleton_Some in Hk as [<- _]. reflexivity.
  - reflexivity.
  - reflexivity.
Defined.

(** X25. A wrong password on an account that is not locked is answered with
    401, adds one to the count of failed attempts and, when the count
    reaches 5 or more, locks the account until 15 minutes after the
    attempt; no other row is touched. A login under an address nobody has
    gets the very same answer. *)
Theorem login_wrong_password :
  ∀ (l : Auth.libs) (credentials : Auth.UserLogin) (clock0 clock1 clock2 : Z)
    (users : gmap N User.t) (address : string) (key : N) (user : User.t),
    let h := Auth.login l credentials clock0 clock1 clock2 users in
    let failed := (User.failed_login_attempts user + 1)%Z in
    normalised l (Auth.login_email credentials) = Some address →
    account users address key user →
    (∀ until, User.locked_until user = Some until → (until ≤ clock0)%Z) →
    Auth.verify_password l (Auth.login_password credentials) (User.hashed_password user)
    = false →
    Auth.reply h = HTTPException 401 "Incorrect email or password"
    ∧ Auth.users_after h
      = <[key := User.set_locked_until
                   (if bool_decide (5 ≤ failed)%Z then Some (clock1 + 15 * 60 * Time.second)%Z
                    else User.locked_until user)
                   (User.set_failed_login_attempts failed user)]> users
    ∧ (∀ others,
         (∀ k u, others !! k = Some u → User.email u ≠ address) →
         Auth.login l credentials clock0 clock1 clock2 others
         = Auth.Handled others (HTTPException 401 "Incorrect email or password")).
Proof.
  intros l credentials clock0 clock1 clock2 users address key user h failed Hn Hacc Hlock Hv.
  subst h. rewrite (login_found _ _ _ _ _ _ _ _ _ Hn Hacc). cbv zeta. rewrite Hv.
  cbn [negb].
  assert (∀ X : Auth.handled Auth.Token,
            match User.locked_until user with
            | Some until =>
                if bool_decide (clock0 < until)%Z
                then Auth.Handled users
                       (HTTPException 403
                          ("Account locked. Try again after " +:+ Auth.strftime_HMS until))
                else X
            | None => X
            end = X) as ->.
  { intros X. destruct (User.locked_until user) as [until|] eqn:Hu; [|done].
    rewrite bool_decide_eq_false_2; [done|]. specialize (Hlock until eq_refl). lia. }
  cbn [Auth.reply Auth.users_after]. repeat apply conj.
  - done.
  - f_equal. fold failed. destruct user; cbn. unfold Auth.minutes.
    by case_bool_decide.
  - intros others Hno. unfold normalised in Hn. unfold Auth.login. cbv zeta. rewrite Hn.
    rewrite select_nobody; [done|].
    intros k u Hu. apply not_true_is_false. rewrite has_email_true. eauto.
Qed.

Lemma login_wrong_password_witness :
  let l := Auth.Libs (λ _ _, Returned false) [] (λ _ _, Returned "hash")
             (λ _ _, "token") (λ _, None) Some in
  let user := User.Make 3 "ada" "ada@example.org" "hash" true false 0 4 None in
  Auth.users_after
    (Auth.login l (Auth.Credentials "ada@example.org" "guess") 1000 2000 3000
       {[ 3%N := user ]})
  = {[ 3%N := User.Make 3 "ada" "ada@example.org" "hash" true false 0 5
                (Some 900002000%Z) ]}.
Proof.
  intros l user.
  destruct (login_wrong_password l (Auth.Credentials "ada@example.org" "guess")
              1000 2000 3000 {[ 3%N := user ]} "ada@example.org" 3%N user) as (_ & H & _).
  - vm_compute. reflexivity.
  - split; [vm_compute; reflexivity|]. split; [reflexivity|].
    intros k u Hk _. apply lookup_singleton_Some in Hk as [<- _]. reflexivity.
  - intros ? [=].
  - reflexivity.
  - rewrite H. apply insert_singleton_eq.
Defined.

(** X26. A right password on an active account that is not locked is
    answered with a bearer token for the account's key that expires 30 days
    after the login; when the account had failed attempts, their count is
    set back to 0 and the lock is cleared, and nothing else changes. *)
Theorem login_success_resets :
  ∀ (l : Auth.libs) (credentials : Auth.UserLogin) (clock0 clock1 clock2 : Z)
    (users : gmap N User.t) (address : string) (key : N) (user : User.t),
    let h := Auth.login l credentials clock0 clock1 clock2 users in
    normalised l (Auth.login_email credentials) = Some address →
    account users address key user →
    (∀ until, User.locked_until user = Some until → (until ≤ clock0)%Z) →
    Auth.verify_password l (Auth.login_password credentials) (User.hashed_password user)
    = true →
    User.is_active user = true →
    Auth.reply h
    = Success 200 (Auth.Bearer (Auth.jwt_encode l key (clock2 + Time.days 30)%Z) "bearer")
    ∧ Auth.users_after h !! key
      = Some (if bool_decide (0 < User.failed_login_attempts user)%Z
              then User.set_locked_until None (User.set_failed_login_attempts 0 user)
              else user)
    ∧ (∀ k, k ≠ key → Auth.users_after h !! k = users !! k).
Proof.
  intros l credentials clock0 clock1 clock2 users address key user h Hn Hacc Hlock Hv Ha.
  subst h. rewrite (login_found _ _ _ _ _ _ _ _ _ Hn Hacc). cbv zeta. rewrite Hv, Ha.
  cbn [negb].
  assert (∀ X : Auth.handled Auth.Token,
            match User.locked_until user with
            | Some until =>
                if bool_decide (clock0 < until)%Z
                then Auth.Handled users
                       (HTTPException 403
                          ("Account locked. Try again after " +:+ Auth.strftime_HMS until))
                else X
            | None => X
            end = X) as ->.
  { intros X. destruct (User.locked_until user) as [until|] eqn:Hu; [|done].
    rewrite bool_decide_eq_false_2; [done|]. specialize (Hlock until eq_refl). lia. }
  cbn [Auth.reply Auth.users_after]. destruct Hacc as (Hk & _). repeat apply conj.
  - done.
  - case_bool_decide; [apply lookup_insert_eq|done].
  - intros k Hne. case_bool_decide; [by apply lookup_insert_ne|done].
Qed.

Lemma login_success_resets_witness :
  let l := Auth.Libs (λ _ _, Returned true) [] (λ _ _, Returned "hash")
             (λ sub exp, pretty sub +:+ "." +:+ pretty exp) (λ _, None) Some in
  let user := User.Make 3 "ada" "ada@example.org" "hash" true false 0 2 None in
  Auth.reply
    (Auth.login l (Auth.Credentials "ada@example.org" "secret") 1000 2000 3000
       {[ 3%N := user ]})
  = Success 200 (Auth.Bearer "3.2592000003000" "bearer").
Proof.
  intros l user.
  destruct (login_success_resets l (Auth.Credentials "ada@example.org" "secret")
              1000 2000 3000 {[ 3%N := user ]} "ada@example.org" 3%N user) as (H & _).
  - vm_compute. reflexivity.
  - split; [vm_compute; reflexivity|]. split; [reflexivity|].
    intros k u Hk _. apply lookup_singleton_Some in Hk as [<- _]. reflexivity.
  - intros ? [=].
  - reflexivity.
  - reflexivity.
  - rewrite H. vm_compute. reflexivity.
Defined.

(** X27. The fifth failure locks the account: after a wrong password that
    brings the count of failed attempts to 5 or more, every login for the
    account that comes less than 15 minutes after that attempt is refused
    with 403, the right password included. Once the 15 minutes are over the
    right password logs in and clears the count, while one more wrong
    password locks the account again at once, the count not having been
    cleared by the end of the lock. *)
Theorem fifth_failure_locks :
  ∀ (l : Auth.libs) (credentials : Auth.UserLogin) (clock0 clock1 clock2 : Z)
    (users : gmap N User.t) (address : string) (key : N) (user : User.t),
    let users1 := Auth.users_after (Auth.login l credentials clock0 clock1 clock2 users) in
    let until := (clock1 + 15 * 60 * Time.second)%Z in
    normalised l (Auth.login_email credentials) = Some address →
    account users address key user →
    (∀ t, User.locked_until user = Some t → (t ≤ clock0)%Z) →
    Auth.verify_password l (Auth.login_password credentials) (User.hashed_password user)
    = false →
    (4 ≤ User.failed_login_attempts user)%Z →
    ∀ (next : Auth.UserLogin) (c0 c1 c2 : Z),
      normalised l (Auth.login_email next) = Some address →
      let h := Auth.login l next c0 c1 c2 users1 in
      ((c0 < until)%Z →
         h = Auth.Handled users1
               (HTTPException 403
                  ("Account locked. Try again after " +:+ Auth.strftime_HMS until)))
      ∧ ((until ≤ c0)%Z →
         Auth.verify_password l (Auth.login_password next) (User.hashed_password user) = true →
         User.is_active user = true →
         status_of (Auth.reply h) = 200%Z
         ∧ ∃ u, Auth.users_after h !! key = Some u
                ∧ User.failed_login_attempts u = 0%Z ∧ User.locked_until u = None)
      ∧ ((until ≤ c0)%Z →
         Auth.verify_password l (Auth.login_password next) (User.hashed_password user) = false →
         status_of (Auth.reply h) = 401%Z
         ∧ ∃ u, Auth.users_after h !! key = Some u
                ∧ User.locked_until u = Some (c1 + 15 * 60 * Time.second)%Z).
Proof.
  intros l credentials clock0 clock1 clock2 users address key user users1 until
    Hn Hacc Hlock Hv Hfour next c0 c1 c2 Hn' h.
  pose (user1 := User.set_locked_until (Some until)
                   (User.set_failed_login_attempts (User.failed_login_attempts user + 1) user)).
  assert (users1 = <[key := user1]> users) as Husers1.
  { subst users1. rewrite (login_found _ _ _ _ _ _ _ _ _ Hn Hacc). cbv zeta. rewrite Hv.
    cbn [negb].
    destruct (User.locked_until user) as [t|] eqn:Hu.
    - rewrite bool_decide_eq_false_2 by (specialize (Hlock t eq_refl); lia).
      cbn [Auth.users_after]. f_equal. cbn [User.failed_login_attempts
        User.set_failed_login_attempts]. rewrite bool_decide_eq_true_2 by lia. done.
    - cbn [Auth.users_after]. f_equal. cbn [User.failed_login_attempts
        User.set_failed_login_attempts]. rewrite bool_decide_eq_true_2 by lia. done. }
  assert (account users1 address key user1) as Hacc1.
  { rewrite Husers1. apply (account_update _ _ _ user); [done|]. by destruct Hacc as (_ & ? & _). }
  subst h. rewrite (login_found _ _ _ _ _ _ _ _ _ Hn' Hacc1). cbv zeta.
  cbn [User.locked_until user1 User.set_locked_until User.hashed_password
       User.set_failed_login_attempts User.is_active User.failed_login_attempts].
  repeat apply conj.
  - intros Hc. by rewrite bool_decide_eq_true_2.
  - intros Hc Hv' Ha. rewrite bool_decide_eq_false_2 by lia. rewrite Hv', Ha. cbn [negb].
    rewrite bool_decide_eq_true_2 by lia. cbn [Auth.reply Auth.users_after status_of].
    split; [done|]. eexists. split; [apply lookup_insert_eq|]. done.
  - intros Hc Hv'. rewrite bool_decide_eq_false_2 by lia. rewrite Hv'. cbn [negb].
    rewrite bool_decide_eq_true_2 by lia. cbn [Auth.reply Auth.users_after status_of].
    split; [done|]. eexists. split; [apply lookup_insert_eq|]. done.
Qed.

Lemma fifth_failure_locks_witness :
  let l := Auth.Libs (λ p _, Returned (bool_decide (p = [115; 101; 99]%N))) []
             (λ _ _, Returned "hash") (λ _ _, "token") (λ _, None) Some in
  let user := User.Make 3 "ada" "ada@example.org" "hash" true false 0 4 None in
  let users1 :=
    Auth.users_after
      (Auth.login l (Auth.Credentials "ada@example.org" "guess") 1000 2000 3000
         {[ 3%N := user ]}) in
  Auth.login l (Auth.Credentials "ada@example.org" "sec") 5000 6000 7000 users1
  = Auth.Handled users1
      (HTTPException 403 "Account locked. Try again after 00:15:00").
Proof.
  intros l user users1.
  refine (proj1 (fifth_failure_locks l (Auth.Credentials "ada@example.org" "guess")
                   1000 2000 3000 {[ 3%N := user ]} "ada@example.org" 3%N user
                   _ _ _ _ _ (Auth.Credentials "ada@example.org" "sec") 5000 6000 7000 _) _).
  - vm_compute. reflexivity.
  - split; [vm_compute; reflexivity|]. split; [reflexivity|].
    intros k u Hk _. apply lookup_singleton_Some in Hk as [<- _]. reflexivity.
  - intros ? [=].
  - vm_compute. reflexivity.
  - vm_compute. discriminate.
  - vm_compute. reflexivity.
  - vm_compute. reflexivity.
Defined.

Section registration.

Lemma select_single {A : Type} (p : A → bool) (tbl : gmap N A) k a :
  tbl !! k = Some a → p a = true →
  (∀ k' a', tbl !! k' = Some a' → p a' = true → k' = k) →
  DB.select p tbl = [(k, a)].
Proof.
  intros Hk Hp Huniq. apply singleton_of_NoDup.
  - apply NoDup_select.
  - by apply elem_of_select.
  - intros [k' a'] [Hk' Hp']%elem_of_select.
    assert (k' = k) as -> by eauto. congruence.
Qed.

Lemma unique_by_insert {B : Type} (f : User.t → B) (users : gmap N User.t) k u :
  unique_by f users → users !! k = None →
  (∀ k' u', users !! k' = Some u' → f u' ≠ f u) →
  unique_by f (<[k := u]> users).
Proof.
  intros Huniq Hk Hnew k1 k2 u1 u2 H1 H2 Hf.
  destruct (decide (k1 = k)) as [->|Hne1], (decide (k2 = k)) as [->|Hne2]; [done| | |].
  - rewrite lookup_insert_eq in H1. rewrite lookup_insert_ne in H2 by done.
    injection H1 as <-. exfalso. by apply (Hnew k2 u2).
  - rewrite lookup_insert_eq in H2. rewrite lookup_insert_ne in H1 by done.
    injection H2 as <-. exfalso. by apply (Hnew k1 u1).
  - rewrite lookup_insert_ne in H1, H2 by done. eauto.
Qed.

(** A registration that succeeds. *)
Lemma register_success l user_data clock users s u :
  Auth.reply (Auth.register l user_data clock users) = Success s u →
  s = 201%Z
  ∧ users !! User.id u = None
  ∧ Auth.users_after (Auth.register l user_data clock users) = <[User.id u := u]> users
  ∧ User.username u = Auth.new_username user_data
  ∧ normalised l (Auth.new_email user_data) = Some (User.email u)
  ∧ Auth.get_password_hash l (Auth.new_password user_data)
    = Returned (User.hashed_password u)
  ∧ User.is_active u = true ∧ User.is_premium u = false
  ∧ User.failed_login_attempts u = 0%Z ∧ User.locked_until u = None
  ∧ (∀ k u', users !! k = Some u' →
       User.username u' ≠ User.username u ∧ User.email u' ≠ User.email u).
Proof.
  unfold normalised, Auth.register. cbv zeta.
  destruct (Auth.validate_email l _) as [email|]; [|done].
  destruct (Auth.scalar_one_or_none (DB.select (Auth.has_username _) users))
    as [[?|]|e] eqn:Hname; try done.
  destruct (Auth.scalar_one_or_none (DB.select (Auth.has_email _) users))
    as [[?|]|e] eqn:Hmail; try done.
  destruct (Auth.get_password_hash l _) as [hashed|e] eqn:Hh; [|done].
  cbn. intros [= <- <-]. cbn. repeat apply conj; try done; [apply new_id_fresh|].
  intros k u' Hk. split.
  - intros Hu. apply has_username_true in Hu.
    by rewrite (scalar_none_nobody _ _ Hname k u' Hk) in Hu.
  - intros Hu. apply has_email_true in Hu.
    by rewrite (scalar_none_nobody _ _ Hmail k u' Hk) in Hu.
Qed.

Lemma register_failure l user_data clock users :
  (∀ s u, Auth.reply (Auth.register l user_data clock users) ≠ Success s u) →
  Auth.users_after (Auth.register l user_data clock users) = users.
Proof.
  unfold Auth.register. cbv zeta.
  destruct (Auth.validate_email l _) as [email|]; [|done].
  destruct (Auth.scalar_one_or_none (DB.select (Auth.has_username _) users))
    as [[?|]|e]; try done.
  destruct (Auth.scalar_one_or_none (DB.select (Auth.has_email _) users))
    as [[?|]|e]; try done.
  destruct (Auth.get_password_hash l _) as [hashed|e]; [|done].
  cbn. intros H. exfalso. by eapply H.
Qed.

End registration.

(** X28. Registration keeps user names and addresses unique. A request that
    is answered with 201 adds one account under a fresh key, with the
    normalised address, the hash of the password, no failed attempt and no
    lock, and no account existing before has its name or its address; any
    other answer leaves the accounts as they were; and a name that is taken
    is answered with 400. *)
Theorem register_keeps_accounts_unique :
  ∀ (l : Auth.libs) (user_data : Auth.UserCreate) (clock : Z) (users : gmap N User.t),
    let h := Auth.register l user_data clock users in
    (unique_by User.username users → unique_by User.email users →
       unique_by User.username (Auth.users_after h)
       ∧ unique_by User.email (Auth.users_after h))
    ∧ (status_of (Auth.reply h) ≠ 201%Z → Auth.users_after h = users)
    ∧ (∀ s u, Auth.reply h = Success s u →
         s = 201%Z
         ∧ users !! User.id u = None
         ∧ Auth.users_after h = <[User.id u := u]> users
         ∧ User.username u = Auth.new_username user_data
         ∧ normalised l (Auth.new_email user_data) = Some (User.email u)
         ∧ Auth.get_password_hash l (Auth.new_password user_data)
           = Returned (User.hashed_password u)
         ∧ User.failed_login_attempts u = 0%Z ∧ User.locked_until u = None)
    ∧ (∀ address k u,
         normalised l (Auth.new_email user_data) = Some address →
         unique_by User.username users →
         users !! k = Some u → User.username u = Auth.new_username user_data →
         h = Auth.Handled users (HTTPException 400 "Username already taken")).
Proof.
  intros l user_data clock users h. subst h. repeat apply conj.
  - intros Hnames Hmails.
    destruct (Auth.reply (Auth.register l user_data clock users)) as [s u| |] eqn:Hr.
    + apply register_success in Hr as (_ & Hfresh & -> & _ & _ & _ & _ & _ & _ & _ & Hnew).
      split; apply unique_by_insert; try done; intros k u' Hk; by apply Hnew in Hk as [? ?].
    + rewrite register_failure; [done|]. intros s u. by rewrite Hr.
    + rewrite register_failure; [done|]. intros s u. by rewrite Hr.
  - intros Hs. apply register_failure. intros s u Hr.
    pose proof Hr as Hr'. apply register_success in Hr' as [-> _]. by rewrite Hr in Hs.
  - intros s u Hr. apply register_success in Hr. tauto.
  - intros address k u Hn Hnames Hk Hu. unfold normalised in Hn.
    unfold Auth.register. cbv zeta. rewrite Hn.
    rewrite (select_single _ _ k u); [done|done| |].
    + by apply has_username_true.
    + intros k' u' Hk' Hu'%has_username_true. apply (Hnames k' k u' u); congruence.
Qed.

Lemma register_keeps_accounts_unique_witness :
  let l := Auth.Libs (λ _ _, Returned true) [] (λ _ _, Returned "hash")
             (λ _ _, "token") (λ _, None) Some in
  let user := User.Make 3 "ada" "ada@example.org" "hash" true false 0 0 None in
  Auth.register l (Auth.Registration "ada" "other@example.org" "long password") 1000
    {[ 3%N := user ]}
  = Auth.Handled {[ 3%N := user ]} (HTTPException 400 "Username already taken").
Proof.
  intros l user.
  destruct (register_keeps_accounts_unique l
              (Auth.Registration "ada" "other@example.org" "long password") 1000
              {[ 3%N := user ]}) as (_ & _ & _ & H).
  apply (H "other@example.org" 3%N user).
  - vm_compute. reflexivity.
  - intros k1 k2 u1 u2 H1 H2 _.
    apply lookup_singleton_Some in H1 as [<- _].
    apply lookup_singleton_Some in H2 as [<- _]. reflexivity.
  - vm_compute. reflexivity.
  - reflexivity.
Defined.

(** What an answer of [get_current_user] tells. *)
Lemma get_current_user_sound :
  ∀ (l : Auth.libs) (credentials : option string) (users : gmap N User.t),
    let r := Auth.get_current_user l credentials users in
    (∀ user, r = Auth.Authenticated user →
       ∃ token key, credentials = Some token
                    ∧ Auth.jwt_decode l token = Some (Some key)
                    ∧ users !! key = Some user
                    ∧ User.is_active user = true)
    ∧ (∀ s detail, r = Auth.Denied s detail →
         (s = 401%Z ∧ detail = "Could not validate credentials")
         ∨ (s = 400%Z ∧ detail = "Inactive user"
            ∧ ∃ token key user, credentials = Some token
                                ∧ Auth.jwt_decode l token = Some (Some key)
                                ∧ users !! key = Some user
                                ∧ User.is_active user = false))
    ∧ (∀ user, Auth.get_current_user_optional l credentials users = Some user
               ↔ r = Auth.Authenticated user)
    ∧ (credentials = None → r = Auth.Denied 401 "Could not validate credentials").
Proof.
  intros l credentials users r. subst r.
  unfold Auth.get_current_user_optional, Auth.get_current_user.
  assert (∀ c : option string,
    (∀ user, Auth.Denied 401 "Could not validate credentials" = Auth.Authenticated user →
       ∃ token key, c = Some token ∧ Auth.jwt_decode l token = Some (Some key)
                    ∧ users !! key = Some user ∧ User.is_active user = true)
    ∧ (∀ s detail, Auth.Denied 401 "Could not validate credentials" = Auth.Denied s detail →
         (s = 401%Z ∧ detail = "Could not validate credentials")
         ∨ (s = 400%Z ∧ detail = "Inactive user"
            ∧ ∃ token key user, c = Some token
                                ∧ Auth.jwt_decode l token = Some (Some key)
                                ∧ users !! key = Some user
                                ∧ User.is_active user = false))
    ∧ (∀ user, None = Some user
               ↔ Auth.Denied 401 "Could not validate credentials" = Auth.Authenticated user))
    as Hdenied.
  { intros c. split; [by intros ? [=]|]. split; [|by intros ?; split; intros [=]].
    intros ? ? [= <- <-]. by left. }
  destruct credentials as [token|].
  - destruct (Auth.jwt_decode l token) as [[key|]|] eqn:Hd.
    + destruct (users !! key) as [user|] eqn:Hk.
      * destruct (User.is_active user) eqn:Ha; cbn [negb].
        -- split; [|split; [|split]].
           ++ intros ? [= <-]. by exists token, key.
           ++ by intros ? ? [=].
           ++ intros u. split; by intros [= <-].
           ++ by intros [=].
        -- split; [|split; [|split]].
           ++ by intros ? [=].
           ++ intros ? ? [= <- <-]. right. repeat split. by exists token, key, user.
           ++ intros u. split; by intros [=].
           ++ by intros [=].
      * destruct (Hdenied (Some token)) as (H1 & H2 & H3).
        split; [done|]. split; [done|]. split; [done|]. by intros [=].
    + destruct (Hdenied (Some token)) as (H1 & H2 & H3).
      split; [done|]. split; [done|]. split; [done|]. by intros [=].
    + destruct (Hdenied (Some token)) as (H1 & H2 & H3).
      split; [done|]. split; [done|]. split; [done|]. by intros [=].
  - destruct (Hdenied None) as (H1 & H2 & H3). by repeat split.
Qed.

(** The answer, case by case. *)
Lemma get_current_user_decided (l : Auth.libs) (token : string) (users : gmap N User.t) :
  let r := Auth.get_current_user l (Some token) users in
  (∀ key user, Auth.jwt_decode l token = Some (Some key) → users !! key = Some user →
     r = if User.is_active user then Auth.Authenticated user
         else Auth.Denied 400 "Inactive user")
  ∧ (Auth.jwt_decode l token = None ∨ Auth.jwt_decode l token = Some None
     ∨ (∃ key, Auth.jwt_decode l token = Some (Some key) ∧ users !! key = None) →
     r = Auth.Denied 401 "Could not validate credentials").
Proof.
  intros r. subst r. unfold Auth.get_current_user. split.
  - intros key user -> ->. by destruct (User.is_active user).
  - intros [->|[->|(key & -> & ->)]]; done.
Qed.

(** X29. Authentication lets through existing, active accounts only: the
    user it answers with is the row stored under the [sub] of the decoded
    token and is active, and such a token is always let through; without a
    token, with a token that does not decode or has no [sub], or for a key
    without a row, the answer is 401; for an inactive account it is 400.
    The optional variant answers with the same user, and with nobody
    instead of any refusal. *)
Theorem get_current_user_active_only :
  ∀ (l : Auth.libs) (credentials : option string) (users : gmap N User.t),
    let r := Auth.get_current_user l credentials users in
    (∀ user, r = Auth.Authenticated user →
       ∃ token key, credentials = Some token
                    ∧ Auth.jwt_decode l token = Some (Some key)
                    ∧ users !! key = Some user
                    ∧ User.is_active user = true)
    ∧ (∀ s detail, r = Auth.Denied s detail →
         (s = 401%Z ∧ detail = "Could not validate credentials")
         ∨ (s = 400%Z ∧ detail = "Inactive user"
            ∧ ∃ token key user, credentials = Some token
                                ∧ Auth.jwt_decode l token = Some (Some key)
                                ∧ users !! key = Some user
                                ∧ User.is_active user = false))
    ∧ (∀ user, Auth.get_current_user_optional l credentials users = Some user
               ↔ r = Auth.Authenticated user)
    ∧ (credentials = None → r = Auth.Denied 401 "Could not validate credentials")
    ∧ (∀ token key user, credentials = Some token →
         Auth.jwt_decode l token = Some (Some key) → users !! key = Some user →
         (User.is_active user = true → r = Auth.Authenticated user)
         ∧ (User.is_active user = false → r = Auth.Denied 400 "Inactive user"))
    ∧ (∀ token, credentials = Some token →
         Auth.jwt_decode l token = None ∨ Auth.jwt_decode l token = Some None
         ∨ (∃ key, Auth.jwt_decode l token = Some (Some key) ∧ users !! key = None) →
         r = Auth.Denied 401 "Could not validate credentials").
Proof.
  intros l credentials users r.
  destruct (get_current_user_sound l credentials users) as (H1 & H2 & H3 & H4).
  split; [exact H1|]. split; [exact H2|]. split; [exact H3|]. split; [exact H4|].
  split.
  - intros token key user -> Hd Hk.
    destruct (get_current_user_decided l token users) as [H _].
    subst r. rewrite (H key user Hd Hk). split; by intros ->.
  - intros token -> Hcase. by apply get_current_user_decided.
Qed.

Lemma get_current_user_active_only_witness :
  let l := Auth.Libs (λ _ _, Returned true) [] (λ _ _, Returned "hash")
             (λ _ _, "token") (λ _, Some (Some 7%N)) Some in
  let user := User.Make 7 "mira" "mira@example.org" "hash" false false 0 0 None in
  Auth.get_current_user l (Some "token") {[ 7%N := user ]} = Auth.Denied 400 "Inactive user".
Proof.
  intros l user.
  destruct (get_current_user_active_only l (Some "token") {[ 7%N := user ]})
    as (_ & _ & _ & _ & H & _).
  apply (H "token" 7%N user); [reflexivity | reflexivity | vm_compute; reflexivity | reflexivity].
Defined.

(** ** Passwords *)

Section passwords.

Lemma decode_encode_char c rest :
  Py.decode_utf8_ignore (Py.encode_char c ++ rest) = String c (Py.decode_utf8_ignore rest).
Proof. by destruct c as [[] [] [] [] [] [] [] []]. Qed.

Lemma encode_char_length c :
  length (Py.encode_char c) = 1 ∨ length (Py.encode_char c) = 2.
Proof. unfold Py.encode_char. destruct (_ <? _)%N; [by left|by right]. Qed.

Lemma decode_lead_only c :
  length (Py.encode_char c) = 2 → Py.decode_utf8_ignore (take 1 (Py.encode_char c)) = EmptyString.
Proof. by destruct c as [[] [] [] [] [] [] [] []]. Qed.

(** The text left of a text cut after [n] bytes of its encoding. *)
Lemma cut_cons n c s :
  Py.decode_utf8_ignore (take n (Py.encode_utf8 (String c s)))
  = if bool_decide (length (Py.encode_char c) ≤ n)
    then String c (Py.decode_utf8_ignore
                     (take (n - length (Py.encode_char c)) (Py.encode_utf8 s)))
    else EmptyString.
Proof.
  cbn [Py.encode_utf8]. case_bool_decide as Hn.
  - rewrite take_app_ge by done. apply decode_encode_char.
  - destruct (encode_char_length c) as [Hl|Hl].
    + assert (n = 0) as -> by lia. done.
    + destruct n as [|[|n]]; [done| |lia].
      rewrite take_app_le by lia. by apply decode_lead_only.
Qed.

Lemma cut_length s : ∀ n,
  length (Py.encode_utf8 (Py.decode_utf8_ignore (take n (Py.encode_utf8 s)))) ≤ n.
Proof.
  induction s as [|c s IH]; intros n.
  - cbn. rewrite take_nil. cbn. lia.
  - rewrite cut_cons. case_bool_decide as Hn; [|cbn; lia].
    cbn [Py.encode_utf8]. rewrite length_app.
    specialize (IH (n - length (Py.encode_char c))). lia.
Qed.

Lemma cut_prefix s : ∀ n,
  Py.encode_utf8 (Py.decode_utf8_ignore (take n (Py.encode_utf8 s)))
  `prefix_of` Py.encode_utf8 s.
Proof.
  induction s as [|c s IH]; intros n.
  - cbn. rewrite take_nil. done.
  - rewrite cut_cons. case_bool_decide as Hn; [|apply prefix_nil].
    cbn [Py.encode_utf8]. apply prefix_app, IH.
Qed.

Lemma cut_short s : ∀ n,
  length (Py.encode_utf8 s) ≤ n →
  Py.decode_utf8_ignore (take n (Py.encode_utf8 s)) = s.
Proof.
  induction s as [|c s IH]; intros n Hn.
  - cbn. by rewrite take_nil.
  - rewrite cut_cons. cbn [Py.encode_utf8] in Hn. rewrite length_app in Hn.
    rewrite bool_decide_eq_true_2 by lia. f_equal. apply IH. lia.
Qed.

(** The bytes bcrypt receives are those of the text cut after 72 bytes. *)
Lemma bcrypt_input_cut password :
  Auth.bcrypt_input password
  = Py.encode_utf8 (Py.decode_utf8_ignore (take 72 (Py.encode_utf8 password))).
Proof.
  unfold Auth.bcrypt_input. case_bool_decide as Hl; [done|].
  by rewrite cut_short by lia.
Qed.

End passwords.

(** X30. bcrypt never receives more than 72 bytes: the password is cut to
    the longest run of whole characters that fits in the first 72 bytes of
    its UTF-8 encoding, and a password that fits is passed as it is. Hence
    two passwords whose encodings agree on their first 72 bytes are hashed
    and verified alike; and when bcrypt accepts the hashes it makes, the
    password an account was registered with verifies against its hash. *)
Theorem password_cut_at_72_bytes :
  ∀ (l : Auth.libs) (password password' hashed : string),
    length (Auth.bcrypt_input password) ≤ 72
    ∧ Auth.bcrypt_input password `prefix_of` Py.encode_utf8 password
    ∧ (length (Py.encode_utf8 password) ≤ 72 →
       Auth.bcrypt_input password = Py.encode_utf8 password)
    ∧ (take 72 (Py.encode_utf8 password) = take 72 (Py.encode_utf8 password') →
       Auth.verify_password l password hashed = Auth.verify_password l password' hashed
       ∧ Auth.get_password_hash l password = Auth.get_password_hash l password')
    ∧ ((∀ bytes salt h, Auth.hashpw l bytes salt = Returned h →
                        Auth.checkpw l bytes (Py.encode_utf8 h) = Returned true) →
       Auth.get_password_hash l password = Returned hashed →
       Auth.verify_password l password hashed = true).
Proof.
  intros l password password' hashed. repeat apply conj.
  - rewrite bcrypt_input_cut. apply cut_length.
  - rewrite bcrypt_input_cut. apply cut_prefix.
  - intros Hl. rewrite bcrypt_input_cut. by rewrite cut_short.
  - unfold Auth.verify_password, Auth.get_password_hash.
    rewrite !bcrypt_input_cut. by intros ->.
  - intros Hbcrypt Hh. unfold Auth.get_password_hash in Hh. unfold Auth.verify_password.
    by rewrite (Hbcrypt _ _ _ Hh).
Qed.

Lemma password_cut_at_72_bytes_witness :
  let l := Auth.Libs (λ p h, Returned (bool_decide (length p = 72))) []
             (λ _ _, Returned "hash") (λ _ _, "token") (λ _, None) Some in
  let long := "0123456789012345678901234567890123456789012345678901234567890123456789AB" in
  Auth.verify_password l (long +:+ "cd") "hash" = Auth.verify_password l (long +:+ "xyz") "hash".
Proof.
  intros l long.
  destruct (password_cut_at_72_bytes l (long +:+ "cd") (long +:+ "xyz") "hash")
    as (_ & _ & _ & H & _).
  apply H. vm_compute. reflexivity.
Defined.
